(** * Assessment and remediation engine of tutorat_ai (src/app.py)

    A shallow embedding of the routes of [src/app.py] that grade a student
    answer, generate a remediation, move a [RemediationSuggestion] through
    its statuses and run the guided dialogue, with the properties of the
    specification settled against them.

    Conventions of the embedding.
    - A Python [str] is the list of its Unicode code points ([text]).
    - The relational store is a record of tables, each a finite map from the
      primary key to the row; a change reaches the store when
      [db.session.commit()] succeeds.
    - The completion service is a function from the prompt to its outcome;
      the calls a request makes are recorded in order.
    - What a route prints is recorded as a journal. *)

From Stdlib Require Import NArith ZArith String Ascii List Bool Lia DecimalString.
From stdpp Require Import prelude gmap sorting.
Import ListNotations.

Local Open Scope N_scope.

(** ** Python strings *)

Module Text.

Definition char := N.
Definition text := list char.

(** Source literals are written as Rocq strings (UTF-8 bytes) and decoded
    to code points. *)
Fixpoint utf8 (bs : list N) : text :=
  match bs with
  | [] => []
  | b :: r =>
      if b <? 128 then b :: utf8 r
      else match r with
           | [] => [b]
           | b1 :: r1 =>
               if b <? 224 then ((b - 192) * 64 + (b1 - 128)) :: utf8 r1
               else match r1 with
                    | [] => [b; b1]
                    | b2 :: r2 =>
                        if b <? 240
                        then ((b - 224) * 4096 + (b1 - 128) * 64 + (b2 - 128))
                               :: utf8 r2
                        else match r2 with
                             | [] => [b; b1; b2]
                             | b3 :: r3 =>
                                 ((b - 240) * 262144 + (b1 - 128) * 4096
                                  + (b2 - 128) * 64 + (b3 - 128)) :: utf8 r3
                             end
                    end
           end
  end.

Definition lit (s : string) : text :=
  utf8 (List.map N_of_ascii (list_ascii_of_string s)).

(** [str.isspace], which is also [\s] of [re] on a [str] and the set
    [str.strip()] removes. *)
Definition espaces : list char :=
  [9; 10; 11; 12; 13; 28; 29; 30; 31; 32; 133; 160; 5760;
   8192; 8193; 8194; 8195; 8196; 8197; 8198; 8199; 8200; 8201; 8202;
   8232; 8233; 8239; 8287; 12288].

Definition isspace (c : char) : bool := existsb (N.eqb c) espaces.

(** The decimal digits of Unicode (category Nd, Unicode 14) come in runs of
    ten consecutive code points, from the digit zero up; [nd_zeros] lists
    the zero of each run.  [\d] of [re] on a [str] matches exactly these,
    and [int] reads each one as its digit value. *)
Definition nd_zeros : list char :=
  [48; 1632; 1776; 1984; 2406; 2534; 2662; 2790; 2918; 3046; 3174; 3302;
   3430; 3558; 3664; 3792; 3872; 4160; 4240; 6112; 6160; 6470; 6608; 6784;
   6800; 6992; 7088; 7232; 7248; 42528; 43216; 43264; 43472; 43504; 43600;
   44016; 65296; 66720; 68912; 69734; 69872; 69942; 70096; 70384; 70736;
   70864; 71248; 71360; 71472; 71904; 72016; 72784; 73040; 73120; 92768;
   92864; 93008; 120782; 120792; 120802; 120812; 120822; 123200; 123632;
   125264; 130032].

Definition in_run (c z : char) : bool := (z <=? c) && (c <? z + 10).

Definition decimal (c : char) : option Z :=
  match List.find (in_run c) nd_zeros with
  | Some z => Some (Z.of_N (c - z))
  | None => None
  end.

Definition isdecimal (c : char) : bool :=
  match decimal c with Some _ => true | None => false end.

(** [int(s)] for a one-character string [s] matched by [\d]. *)
Definition int (c : char) : Z :=
  match decimal c with Some v => v | None => 0%Z end.

Fixpoint lstrip (s : text) : text :=
  match s with
  | c :: s' => if isspace c then lstrip s' else s
  | [] => []
  end.

Definition strip (s : text) : text := rev (lstrip (rev (lstrip s))).

Definition eqb (a b : text) : bool := bool_decide (a = b).

End Text.

Import Text.

(** ** The two score patterns of the grading routes

    [re.search(r"(Note|Score)\s*:\s*(\d)/5", analyse_ia, re.IGNORECASE)] and
    the fallback [r"(Note|Score)\s*:\s*(\d)"], as backtracking matchers in
    continuation style: each combinator consumes a prefix of the input and
    hands the rest to its continuation; a failing continuation makes a
    greedy [\s*] give back what it took, one character at a time. *)

Module Re.

Section Combinators.
Context {A : Type}.

(** One cased ASCII letter [p] (given in lower case) under
    [re.IGNORECASE]: its two cases and, for [s], the long s U+017F. *)
Definition letter_i (p c : char) : bool :=
  (c =? p) || (c =? p - 32) || ((p =? 115) && (c =? 383)).

Fixpoint word_i (pat : text) (k : text -> option A) (s : text) : option A :=
  match pat with
  | [] => k s
  | p :: pat' =>
      match s with
      | c :: s' => if letter_i p c then word_i pat' k s' else None
      | [] => None
      end
  end.

Fixpoint exact (pat : text) (k : text -> option A) (s : text) : option A :=
  match pat with
  | [] => k s
  | p :: pat' =>
      match s with
      | c :: s' => if c =? p then exact pat' k s' else None
      | [] => None
      end
  end.

(** Greedy [cls*]. *)
Fixpoint many (cls : char -> bool) (k : text -> option A) (s : text)
  : option A :=
  match s with
  | c :: s' =>
      if cls c
      then match many cls k s' with
           | Some r => Some r
           | None => k s
           end
      else k s
  | [] => k s
  end.

(** A capturing group of one character of class [cls]. *)
Definition one (cls : char -> bool) (k : char -> text -> option A)
    (s : text) : option A :=
  match s with
  | c :: s' => if cls c then k c s' else None
  | [] => None
  end.

Definition alt (m1 m2 : text -> option A) (s : text) : option A :=
  match m1 s with
  | Some r => Some r
  | None => m2 s
  end.

(** A capturing lazy [.*?]: the shortest run of characters other than the
    newline after which the continuation matches. *)
Fixpoint lazy_dot (acc : text) (k : text -> text -> option A) (s : text)
  : option A :=
  match k (rev acc) s with
  | Some r => Some r
  | None =>
      match s with
      | c :: s' => if c =? 10 then None else lazy_dot (c :: acc) k s'
      | [] => None
      end
  end.

(** [re.search]: the match at the leftmost position that has one. *)
Fixpoint search (m : text -> option A) (s : text) : option A :=
  match m s with
  | Some r => Some r
  | None =>
      match s with
      | [] => None
      | _ :: s' => search m s'
      end
  end.
End Combinators.

(** [(Note|Score)\s*:\s*] followed by [k]. *)
Definition label_colon {A} (k : text -> option A) : text -> option A :=
  let rest := many isspace (exact (lit ":") (many isspace k)) in
  alt (word_i (lit "note") rest) (word_i (lit "score") rest).

(** [(Note|Score)\s*:\s*(\d)/5]; the result is group 2. *)
Definition score_sur_5 : text -> option char :=
  label_colon (one isdecimal (fun d => exact (lit "/5") (fun _ => Some d))).

(** [(Note|Score)\s*:\s*(\d)]; the result is group 2. *)
Definition score_sans_5 : text -> option char :=
  label_colon (one isdecimal (fun d _ => Some d)).

End Re.

(** The lines the routes print about the score they extract and in their
    [except] handlers.  The other lines they print (the trace of the form
    fields, of a refusal, of the steps of a request) are not kept: an empty
    journal says that none of the lines below was printed, not that nothing
    was. *)
Inductive journal_line :=
| NoteExtraite (etoiles : Z)          (* "Note extraite: n/5" *)
| NoteExtraiteSans5 (etoiles : Z)     (* "Note extraite (sans /5): n/5" *)
| NoteImpossible                      (* "Impossible d'extraire la note de l'analyse IA" *)
| ErreurAppelIA (e : text)            (* "Erreur lors de l'appel IA: e" *)
| ErreurGenerationRemediation (e : text)  (* "Erreur génération remédiation: e" *)
| ErreurSauvegarde (e : text)         (* "Erreur lors de la sauvegarde: e" *)
| AccesEnseignantAutorise (etoiles : Z)  (* "Accès à l'enseignant virtuel autorisé (note: n/5)" *)
| ErreurGenerationReponse (e : text). (* "Erreur lors de la génération de réponse: e" *)

(** The block "EXTRACTION DE NOTE SUR 5", the same in [soumettre_reponse],
    [soumettre_sequentiel], [faire_remediation] and [soumettre_remediation]:
    the value left in [etoiles] and the line printed. *)
Definition extraire_note (analyse_ia : text) : Z * journal_line :=
  match Re.search Re.score_sur_5 analyse_ia with
  | Some d => (int d, NoteExtraite (int d))
  | None =>
      match Re.search Re.score_sans_5 analyse_ia with
      | Some d => (Z.min (int d) 5, NoteExtraiteSans5 (Z.min (int d) 5))
      | None => (0%Z, NoteImpossible)
      end
  end.

Definition etoiles_de (analyse_ia : text) : Z := fst (extraire_note analyse_ia).


(** ** The store, the session and the completion service *)

(** The column [statut] of a [RemediationSuggestion]: the three values
    app.py writes. *)
Inductive Statut := en_attente | valide | reussie.

Global Instance statut_eq_dec : EqDecision Statut.
Proof. solve_decision. Defined.

Module User.
Record t := mk {
  username : text;
  role : text;
  langue : text;
  statut_paiement : text;
  (** what [essai_est_expire()] answers for this user at the time of the
      request (the method is in models.py) *)
  essai_expire : bool;
  niveau : option text
}.
End User.

Module Lecon.
Record t := mk { titre_fr : text }.
End Lecon.

Module Exercice.
Record t := mk {
  question_fr : text;
  question_en : text;
  theme : text;
  lecon_id : option N
}.
End Exercice.

Module StudentResponse.
Record t := mk {
  user_id : N;
  exercice_id : option N;
  reponse_eleve : text;
  analyse_ia : text;
  etoiles : Z;
  timestamp : N
}.
End StudentResponse.

Module RemediationSuggestion.
Record t := mk {
  user_id : N;
  theme : text;
  lecon : text;
  message : option text;
  exercice_suggere : text;
  statut : Statut;
  timestamp : N;
  vue_par_eleve : option bool;
  notif_envoyee : option bool;
  reponse_eleve : option text;
  analyse_ia : option text;
  etoiles : option Z
}.

Definition set_statut (s : Statut) (r : t) : t :=
  mk (user_id r) (theme r) (lecon r) (message r) (exercice_suggere r) s
     (timestamp r) (vue_par_eleve r) (notif_envoyee r) (reponse_eleve r)
     (analyse_ia r) (etoiles r).

Definition set_vue_par_eleve (b : option bool) (r : t) : t :=
  mk (user_id r) (theme r) (lecon r) (message r) (exercice_suggere r)
     (statut r) (timestamp r) b (notif_envoyee r) (reponse_eleve r)
     (analyse_ia r) (etoiles r).

Definition set_contenu (m : option text) (bloc : text) (r : t) : t :=
  mk (user_id r) (theme r) (lecon r) m bloc (statut r) (timestamp r)
     (vue_par_eleve r) (notif_envoyee r) (reponse_eleve r) (analyse_ia r)
     (etoiles r).

Definition set_tentative (rep ana : text) (n : Z) (r : t) : t :=
  mk (user_id r) (theme r) (lecon r) (message r) (exercice_suggere r)
     (statut r) (timestamp r) (vue_par_eleve r) (notif_envoyee r)
     (Some rep) (Some ana) (Some n).
End RemediationSuggestion.

(** The tables the routes below read or write, by primary key. *)
Record DB := mkDB {
  users : gmap N User.t;
  lecons : gmap N Lecon.t;
  exercices : gmap N Exercice.t;
  reponses : gmap N StudentResponse.t;
  suggestions : gmap N RemediationSuggestion.t
}.

(** [db.session.add(row)] of a new row, once committed: the row sits under a
    key the table did not use. *)
Definition nouvelle_cle {A} (tbl : gmap N A) : N := fresh (dom tbl).
Definition ajouter {A} (row : A) (tbl : gmap N A) : gmap N A :=
  <[nouvelle_cle tbl := row]> tbl.

(** [Model.query.filter_by(...).first()]: the first row, in the order the
    table lists them, that satisfies the filter. *)
Definition premier {A} (p : A -> bool) (tbl : gmap N A) : option (N * A) :=
  List.find (fun kr => p (snd kr)) (map_to_list tbl).

(** The value of [session['remediation_access']]. *)
Module RemediationAccess.
Record t := mk {
  exercice_id : N;
  note : Z;
  access_count : N;
  first_access : N
}.
End RemediationAccess.

(** The Flask session: the keys the routes below use; [None] is an absent
    key. *)
Module Session.
Record t := mk {
  eleve_id : option N;
  enseignant_id : option N;
  lang : option text;
  conversation : option (list text);
  derniere_q_ia : option text;
  mode_examen : option bool;
  remediation_access : option RemediationAccess.t;
  flashes : list (text * text)
}.

(** [session.clear()] *)
Definition clear : t := mk None None None None None None None [].

Definition set_remediation_access (a : RemediationAccess.t) (s : t) : t :=
  mk (eleve_id s) (enseignant_id s) (lang s) (conversation s)
     (derniere_q_ia s) (mode_examen s) (Some a)
     (flashes s).

Definition set_conversation (c : list text) (s : t) : t :=
  mk (eleve_id s) (enseignant_id s) (lang s) (Some c) (derniere_q_ia s)
     (mode_examen s) (remediation_access s)
     (flashes s).

Definition set_derniere_q_ia (q : option text) (s : t) : t :=
  mk (eleve_id s) (enseignant_id s) (lang s) (conversation s) q
     (mode_examen s) (remediation_access s)
     (flashes s).

(** [flash(message, category)] *)
Definition flash (m cat : text) (s : t) : t :=
  mk (eleve_id s) (enseignant_id s) (lang s) (conversation s)
     (derniere_q_ia s) (mode_examen s)
     (remediation_access s) (flashes s ++ [(cat, m)]).
End Session.

(** [lang == "en"] selects the English template, anything else the French. *)
Inductive gabarit := FR | EN.

Definition gabarit_de (lang : text) : gabarit :=
  if Text.eqb lang (lit "en") then EN else FR.

(** The prompts are f-strings: each is named here by its template and the
    values substituted in it. *)
Inductive prompt :=
| PromptCorrection (g : gabarit) (question reponse_eleve : text)
| PromptCorrectionSequentiel (g : gabarit) (question reponse_eleve : text)
| PromptCorrectionExpert (g : gabarit)
    (question reponse_texte reponse_attendue : text)
| PromptCorrectionRemediation (g : gabarit) (enonce reponse_eleve : text)
| PromptRemediation (g : gabarit) (question reponse_eleve : text) (etoiles : Z)
| PromptDebut (langue niveau matiere question : text) (mode_examen : bool)
| PromptSuite (langue niveau matiere : text) (historique : list text)
    (derniere_q reponse : text) (mode_examen : bool).

Definition est_remediation (p : prompt) : bool :=
  match p with PromptRemediation _ _ _ _ => true | _ => false end.

(** [client.chat.completions.create(...).choices[0].message.content], or
    the exception the expression raises. *)
Inductive completion :=
| Contenu (content : text)
| Leve (e : text).

(** What a request meets outside the program. *)
Record Env := mkEnv {
  complete : prompt -> completion;
  (** the exception of the [n]-th [db.session.commit()] of the request, if
      it raises *)
  commit_leve : nat -> option text;
  utcnow : N;
  (** the exception of [OpenAI(api_key=os.getenv('OPENAI_API_KEY'))], if it
      raises *)
  client_leve : option text
}.

Inductive response :=
| Body (status : nat) (body : text)
| RedirectTo (target : text)        (* redirect(...) to a path or an endpoint *)
| NotFound                       (* get_or_404 *)
| NonGeree                       (* an exception no handler catches *)
| ExerciceDetail (reponse : StudentResponse.t) (show_teacher_button : bool)
| ExerciceSequentiel (reponse : option StudentResponse.t)
    (show_feedback : bool) (has_next : bool) (next_index : Z)
| FeedbackExercice (reponse analyse : text) (etoiles : Z)
| RemediationNonValidee
| FaireRemediation (remediation : RemediationSuggestion.t)
| RemediationsEleve (remediations : list RemediationSuggestion.t)
| ValiderRemediation (suggestion : RemediationSuggestion.t)
    (question reponse explication : text)
| EnseignantVirtuel (conversation : list text).

(** What a request leaves behind. *)
Record issue := mkIssue {
  resp : response;
  db_apres : DB;
  session_apres : Session.t;
  appels : list prompt;
  journal : list journal_line
}.

Definition inchange (r : response) (db : DB) (s : Session.t) : issue :=
  mkIssue r db s [] [].

(** [sep.join(l)] *)
Fixpoint join (sep : text) (l : list text) : text :=
  match l with
  | [] => []
  | [x] => x
  | x :: l' => x ++ sep ++ join sep l'
  end.

(** [str(n)] of an [int] *)
Definition str (n : Z) : text :=
  lit (DecimalString.NilZero.string_of_int (Z.to_int n)).

(** The remediation the grading routes create:
    [RemediationSuggestion(user_id=..., theme=..., lecon=..., message=...,
    exercice_suggere=..., statut="en_attente", timestamp=...)]; the columns
    the constructor is not given stay unset. *)
Definition nouvelle_suggestion (user_id : N) (theme lecon : text)
    (etoiles : Z) (remediation_content : text) (now : N)
  : RemediationSuggestion.t :=
  RemediationSuggestion.mk user_id theme lecon
    (Some (lit "Exercice de remédiation proposé automatiquement (note: "
             ++ str etoiles ++ lit "/5)."))
    remediation_content en_attente now None None None None None.

(** ** [/soumettre-reponse] *)

Module SoumettreReponse.
Record form := mkForm {
  student_id : option N;
  exercice_id : option N;
  reponse_eleve : option text
}.
End SoumettreReponse.

Definition soumettre_reponse (env : Env) (f : SoumettreReponse.form)
    (db : DB) (session : Session.t) : issue :=
  let reponse_eleve := strip (default [] (SoumettreReponse.reponse_eleve f)) in
  match SoumettreReponse.student_id f, SoumettreReponse.exercice_id f,
        reponse_eleve with
  | Some student_id, Some exercice_id, _ :: _ =>
      match users db !! student_id with
      | None => inchange (Body 404 (lit "Élève non trouvé")) db session
      | Some eleve =>
      match exercices db !! exercice_id with
      | None => inchange (Body 404 (lit "Exercice non trouvé")) db session
      | Some exercice =>
          let lang := gabarit_de (User.langue eleve) in
          let question :=
            match lang with
            | EN => Exercice.question_en exercice
            | FR => Exercice.question_fr exercice
            end in
          let prompt := PromptCorrection lang question reponse_eleve in
          let '(analyse_ia, j_ia) :=
            match complete env prompt with
            | Contenu c => (strip c, [])
            | Leve e => (lit "Erreur IA : " ++ e, [ErreurAppelIA e])
            end in
          let '(etoiles, j_note) := extraire_note analyse_ia in
          (* GÉNÉRATION DE REMÉDIATION si note < 3/5 *)
          let remediation_prompt :=
            PromptRemediation lang question reponse_eleve etoiles in
          let '(suggestion, session1, appels_r, j_r) :=
            if (etoiles <? 3)%Z then
              match complete env remediation_prompt with
              | Contenu c =>
                  let lecon :=
                    match Exercice.lecon_id exercice ≫= (lecons db !!.) with
                    | Some l => Lecon.titre_fr l
                    | None => lit "Général"
                    end in
                  (Some (nouvelle_suggestion student_id
                           (Exercice.theme exercice) lecon etoiles (strip c)
                           (utcnow env)),
                   Session.set_remediation_access
                     (RemediationAccess.mk exercice_id etoiles 0 (utcnow env))
                     session,
                   [remediation_prompt],
                   [AccesEnseignantAutorise etoiles])
              | Leve e =>
                  (None, session, [remediation_prompt],
                   [ErreurGenerationRemediation e])
              end
            else (None, session, [], []) in
          (* Sauvegarde réponse *)
          let nouvelle :=
            StudentResponse.mk student_id (Some exercice_id) reponse_eleve
              analyse_ia etoiles (utcnow env) in
          match commit_leve env 0 with
          | Some e =>
              mkIssue (Body 500 (lit "Erreur base de données: " ++ e))
                db session1 (prompt :: appels_r)
                (j_ia ++ [j_note] ++ j_r ++ [ErreurSauvegarde e])
          | None =>
              let db' :=
                mkDB (users db) (lecons db) (exercices db)
                  (ajouter nouvelle (reponses db))
                  (match suggestion with
                   | Some s => ajouter s (suggestions db)
                   | None => suggestions db
                   end) in
              mkIssue (ExerciceDetail nouvelle (etoiles <? 3)%Z)
                db' session1 (prompt :: appels_r) (j_ia ++ [j_note] ++ j_r)
          end
      end
      end
  | student_id, exercice_id, _ =>
      let missing_fields :=
        (if student_id is Some _ then [] else [lit "student_id"])
        ++ (if exercice_id is Some _ then [] else [lit "exercice_id"])
        ++ (match reponse_eleve with [] => [lit "reponse_eleve"] | _ => [] end)
      in
      inchange
        (Body 400 (lit "Données manquantes: " ++ join (lit ", ") missing_fields))
        db session
  end.

(** ** [/soumettre-sequentiel] *)

Module SoumettreSequentiel.
Record form := mkForm {
  username : option text;
  lang : option text;
  lecon_id : option N;
  exercice_id : option N;
  reponse_eleve : option text;
  (** [int(request.form.get("index", 0))] *)
  index : Z;
  action : option text
}.
End SoumettreSequentiel.

(** [.order_by(StudentResponse.timestamp.desc()).first()] *)
Definition plus_recente (l : list (N * StudentResponse.t))
  : option StudentResponse.t :=
  foldr (fun kr acc =>
           match acc with
           | Some r =>
               if StudentResponse.timestamp r <? StudentResponse.timestamp (snd kr)
               then Some (snd kr) else Some r
           | None => Some (snd kr)
           end) None l.

Definition soumettre_sequentiel (env : Env) (f : SoumettreSequentiel.form)
    (db : DB) (session : Session.t) : issue :=
  let lang := default (lit "fr") (SoumettreSequentiel.lang f) in
  let reponse_eleve :=
    strip (default [] (SoumettreSequentiel.reponse_eleve f)) in
  let index := SoumettreSequentiel.index f in
  let action := default (lit "submit") (SoumettreSequentiel.action f) in
  let eleve :=
    SoumettreSequentiel.username f ≫= fun u =>
      premier (fun x => Text.eqb (User.username x) u) (users db) in
  let lecon := SoumettreSequentiel.lecon_id f ≫= (lecons db !!.) in
  match eleve, lecon, SoumettreSequentiel.exercice_id f with
  | Some (eleve_id, eleve), Some lecon, Some exercice_id =>
    match exercices db !! exercice_id with
    | None =>
        inchange (Body 404 (lit "Élève, leçon ou exercice non trouvé"))
          db session
    | Some exercice =>
      (* what follows the submission block *)
      let suite (db1 : DB) (derniere_reponse : option StudentResponse.t)
          (appels : list prompt) (j : list journal_line) : issue :=
        let total_exercices :=
          Z.of_nat (length (List.filter
            (fun kr => bool_decide (Exercice.lecon_id (snd kr)
                                    = SoumettreSequentiel.lecon_id f))
            (map_to_list (exercices db1)))) in
        let next_index := (index + 1)%Z in
        mkIssue
          (ExerciceSequentiel derniere_reponse
             (Text.eqb action (lit "submit")
              && match reponse_eleve with [] => false | _ => true end)
             (next_index <? total_exercices)%Z next_index)
          db1 session appels j in
      if Text.eqb action (lit "submit")
         && match reponse_eleve with [] => false | _ => true end
      then
        let g := gabarit_de lang in
        let question :=
          match g with
          | EN => Exercice.question_en exercice
          | FR => Exercice.question_fr exercice
          end in
        let prompt := PromptCorrectionSequentiel g question reponse_eleve in
        let '(analyse_ia, j_ia) :=
          match complete env prompt with
          | Contenu c => (strip c, [])
          | Leve e => (lit "Erreur IA : " ++ e, [ErreurAppelIA e])
          end in
        let '(etoiles, j_note) := extraire_note analyse_ia in
        (* Sauvegarde réponse *)
        let nouvelle :=
          StudentResponse.mk eleve_id (Some exercice_id) reponse_eleve
            analyse_ia etoiles (utcnow env) in
        match commit_leve env 0 with
        | Some e =>
            mkIssue (Body 500 (lit "Erreur base de données: " ++ e))
              db session [prompt] (j_ia ++ [j_note; ErreurSauvegarde e])
        | None =>
            let reponse_id := nouvelle_cle (reponses db) in
            let db1 :=
              mkDB (users db) (lecons db) (exercices db)
                (ajouter nouvelle (reponses db)) (suggestions db) in
            (* REMÉDIATION si note < 3/5 (0, 1 ou 2/5) *)
            if (etoiles <? 3)%Z then
              let remediation_prompt :=
                PromptRemediation g question reponse_eleve etoiles in
              let '(remediation_content, j_r) :=
                match complete env remediation_prompt with
                | Contenu c => (strip c, [])
                | Leve e =>
                    (lit "Erreur IA lors de la génération de la remédiation : "
                       ++ e,
                     [ErreurGenerationRemediation e])
                end in
              let s :=
                nouvelle_suggestion eleve_id (Exercice.theme exercice)
                  (Lecon.titre_fr lecon) etoiles remediation_content
                  (utcnow env) in
              match commit_leve env 1 with
              | Some _ =>
                  mkIssue NonGeree db1 session [prompt; remediation_prompt]
                    (j_ia ++ [j_note] ++ j_r)
              | None =>
                  let db2 :=
                    mkDB (users db1) (lecons db1) (exercices db1)
                      (reponses db1) (ajouter s (suggestions db1)) in
                  suite db2 (reponses db2 !! reponse_id)
                    [prompt; remediation_prompt] (j_ia ++ [j_note] ++ j_r)
              end
            else
              suite db1 (reponses db1 !! reponse_id) [prompt]
                (j_ia ++ [j_note])
        end
      else
        suite db
          (plus_recente
             (List.filter
                (fun kr =>
                   (StudentResponse.user_id (snd kr) =? eleve_id)
                   && bool_decide (StudentResponse.exercice_id (snd kr)
                                   = Some exercice_id))
                (map_to_list (reponses db))))
          [] []
    end
  | _, _, _ =>
      inchange (Body 404 (lit "Élève, leçon ou exercice non trouvé"))
        db session
  end.

(** ** The remediation routes *)

Inductive methode := GET | POST.

(** Python's [a or b] on two optional strings: [a] when it is a non-empty
    string, [b] otherwise. *)
Definition ou (a : option text) (b : text) : text :=
  match a with
  | Some (c :: a') => c :: a'
  | _ => b
  end.

(** The status a graded attempt leaves on its remediation. *)
Definition statut_apres_tentative (etoiles : Z) : Statut :=
  if (3 <=? etoiles)%Z then reussie else en_attente.

Module Tentative.
Record form := mkForm {
  reponse_eleve : option text;
  reponse : option text
}.
End Tentative.

Definition avec_suggestions (db : DB)
    (s : gmap N RemediationSuggestion.t) : DB :=
  mkDB (users db) (lecons db) (exercices db) (reponses db) s.

Definition avec_reponses (db : DB) (r : gmap N StudentResponse.t) : DB :=
  mkDB (users db) (lecons db) (exercices db) r (suggestions db).

(** [s in t] on strings *)
Fixpoint contient (s t : text) : bool :=
  (bool_decide (take (length s) t = s))
  || match t with
     | [] => false
     | _ :: t' => contient s t'
     end.

(** The line boundaries of [str.splitlines]. *)
Definition fin_de_ligne (c : char) : bool :=
  existsb (N.eqb c) [10; 11; 12; 13; 28; 29; 30; 133; 8232; 8233].

(** [s.splitlines()], the line in progress in [acc] (last character
    first): [apres_cr] says that the character before was a carriage
    return, which with a line feed after it makes one boundary. *)
Fixpoint splitlines_de (acc : text) (apres_cr : bool) (s : text)
  : list text :=
  match s with
  | [] => match acc with [] => [] | _ :: _ => [rev acc] end
  | c :: s' =>
      if apres_cr && (c =? 10) then splitlines_de acc false s'
      else if fin_de_ligne c then rev acc :: splitlines_de [] (c =? 13) s'
      else splitlines_de (c :: acc) false s'
  end.

Definition splitlines (s : text) : list text := splitlines_de [] false s.

(** [ligne.split(":", 1)[1]]: what follows the first colon; [None] stands
    for the [IndexError] of a line without a colon. *)
Fixpoint apres_deux_points (ligne : text) : option text :=
  match ligne with
  | [] => None
  | c :: l => if c =? 58 then Some l else apres_deux_points l
  end.

(** The loop of [faire_remediation] over the lines of the suggested
    exercise, which reads the statement and the expected answer:
    [question] and [reponse_attendue] are the values found so far. *)
Fixpoint lire_exercice (lignes : list text) (question reponse_attendue : text)
  : option (text * text) :=
  match lignes with
  | [] => Some (question, reponse_attendue)
  | ligne :: lignes' =>
      if match question with [] => true | _ :: _ => false end
         && (contient (lit "Question :") ligne
             || contient (lit "Question:") ligne)
      then
        match apres_deux_points ligne with
        | Some t => lire_exercice lignes' (strip t) reponse_attendue
        | None => None
        end
      else if match reponse_attendue with [] => true | _ :: _ => false end
              && (contient (lit "Réponse attendue") ligne
                  || contient (lit "Expected answer") ligne)
      then
        match apres_deux_points ligne with
        | Some t => lire_exercice lignes' question (strip t)
        | None => None
        end
      else lire_exercice lignes' question reponse_attendue
  end.

(** [/eleve/remediation/<int:id>] *)
Definition faire_remediation (env : Env) (id : N) (m : methode)
    (f : Tentative.form) (db : DB) (session : Session.t) : issue :=
  match Session.eleve_id session with
  | None | Some 0 => inchange (RedirectTo (lit "/login-eleve")) db session
  | Some eleve_id =>
  match suggestions db !! id with
  | None => inchange NotFound db session
  | Some remediation =>
  match users db !! eleve_id with
  | None => inchange NotFound db session
  | Some eleve =>
      if negb (RemediationSuggestion.user_id remediation =? eleve_id)
      then inchange (Body 403 (lit "Accès non autorisé")) db session
      else
      let lang := gabarit_de (User.langue eleve) in
      if negb (bool_decide (RemediationSuggestion.statut remediation = valide))
      then inchange RemediationNonValidee db session
      else
      match m with
      | GET => inchange (FaireRemediation remediation) db session
      | POST =>
          let reponse_texte :=
            strip (ou (Tentative.reponse_eleve f)
                      (default [] (Tentative.reponse f))) in
          match reponse_texte with
          | [] => inchange (Body 400 (lit "Réponse vide")) db session
          | _ :: _ =>
          match
            lire_exercice
              (splitlines (RemediationSuggestion.exercice_suggere remediation))
              [] []
          with
          | None => inchange NonGeree db session (* IndexError *)
          | Some (question, reponse_attendue) =>
              let prompt :=
                PromptCorrectionExpert lang question reponse_texte
                  reponse_attendue in
              match complete env prompt with
              | Leve e =>
                  mkIssue (Body 500 (lit "Erreur IA : " ++ e)) db session
                    [prompt] []
              | Contenu c =>
                  let analyse_ia := strip c in
                  let '(etoiles, j_note) := extraire_note analyse_ia in
                  let reponse :=
                    StudentResponse.mk eleve_id None reponse_texte analyse_ia
                      etoiles (utcnow env) in
                  let remediation' :=
                    RemediationSuggestion.set_statut
                      (statut_apres_tentative etoiles)
                      (RemediationSuggestion.set_tentative reponse_texte
                         analyse_ia etoiles remediation) in
                  match commit_leve env 0 with
                  | Some _ => mkIssue NonGeree db session [prompt] [j_note]
                  | None =>
                      mkIssue
                        (FeedbackExercice reponse_texte analyse_ia etoiles)
                        (mkDB (users db) (lecons db) (exercices db)
                           (ajouter reponse (reponses db))
                           (<[id := remediation']> (suggestions db)))
                        session [prompt] [j_note]
                  end
              end
          end
          end
      end
  end
  end
  end.

(** [/soumettre-remediation/<int:remediation_id>] *)
Definition soumettre_remediation (env : Env) (remediation_id : N)
    (f : Tentative.form) (db : DB) (session : Session.t) : issue :=
  let reponse_eleve :=
    ou (Tentative.reponse_eleve f) (strip (default [] (Tentative.reponse f))) in
  match suggestions db !! remediation_id with
  | None => inchange NotFound db session
  | Some remediation =>
      let user := users db !! RemediationSuggestion.user_id remediation in
      match reponse_eleve with
      | [] => inchange (Body 400 (lit "Réponse vide")) db session
      | _ :: _ =>
          let enonce := RemediationSuggestion.exercice_suggere remediation in
          let lang :=
            match user with
            | Some u => gabarit_de (User.langue u)
            | None => FR
            end in
          let prompt := PromptCorrectionRemediation lang enonce reponse_eleve in
          match complete env prompt with
          | Leve e =>
              mkIssue (Body 500 (lit "Erreur IA : " ++ e)) db session
                [prompt] []
          | Contenu c =>
              let analyse_ia := strip c in
              let '(etoiles, j_note) := extraire_note analyse_ia in
              (* Mise à jour du statut de la remédiation *)
              let remediation' :=
                RemediationSuggestion.set_statut
                  (statut_apres_tentative etoiles) remediation in
              match user with
              | None =>
                  (* [user.id] on a missing user *)
                  mkIssue NonGeree db session [prompt] [j_note]
              | Some _ =>
                  let new_response :=
                    StudentResponse.mk
                      (RemediationSuggestion.user_id remediation) None
                      reponse_eleve analyse_ia etoiles (utcnow env) in
                  match commit_leve env 0 with
                  | Some _ => mkIssue NonGeree db session [prompt] [j_note]
                  | None =>
                      mkIssue
                        (FeedbackExercice reponse_eleve analyse_ia etoiles)
                        (mkDB (users db) (lecons db) (exercices db)
                           (ajouter new_response (reponses db))
                           (<[remediation_id := remediation']>
                              (suggestions db)))
                        session [prompt] [j_note]
                  end
              end
          end
      end
  end.

(** A form field inside an f-string: a missing field prints as [None]. *)
Definition fmt (x : option text) : text := default (lit "None") x.

Module Validation.
Record form := mkForm {
  message : option text;
  question : option text;
  reponse : option text;
  explication : option text
}.
End Validation.

(** Greedy [.*]: everything up to the end of the line. *)
Fixpoint ligne (s : text) : text :=
  match s with
  | c :: s' => if c =? 10 then [] else c :: ligne s'
  | [] => []
  end.

(** The pre-filled fields of the validation form: [re.search] of the label,
    optional white space, a colon (ASCII or full width U+FF1A), optional
    white space and a group holding the rest of the line; the field is the
    stripped group, or the empty string without a match. *)
Definition champ (label s : text) : text :=
  match
    Re.search
      (Re.exact label
         (Re.many isspace
            (Re.one (fun c => (c =? 58) || (c =? 65306))
               (fun _ =>
                  Re.many isspace
                    (fun r => Some (ligne r))))))
      s
  with
  | Some g => strip g
  | None => []
  end.

(** [/enseignant/valider-remediation/<int:remediation_id>]: the view, with
    [?lang=] in [lang_arg] and the session the hooks hand to it (the whole
    request is [requete_valider_remediation] below). *)
Definition valider_remediation (env : Env) (remediation_id : N) (m : methode)
    (lang_arg : option text) (f : Validation.form) (db : DB)
    (session : Session.t) : issue :=
  match Session.enseignant_id session with
  | None => inchange (RedirectTo (lit "login_enseignant")) db session
  | Some _ =>
      let lang := default (lit "fr") lang_arg in
      match suggestions db !! remediation_id with
      | None => inchange NotFound db session
      | Some suggestion =>
          match m with
          | POST =>
              let bloc :=
                match gabarit_de lang with
                | EN =>
                    lit "Remediation:" ++ [10] ++ lit "- Question: "
                      ++ fmt (Validation.question f) ++ [10]
                      ++ lit "- Expected answer: "
                      ++ fmt (Validation.reponse f) ++ [10]
                      ++ lit "- Explanation: "
                      ++ fmt (Validation.explication f)
                | FR =>
                    lit "Remédiation :" ++ [10] ++ lit "- Question : "
                      ++ fmt (Validation.question f) ++ [10]
                      ++ lit "- Réponse attendue : "
                      ++ fmt (Validation.reponse f) ++ [10]
                      ++ lit "- Explication : "
                      ++ fmt (Validation.explication f)
                end in
              (* Mettre à jour la suggestion *)
              let suggestion' :=
                RemediationSuggestion.set_statut valide
                  (RemediationSuggestion.set_contenu (Validation.message f)
                     bloc suggestion) in
              match commit_leve env 0 with
              | Some _ => inchange NonGeree db session
              | None =>
                  inchange (RedirectTo (lit "remediations_a_valider"))
                    (avec_suggestions db
                       (<[remediation_id := suggestion']> (suggestions db)))
                    session
              end
          | GET =>
              let exercice_suggere :=
                RemediationSuggestion.exercice_suggere suggestion in
              let '(l_reponse, l_explication) :=
                match gabarit_de lang with
                | EN => (lit "Expected answer", lit "Explanation")
                | FR => (lit "Réponse attendue", lit "Explication")
                end in
              inchange
                (ValiderRemediation suggestion
                   (champ (lit "Question") exercice_suggere)
                   (champ l_reponse exercice_suggere)
                   (champ l_explication exercice_suggere))
                db session
          end
      end
  end.

(** [not r.vue_par_eleve] *)
Definition pas_vue (r : RemediationSuggestion.t) : bool :=
  match RemediationSuggestion.vue_par_eleve r with
  | Some true => false
  | _ => true
  end.

(** The loop of [eleve_remediations] over the rows the query selected, each
    under its key [k]: [if not r.vue_par_eleve: r.vue_par_eleve = True]. *)
Definition marquer_vues (cles : list N)
    (tbl : gmap N RemediationSuggestion.t) : gmap N RemediationSuggestion.t :=
  foldl (fun t k =>
           alter (fun r =>
                    if pas_vue r
                    then RemediationSuggestion.set_vue_par_eleve (Some true) r
                    else r) k t)
        tbl cles.

Definition plus_recent_dabord (a b : N * RemediationSuggestion.t) : Prop :=
  RemediationSuggestion.timestamp (snd b)
  <= RemediationSuggestion.timestamp (snd a).

Global Instance plus_recent_dabord_dec a b : Decision (plus_recent_dabord a b).
Proof. unfold plus_recent_dabord. apply _. Defined.

(** [/eleve/remediations] *)
Definition eleve_remediations (env : Env) (username : option text)
    (db : DB) (session : Session.t) : issue :=
  match
    username ≫= fun u =>
      premier (fun x => Text.eqb (User.username x) u) (users db)
  with
  | None => inchange (Body 404 (lit "Élève introuvable")) db session
  | Some (eleve_id, eleve) =>
      let remediations :=
        merge_sort plus_recent_dabord
          (List.filter
             (fun kr =>
                (RemediationSuggestion.user_id (snd kr) =? eleve_id)
                && bool_decide (RemediationSuggestion.statut (snd kr) = valide))
             (map_to_list (suggestions db))) in
      (* Toutes les remédiations sont marquées comme vues ici *)
      let tbl := marquer_vues (List.map fst remediations) (suggestions db) in
      match commit_leve env 0 with
      | Some _ => inchange NonGeree db session
      | None =>
          inchange
            (RemediationsEleve
               (omap (fun kr => tbl !! fst kr) remediations))
            (avec_suggestions db tbl) session
      end
  end.

(** ** The guided dialogue: [/enseignant-virtuel] *)

Definition dict_get {V} (k : text) (d : list (text * V)) : option V :=
  snd <$> List.find (fun kv => Text.eqb (fst kv) k) d.

Definition messages_fr : list (text * text) :=
  [(lit "essai_termine",
    lit "Essai gratuit terminé. Abonne-toi pour continuer.");
   (lit "je_te_guide", lit "Je te guide étape par étape !");
   (lit "erreur_traitement", lit "Erreur lors du traitement de la question");
   (lit "bienvenue_enseignant",
    lit "👋 Bonjour ! Je suis ton enseignant virtuel. Pose-moi n'importe quelle question sur n'importe quelle matière !");
   (lit "nouveau_dialogue",
    lit "Nouvelle conversation commencée. Pose ta question !");
   (lit "acces_enseignant", lit "Accès à l'enseignant virtuel activé !")].

Definition messages_en : list (text * text) :=
  [(lit "essai_termine", lit "Free trial ended. Subscribe to continue.");
   (lit "je_te_guide", lit "I'll guide you step by step!");
   (lit "erreur_traitement", lit "Error processing the question");
   (lit "bienvenue_enseignant",
    lit "👋 Hello! I'm your virtual teacher. Ask me any question about any subject!");
   (lit "nouveau_dialogue", lit "New conversation started. Ask your question!");
   (lit "acces_enseignant", lit "Virtual teacher access activated!")].

(** [messages.get(lang, messages["fr"]).get(key, key)] *)
Definition get_message (key lang : text) : text :=
  let messages := [(lit "fr", messages_fr); (lit "en", messages_en)] in
  default key (dict_get key (default messages_fr (dict_get lang messages))).

(** The interrogative patterns of [extraire_question]: a first letter in
    either case, the rest of the opening words, white space, then lazily
    the text up to the first question mark, which is the group. *)
Definition patterns_fr : list (text * text) :=
  [(lit "Pp", lit "eux-tu"); (lit "Qq", lit "u'est-ce que");
   (lit "Cc", lit "alcule"); (lit "Tt", lit "rouve"); (lit "Dd", lit "is-moi");
   (lit "Qq", lit "uelle"); (lit "Cc", lit "ombien"); (lit "Cc", lit "omment");
   (lit "Pp", lit "ourquoi"); (lit "Éé", lit "cris"); (lit "Aa", lit "nalyse");
   (lit "Ee", lit "xplique"); (lit "Rr", lit "eformule")].

Definition patterns_en : list (text * text) :=
  [(lit "Cc", lit "an you"); (lit "Ww", lit "hat is");
   (lit "Cc", lit "alculate"); (lit "Ff", lit "ind"); (lit "Tt", lit "ell me");
   (lit "Ww", lit "hich"); (lit "Hh", lit "ow many"); (lit "Hh", lit "ow");
   (lit "Ww", lit "hy"); (lit "Ww", lit "rite"); (lit "Aa", lit "nalyze");
   (lit "Ee", lit "xplain"); (lit "Dd", lit "escribe");
   (lit "Rr", lit "ephrase")].

Definition motif (pattern : text * text) : text -> option text :=
  Re.one (fun c => existsb (N.eqb c) (fst pattern))
    (fun _ =>
       Re.exact (snd pattern)
         (Re.one isspace
            (fun _ =>
               Re.many isspace
                 (Re.lazy_dot []
                    (fun g => Re.exact (lit "?") (fun _ => Some g)))))).

Fixpoint premiere_question (patterns : list (text * text)) (reponse : text)
  : option text :=
  match patterns with
  | [] => None
  | pattern :: patterns' =>
      match Re.search (motif pattern) reponse with
      | Some g =>
          let question := strip g in
          if (5 <? length question)%nat then Some question
          else premiere_question patterns' reponse
      | None => premiere_question patterns' reponse
      end
  end.

Definition extraire_question (reponse lang : text) : option text :=
  premiere_question
    (if Text.eqb lang (lit "fr") then patterns_fr else patterns_en) reponse.

Definition lignes (l : list text) : text := join [10] l.

(** The canned replies of the two generators when the completion fails. *)
Definition repli_debut_fr (matiere question : text) : text :=
  lignes
    [lit "Excellent ! On va travailler sur cette question de " ++ matiere ++ lit " ensemble.";
     [];
     lit "**Question :** " ++ question;
     [];
     lit "Je vais te guider étape par étape sans te donner la réponse directement.";
     [];
     lit "**Première étape :** Comprendre exactement ce qu'on te demande.";
     [];
     lit "**Question 1 :** Peux-tu reformuler ce problème dans tes propres mots ? Qu'est-ce qu'on cherche à comprendre ou résoudre ?";
     [];
     lit "Écris ta reformulation, et je te guiderai vers la méthode à utiliser !";
     [];
     lit "💡 *Astuce : Commence par expliquer ce que tu as déjà compris.*"].

Definition repli_debut_en (matiere question : text) : text :=
  lignes
    [lit "Excellent! Let's work on this " ++ matiere ++ lit " question together.";
     [];
     lit "**Question:** " ++ question;
     [];
     lit "I'll guide you step by step without giving you the answer directly.";
     [];
     lit "**First step:** Understand exactly what you're being asked.";
     [];
     lit "**Question 1:** Can you rephrase this problem in your own words? What are we trying to understand or solve?";
     [];
     lit "Write your rephrasing, and I'll guide you to the method to use!";
     [];
     lit "💡 *Tip: Start by explaining what you already understand.*"].

Definition repli_suite_fr (matiere : text) : text :=
  lignes
    [lit "Merci pour ta réponse ! C'est un bon début.";
     [];
     lit "Pour continuer notre exploration de cette question de " ++ matiere ++ lit ", j'ai besoin de comprendre un peu mieux ta pensée.";
     [];
     lit "**Nouvelle question :** Quelle est la prochaine étape logique selon toi ? Si tu hésites, dis-moi simplement ce que tu comprends jusqu'à présent.";
     [];
     lit "Je suis là pour t'aider à avancer pas à pas !";
     [];
     lit "✨ *N'oublie pas : chaque erreur est une occasion d'apprendre !*"].

Definition repli_suite_en (matiere : text) : text :=
  lignes
    [lit "Thank you for your answer! That's a good start.";
     [];
     lit "To continue our exploration of this " ++ matiere ++ lit " question, I need to understand your thinking a bit better.";
     [];
     lit "**New question:** What is the next logical step in your opinion? If you hesitate, just tell me what you understand so far.";
     [];
     lit "I'm here to help you move forward step by step!";
     [];
     lit "✨ *Remember: every mistake is a learning opportunity!*"].

(** The outcome of a generator call: its reply, or the exception it lets
    through, with the completion calls it made. *)
Definition generer_debut_conversation (env : Env)
    (question niveau langue : text) (mode_examen : bool) (matiere : text)
  : (text + text) * list prompt :=
  match client_leve env with
  | Some e => (inr e, [])
  | None =>
      let prompt := PromptDebut langue niveau matiere question mode_examen in
      (inl match complete env prompt with
           | Contenu c => strip c
           | Leve _ =>
               if Text.eqb langue (lit "fr")
               then repli_debut_fr matiere question
               else repli_debut_en matiere question
           end,
       [prompt])
  end.

Definition generer_suite_conversation (env : Env)
    (derniere_q reponse : text) (historique : list text)
    (niveau langue : text) (mode_examen : bool) (matiere : text)
  : (text + text) * list prompt :=
  match client_leve env with
  | Some e => (inr e, [])
  | None =>
      (* Ajouter les 10 derniers messages maximum *)
      let historique_contextuel :=
        drop (length historique - 10) historique in
      let prompt :=
        PromptSuite langue niveau matiere historique_contextuel derniere_q
          reponse mode_examen in
      (inl match complete env prompt with
           | Contenu c => strip c
           | Leve _ =>
               if Text.eqb langue (lit "fr")
               then repli_suite_fr matiere
               else repli_suite_en matiere
           end,
       [prompt])
  end.

Module Dialogue.
Record form := mkForm {
  question : option text;
  matiere : option text
}.
End Dialogue.

(** The access check at the head of [enseignant_virtuel], also made by the
    [before_request] hook. *)
Definition acces_refuse (eleve : User.t) : bool :=
  User.essai_expire eleve
  && negb (Text.eqb (User.statut_paiement eleve) (lit "paye")).

Definition enseignant_label (lang : text) : text :=
  if Text.eqb lang (lit "en") then lit "🤖 Teacher:" else lit "🤖 Enseignant:".

Definition eleve_label (lang : text) : text :=
  if Text.eqb lang (lit "en") then lit "👤 Student:" else lit "👤 Élève:".

(** Limiter à 15 messages *)
Definition limiter (conversation : list text) : list text :=
  if (15 <? length conversation)%nat
  then drop (length conversation - 15) conversation
  else conversation.

(** Message d'erreur bilingue *)
Definition fallback_msg (lang : text) : text :=
  if Text.eqb lang (lit "fr")
  then lit "Je suis désolé, j'ai rencontré une erreur. Pourrais-tu reformuler ta question ?"
  else lit "I'm sorry, I encountered an error. Could you rephrase your question?".

(** One turn of the dialogue, the body of
    [if question and len(question) >= 3:] in [enseignant_virtuel]: the
    session it leaves, the completion calls and the lines printed.  The
    list [conversation] is the session's own object, which the appends
    change in place; both ways out of the turn store it back under
    [session["conversation"]], so the value is passed along here. *)
Definition tour (env : Env) (eleve : User.t) (lang question matiere : text)
    (session0 : Session.t) : Session.t * list prompt * list journal_line :=
  let conversation := default [] (Session.conversation session0) in
  let derniere_q_ia := Session.derniere_q_ia session0 in
  (* Si c'est une nouvelle conversation, ajouter un message de bienvenue *)
  let conversation1 :=
    match conversation with
    | [] =>
        [enseignant_label lang ++ lit " "
           ++ get_message (lit "bienvenue_enseignant") lang]
    | _ => conversation
    end in
  let conversation2 :=
    conversation1 ++ [eleve_label lang ++ lit " " ++ question] in
  let niveau :=
    match User.niveau eleve with
    | Some nom => nom
    | None => if Text.eqb lang (lit "en") then lit "6th grade" else lit "6ème"
    end in
  let mode_examen := default false (Session.mode_examen session0) in
  let '(genere, session1) :=
    match derniere_q_ia with
    | Some (c :: q) =>
        (* Réponse à une question précédente *)
        (generer_suite_conversation env (c :: q) question conversation2
           niveau lang mode_examen matiere,
         Session.set_derniere_q_ia None session0)
    | _ =>
        (* Nouvelle question *)
        (generer_debut_conversation env question niveau lang mode_examen
           matiere,
         session0)
    end in
  match genere with
  | (inl reponse, appels) =>
      (* Ajouter la réponse de l'IA *)
      let conversation3 :=
        conversation2 ++ [enseignant_label lang ++ lit " " ++ reponse] in
      let session2 :=
        Session.set_conversation (limiter conversation3) session1 in
      (* Extraire la nouvelle question *)
      let session3 :=
        match extraire_question reponse lang with
        | Some (c :: q) => Session.set_derniere_q_ia (Some (c :: q)) session2
        | _ => session2
        end in
      (Session.flash (get_message (lit "je_te_guide") lang) (lit "success")
         session3,
       appels, [])
  | (inr e, appels) =>
      let conversation3 :=
        conversation2
        ++ [enseignant_label lang ++ lit " " ++ fallback_msg lang] in
      (Session.flash (get_message (lit "erreur_traitement") lang)
         (lit "warning") (Session.set_conversation conversation3 session0),
       appels, [ErreurGenerationReponse e])
  end.

Definition enseignant_virtuel (env : Env) (m : methode) (f : Dialogue.form)
    (db : DB) (session : Session.t) : issue :=
  match Session.eleve_id session with
  | None => inchange (RedirectTo (lit "login_eleve")) db session
  | Some eleve_id =>
  match users db !! eleve_id with
  | None => inchange (RedirectTo (lit "login_eleve")) db session
  | Some eleve =>
    if negb (Text.eqb (User.role eleve) (lit "élève"))
    then inchange (RedirectTo (lit "login_eleve")) db session
    else
    (* Vérifier l'accès (essai gratuit uniquement) *)
    let lang := default (lit "fr") (Session.lang session) in
    if acces_refuse eleve
    then
      inchange (RedirectTo (lit "login_eleve")) db
        (Session.flash (get_message (lit "essai_termine") lang) (lit "error")
           Session.clear)
    else
    (* Initialiser la conversation si elle n'existe pas *)
    let session0 :=
      match Session.conversation session with
      | None => Session.set_conversation [] session
      | Some _ => session
      end in
    let rendu (s : Session.t) (appels : list prompt)
        (j : list journal_line) : issue :=
      mkIssue (EnseignantVirtuel (default [] (Session.conversation s))) db s
        appels j in
    match m with
    | GET => rendu session0 [] []
    | POST =>
      let question := strip (default [] (Dialogue.question f)) in
      let matiere :=
        match Dialogue.matiere f with
        | Some (c :: r) => c :: r
        | _ => if Text.eqb lang (lit "fr") then lit "mathématiques"
               else lit "mathematics"
        end in
      if (3 <=? length question)%nat then
        let '(s, appels, j) := tour env eleve lang question matiere session0 in
        rendu s appels j
      else rendu session0 [] []
    end
  end
  end.

(** The [before_request] hook: [Some] when it answers in place of the
    view. *)
Definition before_request (endpoint : option text) (db : DB)
    (session : Session.t) : option issue :=
  match Session.eleve_id session, endpoint with
  | Some eleve_id, Some (c :: e) =>
      if existsb (fun route => contient route (c :: e))
           [lit "dashboard_eleve"; lit "contenus_eleve"; lit "exercice";
            lit "enseignant_virtuel"]
      then
        match users db !! eleve_id with
        | Some eleve =>
            if Text.eqb (User.role eleve) (lit "élève") && acces_refuse eleve
            then
              Some (inchange (RedirectTo (lit "login_eleve")) db
                      (Session.flash
                         (lit "Votre période d'essai gratuit de 48h est terminée. Veuillez vous abonner pour continuer.")
                         (lit "error") Session.clear))
            else None
        | None => None
        end
      else None
  | _, _ => None
  end.

(** The [before_request] hook [set_language], registered before the hook
    [before_request]: a [?lang=] that is not empty is written to the
    session. *)
Definition set_language (lang_arg : option text) (session : Session.t)
  : Session.t :=
  match lang_arg with
  | Some (c :: l) =>
      Session.mk (Session.eleve_id session) (Session.enseignant_id session)
        (Some (c :: l)) (Session.conversation session)
        (Session.derniere_q_ia session) (Session.mode_examen session)
        (Session.remediation_access session) (Session.flashes session)
  | _ => session
  end.

(** The two hooks in the order they are registered, for a request to
    [endpoint] with the query parameter [?lang=]: the answer of
    [before_request] when it answers in place of the view, or else the
    session the view is called with. *)
Definition avant_requete (endpoint : text) (lang_arg : option text) (db : DB)
    (session : Session.t) : issue + Session.t :=
  let session1 := set_language lang_arg session in
  match before_request (Some endpoint) db session1 with
  | Some r => inl r
  | None => inr session1
  end.

(** A request to [/enseignant/valider-remediation/<id>]: the hooks, then
    the view, which reads the same [?lang=]. *)
Definition requete_valider_remediation (env : Env) (remediation_id : N)
    (m : methode) (lang_arg : option text) (f : Validation.form) (db : DB)
    (session : Session.t) : issue :=
  match avant_requete (lit "valider_remediation") lang_arg db session with
  | inl r => r
  | inr session1 =>
      valider_remediation env remediation_id m lang_arg f db session1
  end.

(** A request to [/enseignant-virtuel]: the hook, then the view. *)
Definition requete_enseignant_virtuel (env : Env) (m : methode)
    (f : Dialogue.form) (db : DB) (session : Session.t) : issue :=
  match before_request (Some (lit "enseignant_virtuel")) db session with
  | Some r => r
  | None => enseignant_virtuel env m f db session
  end.

(** ** [execute_with_retry]

    [func] may do something else at each call: [func i] is what the call
    made at attempt [i] does. *)

Inductive exception :=
| OperationalError (message : text)
| AutreException.

Inductive appel (A : Type) :=
| Retourne (v : A)
| Echoue (e : exception).
Arguments Retourne {A} v.
Arguments Echoue {A} e.

(** How [execute_with_retry] ends: with a value returned, or with the
    exception [raise] lets through.  The value is the one [return func()]
    hands on or, past the loop, [None]: [none] below is the value [None]
    among the values of type [A], so that a [func] that returns [None]
    and the end of the loop give the same result. *)
Inductive fin (A : Type) :=
| Rend (v : A)
| Propage (e : exception).
Arguments Rend {A} v.
Arguments Propage {A} e.

(** [isinstance(e, OperationalError) and "locked" in str(e)] *)
Definition verrouillee (e : exception) : bool :=
  match e with
  | OperationalError message => contient (lit "locked") message
  | AutreException => false
  end.

(** The iterations of [for attempt in range(max_retries)] from [attempt]
    on, [restant] of them: the end of the function, the number of calls of
    [func], and the factors [attempt + 1] of the pauses
    [time.sleep(0.1 * (attempt + 1))]. *)
Fixpoint tentatives {A} (none : A) (func : nat -> appel A) (max_retries : Z)
    (restant attempt : nat) : fin A * nat * list nat :=
  match restant with
  | O => (Rend none, O, [])
  | S restant' =>
      match func attempt with
      | Retourne v => (Rend v, 1%nat, [])
      | Echoue e =>
          if verrouillee e && (Z.of_nat attempt <? max_retries - 1)%Z
          then
            let '(f, n, pauses) :=
              tentatives none func max_retries restant' (S attempt) in
            (f, S n, (attempt + 1)%nat :: pauses)
          else (Propage e, 1%nat, [])
      end
  end.

Definition execute_with_retry {A} (none : A) (func : nat -> appel A)
    (max_retries : Z) : fin A * nat * list nat :=
  tentatives none func max_retries (Z.to_nat max_retries) 0.

(** What attempt [i] leaves when it does not go on to the next one. *)
Definition fin_de {A} (a : appel A) : fin A :=
  match a with
  | Retourne v => Rend v
  | Echoue e => Propage e
  end.

(** An attempt after which the loop goes on, when it is not the last. *)
Definition continue {A} (a : appel A) : bool :=
  match a with
  | Retourne _ => false
  | Echoue e => verrouillee e
  end.

(** ** The routes that reset or delete

    Of the session keys these routes pop, the session record holds
    [conversation], [derniere_q_ia] and [mode_examen]; the other keys they
    name ([exercice_en_cours], [remediation_access_granted],
    [remediation_exercice_id], [remediation_access_count]) are written by
    none of the routes above, and [remediation_access] is not among them. *)

(** [/nouvel-exercice]; the redirection carries the time as a parameter. *)
Definition nouvel_exercice (db : DB) (session : Session.t) : issue :=
  match Session.eleve_id session with
  | None => inchange (RedirectTo (lit "login_eleve")) db session
  | Some _ =>
      (* Vider TOUTE la session liée à la conversation *)
      inchange (RedirectTo (lit "enseignant_virtuel")) db
        (Session.flash (lit "🎯 Nouvel exercice prêt ! Pose ta question.")
           (lit "success")
           (Session.mk (Session.eleve_id session)
              (Session.enseignant_id session) (Session.lang session) None
              None None (Session.remediation_access session)
              (Session.flashes session)))
  end.

(** [/close-remediation-access] *)
Definition close_remediation_access (db : DB) (session : Session.t) : issue :=
  match Session.eleve_id session with
  | None => inchange (RedirectTo (lit "login_eleve")) db session
  | Some _ =>
      (* Supprimer les clés de session *)
      inchange (RedirectTo (lit "dashboard_eleve")) db
        (Session.flash
           (lit "🎉 Félicitations ! Tu as terminé la rémédiation.")
           (lit "success")
           (Session.mk (Session.eleve_id session)
              (Session.enseignant_id session) (Session.lang session) None
              None (Session.mode_examen session)
              (Session.remediation_access session)
              (Session.flashes session)))
  end.

(** [/enseignant/supprimer-remediation/<int:id>]; the redirection carries
    the language of the session. *)
Definition supprimer_remediation (env : Env) (id : N) (db : DB)
    (session : Session.t) : issue :=
  match Session.enseignant_id session with
  | None => inchange (RedirectTo (lit "login_enseignant")) db session
  | Some _ =>
      match suggestions db !! id with
      | None => inchange NotFound db session
      | Some _ =>
          match commit_leve env 0 with
          | Some _ => inchange NonGeree db session
          | None =>
              inchange (RedirectTo (lit "remediations_en_attente"))
                (avec_suggestions db (delete id (suggestions db)))
                (Session.flash (lit "Remédiation supprimée avec succès.")
                   (lit "success") session)
          end
      end
  end.

(** ** The pages of an exercise: [/faire-exercice-sequentiel] and
    [/exercice/<int:ex_id>]

    Both endpoints have [exercice] in their name, so that the hook
    [before_request] applies to them: [faire_exercice_sequentiel] and
    [faire_exercice] are the views, [requete_faire_exercice_sequentiel] and
    [requete_faire_exercice] the requests, hooks first. *)

Module FaireSequentiel.
Record args := mkArgs {
  username : option text;
  lang : option text;
  lecon_id : option N;
  (** [int(request.args.get("index", 0))] *)
  index : Z
}.
End FaireSequentiel.

(** [l[i]] on a Python list: a negative index counts from the end, and
    [None] stands for [IndexError]. *)
Definition indice {A} (l : list A) (i : Z) : option A :=
  if (0 <=? i)%Z then l !! Z.to_nat i
  else if (- Z.of_nat (length l) <=? i)%Z
       then l !! Z.to_nat (Z.of_nat (length l) + i)
       else None.

Inductive page_sequentielle :=
| SeqIntrouvable (message : text)    (* 404 *)
| SeqComplete                        (* redirect, message=sequence_complete *)
| SeqNonGeree                        (* IndexError *)
| SeqExercice (exercice : Exercice.t) (index total : Z)
    (show_feedback has_next : bool).

Definition faire_exercice_sequentiel (a : FaireSequentiel.args) (db : DB)
  : page_sequentielle :=
  let index := FaireSequentiel.index a in
  let eleve :=
    FaireSequentiel.username a ≫= fun u =>
      premier (fun x => Text.eqb (User.username x) u) (users db) in
  let lecon := FaireSequentiel.lecon_id a ≫= (lecons db !!.) in
  match eleve, lecon with
  | None, _ =>
      SeqIntrouvable
        (lit "Élève non trouvé: " ++ fmt (FaireSequentiel.username a))
  | Some _, None => SeqIntrouvable (lit "Leçon non trouvée")
  | Some _, Some _ =>
      (* Récupérer tous les exercices de la leçon *)
      let exercices :=
        List.filter
          (fun kr => bool_decide (Exercice.lecon_id (snd kr)
                                  = FaireSequentiel.lecon_id a))
          (map_to_list (exercices db)) in
      if (Z.of_nat (length exercices) <=? index)%Z
      then SeqComplete (* Tous les exercices sont terminés *)
      else
        match indice exercices index with
        | None => SeqNonGeree
        | Some exercice =>
            SeqExercice (snd exercice) index (Z.of_nat (length exercices))
              false (index + 1 <? Z.of_nat (length exercices))%Z
        end
  end.

(** A request to [/faire-exercice-sequentiel]: the answer of the hook, or
    the page of the view with the session the hooks leave. *)
Definition requete_faire_exercice_sequentiel (a : FaireSequentiel.args)
    (db : DB) (session : Session.t) : issue + page_sequentielle * Session.t :=
  match
    avant_requete (lit "faire_exercice_sequentiel") (FaireSequentiel.lang a)
      db session
  with
  | inl r => inl r
  | inr session1 => inr (faire_exercice_sequentiel a db, session1)
  end.

Inductive page_exercice :=
| ExIntrouvable                                  (* first_or_404, get_or_404 *)
| ExDetail (exercice : Exercice.t) (reponse : option StudentResponse.t)
    (show_feedback already_completed : bool)
| VersSoumettreReponse (student_id exercice_id : N) (reponse_eleve : text).

(** [/exercice/<int:ex_id>], the view: the page or the redirection, and
    the session, which gains a flashed message when the posted answer is
    empty. *)
Definition faire_exercice (ex_id : N) (m : methode)
    (username lang reponse_eleve : option text) (db : DB)
    (session : Session.t) : page_exercice * Session.t :=
  let lang := default (lit "fr") lang in
  match
    username ≫= fun u =>
      premier (fun x => Text.eqb (User.username x) u) (users db)
  with
  | None => (ExIntrouvable, session)
  | Some (eleve_id, eleve) =>
      match exercices db !! ex_id with
      | None => (ExIntrouvable, session)
      | Some exercice =>
          (* Vérifier si l'exercice est déjà fait *)
          let reponse_existante :=
            premier
              (fun r =>
                 (StudentResponse.user_id r =? eleve_id)
                 && bool_decide (StudentResponse.exercice_id r = Some ex_id))
              (reponses db) in
          match m, reponse_existante with
          | POST, None =>
              (* Si POST et exercice non fait, soumettre normalement *)
              match strip (default [] reponse_eleve) with
              | [] =>
                  (ExDetail exercice None false false,
                   Session.flash
                     (if Text.eqb lang (lit "fr")
                      then lit "Veuillez saisir une réponse"
                      else lit "Please enter an answer")
                     (lit "error") session)
              | c :: r => (VersSoumettreReponse eleve_id ex_id (c :: r), session)
              end
          | _, _ =>
              (* Si GET ou exercice déjà fait, afficher la page *)
              (ExDetail exercice (snd <$> reponse_existante)
                 (bool_decide (reponse_existante <> None))
                 (bool_decide (reponse_existante <> None)),
               session)
          end
      end
  end.

(** A request to [/exercice/<int:ex_id>]: the answer of the hook, or what
    the view answers on the session the hooks leave. *)
Definition requete_faire_exercice (ex_id : N) (m : methode)
    (username lang reponse_eleve : option text) (db : DB)
    (session : Session.t) : issue + page_exercice * Session.t :=
  match avant_requete (lit "faire_exercice") lang db session with
  | inl r => inl r
  | inr session1 =>
      inr (faire_exercice ex_id m username lang reponse_eleve db session1)
  end.

(** ** Vocabulary of the properties *)

(** The label of a score line: [Note] or [Score] in any mix of cases. *)
Definition est_label (lab : text) : Prop :=
  Forall2 (fun p c => Re.letter_i p c = true) (lit "note") lab
  \/ Forall2 (fun p c => Re.letter_i p c = true) (lit "score") lab.

(** [k1] refuses every input [k2] refuses. *)
Definition refuse_plus {A B} (k1 : text -> option A) (k2 : text -> option B)
  : Prop :=
  forall s, k2 s = None -> k1 s = None.

(** The analysis the two exercise submissions keep of a grading call: the
    stripped completion, or the text they make of the exception. *)
Definition analyse_de (c : completion) : text :=
  match c with
  | Contenu c => strip c
  | Leve e => lit "Erreur IA : " ++ e
  end.

(** The statement of an exercise in the language of a template. *)
Definition question_de (g : gabarit) (exercice : Exercice.t) : text :=
  match g with
  | EN => Exercice.question_en exercice
  | FR => Exercice.question_fr exercice
  end.

(** How many of the completion calls of a request ask for a remediation. *)
Definition nb_remediations (l : list prompt) : nat :=
  length (List.filter est_remediation l).

(** ** Sample data

    A small store and a few requests, for the concrete instances below. *)

Module Exemple.
(** Ana's free trial has expired and she has not paid; Bob's runs on. *)
Definition ana : User.t :=
  User.mk (lit "ana") (lit "élève") (lit "fr") (lit "essai_gratuit") true None.

Definition bob : User.t :=
  User.mk (lit "bob") (lit "élève") (lit "en") (lit "essai_gratuit") false
    (Some (lit "7th grade")).

Definition fractions : Lecon.t := Lecon.mk (lit "Fractions").

Definition exercice7 : Exercice.t :=
  Exercice.mk (lit "Calcule 1/2 + 1/3.") (lit "Compute 1/2 + 1/3.")
    (lit "fractions") (Some 1).

Definition suggestion (user_id : N) (s : Statut) (vue : option bool)
  : RemediationSuggestion.t :=
  RemediationSuggestion.mk user_id (lit "fractions") (lit "Fractions")
    (Some (lit "Exercice de remédiation proposé automatiquement (note: 1/5)."))
    (lit "Question : Calcule 1/4 + 1/2.") s 900 vue None None None None.

Definition db : DB :=
  mkDB {[ 1 := ana; 2 := bob ]} {[ 1 := fractions ]} {[ 7 := exercice7 ]} ∅
    {[ 3 := suggestion 1 reussie (Some true);
       4 := suggestion 1 valide None;
       5 := suggestion 2 valide (Some false);
       6 := suggestion 1 en_attente None ]}.

(** The completion service answers [correction] to a grading prompt and
    [remediation] to a remediation prompt; every commit succeeds. *)
Definition env (correction remediation : completion) : Env :=
  mkEnv (fun p => if est_remediation p then remediation else correction)
    (fun _ => None) 1000 None.

Definition session_ana : Session.t :=
  Session.mk (Some 1) None None None None None None [].

Definition session_enseignant : Session.t :=
  Session.mk None (Some 1) None None None None None [].

Definition reponse_ana : SoumettreReponse.form :=
  SoumettreReponse.mkForm (Some 1) (Some 7) (Some (lit "2/5")).

Definition reponse_bob : SoumettreSequentiel.form :=
  SoumettreSequentiel.mkForm (Some (lit "bob")) (Some (lit "en")) (Some 1)
    (Some 7) (Some (lit "5/6")) 0 None.

Definition note_2 : completion := Contenu (lit "Analyse : incomplet. Note : 2/5").
Definition note_4 : completion := Contenu (lit "Analysis: fine. Score: 4/5").
Definition exercice_genere : completion :=
  Contenu (lit "Question : Calcule 1/4 + 1/2.").
End Exemple.

Module Panne.
(** Requests during which the completion service is down. *)
Definition timeout : completion := Leve (lit "Request timed out.").

(** Ana's answer, the grading call failing. *)
Definition correction : issue :=
  soumettre_reponse (Exemple.env timeout Exemple.exercice_genere)
    Exemple.reponse_ana Exemple.db Exemple.session_ana.

(** Bob's answer in the sequence of a lesson, graded 2/5, the remediation
    call failing. *)
Definition env_remediation : Env :=
  Exemple.env (Contenu (lit "Analysis: incomplete. Score: 2/5")) timeout.

Definition remediation_sequentiel : issue :=
  soumettre_sequentiel env_remediation Exemple.reponse_bob Exemple.db
    Exemple.session_ana.
End Panne.

Module Verrou.
(** Requests during which the database is locked: every commit raises.
    The grading call is answered with a score of 2/5. *)
Definition env : Env :=
  mkEnv (fun p => if est_remediation p then Exemple.exercice_genere
                  else Exemple.note_2)
    (fun _ => Some (lit "database is locked")) 1000 None.

(** Bob's answer in the sequence of a lesson. *)
Definition sequentiel : issue :=
  soumettre_sequentiel env Exemple.reponse_bob Exemple.db Exemple.session_ana.

(** Ana's answer to the exercise alone. *)
Definition simple : issue :=
  soumettre_reponse env Exemple.reponse_ana Exemple.db Exemple.session_ana.
End Verrou.

Module Approbation.
(** A teacher submits the validation form for suggestion 3 of the sample
    store, which is [reussie]. *)
Definition formulaire : Validation.form :=
  Validation.mkForm (Some (lit "À refaire."))
    (Some (lit "Calcule 1/4 + 1/2.")) (Some (lit "3/4"))
    (Some (lit "Même dénominateur.")).


(** A student posts a new answer for suggestion 3 to
    [/soumettre-remediation/3], graded 2/5. *)
Definition tentative : Tentative.form :=
  Tentative.mkForm (Some (lit "1/6")) None.

Definition nouvelle_tentative : issue :=
  soumettre_remediation (Exemple.env Exemple.note_2 Exemple.exercice_genere) 3
    tentative Exemple.db Exemple.session_ana.
End Approbation.

(** [r'] differs from [r] at most by the flag [vue_par_eleve]. *)
Definition memes_autres_champs (r r' : RemediationSuggestion.t) : Prop :=
  RemediationSuggestion.user_id r' = RemediationSuggestion.user_id r
  /\ RemediationSuggestion.theme r' = RemediationSuggestion.theme r
  /\ RemediationSuggestion.lecon r' = RemediationSuggestion.lecon r
  /\ RemediationSuggestion.message r' = RemediationSuggestion.message r
  /\ RemediationSuggestion.exercice_suggere r'
     = RemediationSuggestion.exercice_suggere r
  /\ RemediationSuggestion.statut r' = RemediationSuggestion.statut r
  /\ RemediationSuggestion.timestamp r' = RemediationSuggestion.timestamp r
  /\ RemediationSuggestion.notif_envoyee r'
     = RemediationSuggestion.notif_envoyee r
  /\ RemediationSuggestion.reponse_eleve r'
     = RemediationSuggestion.reponse_eleve r
  /\ RemediationSuggestion.analyse_ia r' = RemediationSuggestion.analyse_ia r
  /\ RemediationSuggestion.etoiles r' = RemediationSuggestion.etoiles r.

(** The suggestions the listing of student [eleve_id] selects. *)
Definition validee_de (eleve_id : N) (r : RemediationSuggestion.t) : bool :=
  (RemediationSuggestion.user_id r =? eleve_id)
  && bool_decide (RemediationSuggestion.statut r = valide).

(** The body of the loop of [eleve_remediations]. *)
Definition marquer (r : RemediationSuggestion.t) : RemediationSuggestion.t :=
  if pas_vue r then RemediationSuggestion.set_vue_par_eleve (Some true) r
  else r.

Module Tour.
(** A dialogue of Bob's that already holds 15 entries, and a turn during
    which the client of the completion service cannot be built. *)
Definition quinze : list text :=
  lit "🤖 Teacher: 👋 Hello! I'm your virtual teacher. Ask me any question about any subject!"
  :: concat (replicate 7
       [lit "👤 Student: I add the numerators.";
        lit "🤖 Teacher: What is the common denominator?"]).

Definition session_bob : Session.t :=
  Session.mk (Some 2) None (Some (lit "en")) (Some quinze)
    (Some (lit "the common denominator")) None None [].

Definition question : Dialogue.form :=
  Dialogue.mkForm (Some (lit "It is 6, I think.")) None.

Definition sans_client : Env :=
  mkEnv (fun _ => Exemple.note_4) (fun _ => None) 1000
    (Some (lit "The api_key client option must be set")).

Definition en_panne : issue :=
  requete_enseignant_virtuel sans_client POST question Exemple.db session_bob.

(** The same turn with the service answering. *)
Definition avec_client : Env :=
  mkEnv (fun _ => Contenu (lit "Yes! Can you add the fractions now?"))
    (fun _ => None) 1000 None.

Definition reussi : issue :=
  requete_enseignant_virtuel avec_client POST question Exemple.db session_bob.
End Tour.

Module Acces.
(** Ana, whose trial has expired, has an answer graded 2/5, then opens the
    guided dialogue with the session that request left her. *)
Definition soumission : issue :=
  soumettre_reponse (Exemple.env Exemple.note_2 Exemple.exercice_genere)
    Exemple.reponse_ana Exemple.db Exemple.session_ana.

Definition dialogue : issue :=
  requete_enseignant_virtuel
    (Exemple.env Exemple.note_2 Exemple.exercice_genere) GET
    (Dialogue.mkForm None None) (db_apres soumission)
    (session_apres soumission).

(** The view alone, without the [before_request] hook. *)
Definition vue : issue :=
  enseignant_virtuel (Exemple.env Exemple.note_2 Exemple.exercice_genere) GET
    (Dialogue.mkForm None None) (db_apres soumission)
    (session_apres soumission).
End Acces.

(** The transcript a request leaves in the session. *)
Definition transcript (s : Session.t) : list text :=
  default [] (Session.conversation s).

(** * Properties *)

Ltac conjonctions := repeat match goal with |- _ /\ _ => split end.

(** ** Character classes *)

Lemma isspace_In c : isspace c = true -> In c espaces.
Proof.
  unfold isspace. intros H. apply existsb_exists in H as (x & Hx & E).
  apply N.eqb_eq in E. now subst.
Qed.

Lemma isspace_not_decimal c : isspace c = true -> isdecimal c = false.
Proof.
  intros H. apply isspace_In in H. unfold espaces in H.
  repeat (destruct H as [<- | H]; [vm_compute; reflexivity |]).
  destruct H.
Qed.

Lemma decimal_not_space c : isdecimal c = true -> isspace c = false.
Proof.
  intros H. destruct (isspace c) eqn:E; [|reflexivity].
  apply isspace_not_decimal in E. congruence.
Qed.

Lemma isspace_not_colon c : isspace c = true -> (c =? 58) = false.
Proof.
  intros H. destruct (N.eqb_spec c 58) as [->|]; [|reflexivity].
  vm_compute in H. discriminate.
Qed.

Lemma decimal_not_slash c : isdecimal c = true -> (c =? 47) = false.
Proof.
  intros H. destruct (N.eqb_spec c 47) as [->|]; [|reflexivity].
  vm_compute in H. discriminate.
Qed.

(** [int] of a character [\d] matches is a digit value. *)
Lemma int_range c : (0 <= int c <= 9)%Z.
Proof.
  unfold int, decimal. destruct (List.find (in_run c) nd_zeros) eqn:E; [|lia].
  apply find_some in E as [_ E]. unfold in_run in E.
  apply andb_true_iff in E as [E1 E2].
  apply N.leb_le in E1. apply N.ltb_lt in E2. lia.
Qed.

(** ** The matchers *)

Section Matchers.
Context {A : Type}.
Implicit Types (k : text -> option A) (s : text).

(** White space in front of something [k] refuses to start on is skipped,
    and giving some of it back never helps. *)
Lemma many_isspace_skip k ws s :
  Forall (fun c => isspace c = true) ws ->
  (forall c r, isspace c = true -> k (c :: r) = None) ->
  match s with c :: _ => isspace c = false | [] => True end ->
  Re.many isspace k (ws ++ s) = k s.
Proof.
  intros Hws Hk Hs. induction Hws as [|w ws Hw _ IH]; simpl.
  - destruct s as [|c s']; [reflexivity|]. simpl. now rewrite Hs.
  - rewrite Hw, IH. destruct (k s); [reflexivity|]. now apply Hk.
Qed.

Lemma word_i_app pat lab k s :
  Forall2 (fun p c => Re.letter_i p c = true) pat lab ->
  Re.word_i pat k (lab ++ s) = k s.
Proof.
  induction 1 as [|p c pat lab Hpc _ IH]; simpl; [reflexivity|].
  now rewrite Hpc.
Qed.

(** Positions where the pattern does not match are passed over. *)
Lemma search_skip (m : text -> option A) pre s :
  (forall i, (i < length pre)%nat -> m (drop i (pre ++ s)) = None) ->
  Re.search m (pre ++ s) = Re.search m s.
Proof.
  induction pre as [|c pre IH]; intros H; [reflexivity|].
  simpl. rewrite (H 0%nat ltac:(simpl; lia) : m (c :: pre ++ s) = None).
  apply IH. intros i Hi. apply (H (S i)). simpl. lia.
Qed.
End Matchers.

Lemma lit_note : lit "note" = [110; 111; 116; 101].
Proof. vm_compute. reflexivity. Qed.

Lemma lit_score : lit "score" = [115; 99; 111; 114; 101].
Proof. vm_compute. reflexivity. Qed.

Lemma lit_colon : lit ":" = [58].
Proof. vm_compute. reflexivity. Qed.

Lemma lit_slash5 : lit "/5" = [47; 53].
Proof. vm_compute. reflexivity. Qed.

Lemma letter_i_n_not_s c : Re.letter_i 110 c = true -> Re.letter_i 115 c = false.
Proof.
  unfold Re.letter_i. change (110 - 32) with 78. change (115 - 32) with 83.
  destruct (N.eqb_spec c 110) as [->|]; [reflexivity|].
  destruct (N.eqb_spec c 78) as [->|]; [reflexivity|].
  simpl. discriminate.
Qed.

Lemma letter_i_s_not_n c : Re.letter_i 115 c = true -> Re.letter_i 110 c = false.
Proof.
  intros H. destruct (Re.letter_i 110 c) eqn:E; [|reflexivity].
  apply letter_i_n_not_s in E. congruence.
Qed.

Lemma label_colon_app {A} (k : text -> option A) lab s :
  est_label lab ->
  Re.label_colon k (lab ++ s)
  = Re.many isspace (Re.exact (lit ":") (Re.many isspace k)) s.
Proof.
  unfold est_label, Re.label_colon, Re.alt. intros [H|H].
  - rewrite (word_i_app _ _ _ _ H).
    destruct (Re.many isspace _ s) eqn:E; [reflexivity|].
    rewrite lit_note in H. rewrite lit_score.
    inversion H as [|p c ? ? Hc _]; subst. simpl.
    now rewrite (letter_i_n_not_s _ Hc).
  - rewrite (word_i_app _ _ _ _ H).
    rewrite lit_score in H. rewrite lit_note.
    inversion H as [|p c ? ? Hc _]; subst. simpl.
    now rewrite (letter_i_s_not_n _ Hc).
Qed.

(** After the label: white space, the colon, white space, then [k] on what
    follows, when that starts with a decimal digit. *)
Lemma label_colon_score_line {A} (k : text -> option A) lab ws1 ws2 d s :
  est_label lab ->
  Forall (fun c => isspace c = true) ws1 ->
  Forall (fun c => isspace c = true) ws2 ->
  isdecimal d = true ->
  (forall c r, isspace c = true -> k (c :: r) = None) ->
  Re.label_colon k (lab ++ ws1 ++ [58] ++ ws2 ++ d :: s) = k (d :: s).
Proof.
  intros Hl H1 H2 Hd Hk. rewrite label_colon_app by assumption.
  rewrite many_isspace_skip; try assumption.
  - rewrite lit_colon. simpl.
    apply many_isspace_skip; try assumption.
    now apply decimal_not_space.
  - intros c r Hc. rewrite lit_colon. simpl.
    now rewrite (isspace_not_colon _ Hc).
  - simpl. reflexivity.
Qed.

(** Whatever the pattern with [/5] matches, the fallback pattern matches at
    the same position. *)
Section Monotone.
Context {A B : Type}.

Lemma many_mono cls (k1 : text -> option A) (k2 : text -> option B) :
  refuse_plus k1 k2 -> refuse_plus (Re.many cls k1) (Re.many cls k2).
Proof.
  intros H s. induction s as [|c s IH]; simpl; [apply H|].
  destruct (cls c); [|apply H].
  destruct (Re.many cls k2 s); [discriminate|].
  intros E. rewrite IH by reflexivity. now apply H.
Qed.

Lemma exact_mono pat (k1 : text -> option A) (k2 : text -> option B) :
  refuse_plus k1 k2 -> refuse_plus (Re.exact pat k1) (Re.exact pat k2).
Proof.
  intros H. induction pat as [|p pat IH]; intros s; simpl; [apply H|].
  destruct s as [|c s]; [reflexivity|]. destruct (c =? p); [apply IH|reflexivity].
Qed.

Lemma word_i_mono pat (k1 : text -> option A) (k2 : text -> option B) :
  refuse_plus k1 k2 -> refuse_plus (Re.word_i pat k1) (Re.word_i pat k2).
Proof.
  intros H. induction pat as [|p pat IH]; intros s; simpl; [apply H|].
  destruct s as [|c s]; [reflexivity|].
  destruct (Re.letter_i p c); [apply IH|reflexivity].
Qed.

Lemma alt_mono (m1 n1 : text -> option A) (m2 n2 : text -> option B) :
  refuse_plus m1 m2 -> refuse_plus n1 n2 ->
  refuse_plus (Re.alt m1 n1) (Re.alt m2 n2).
Proof.
  intros Hm Hn s. unfold Re.alt. destruct (m2 s) eqn:E; [discriminate|].
  intros E'. rewrite (Hm _ E). now apply Hn.
Qed.

Lemma label_colon_mono (k1 : text -> option A) (k2 : text -> option B) :
  refuse_plus k1 k2 -> refuse_plus (Re.label_colon k1) (Re.label_colon k2).
Proof.
  intros H. unfold Re.label_colon.
  apply alt_mono; apply word_i_mono, many_mono, exact_mono, many_mono, H.
Qed.

Lemma search_mono (m1 : text -> option A) (m2 : text -> option B) :
  refuse_plus m1 m2 -> refuse_plus (Re.search m1) (Re.search m2).
Proof.
  intros H s. induction s as [|c s IH]; simpl.
  - destruct (m2 []) eqn:E; [discriminate|]. now rewrite (H _ E).
  - destruct (m2 (c :: s)) eqn:E; [discriminate|]. now rewrite (H _ E).
Qed.
End Monotone.

Lemma score_sur_5_sans_5 : refuse_plus Re.score_sur_5 Re.score_sans_5.
Proof.
  apply label_colon_mono. intros [|c s]; simpl; [reflexivity|].
  destruct (isdecimal c); [discriminate|reflexivity].
Qed.

Lemma est_label_cons lab : est_label lab -> exists c lab', lab = c :: lab'.
Proof.
  unfold est_label. rewrite lit_note, lit_score.
  intros [H|H]; inversion H; eauto.
Qed.

Lemma drop_S_length_app {X} (pre : list X) c l :
  drop (S (length pre)) (pre ++ c :: l) = l.
Proof. induction pre; simpl; auto. Qed.

(** ** Score extraction *)

(** C9. A score line whose number has several digits: the pattern with [/5]
    does not match (when it matches nowhere after that line's label), the
    fallback pattern matches the first digit (when it matches nowhere
    before), and the score is that first digit capped at 5. *)
Theorem note_a_plusieurs_chiffres pre lab ws1 ws2 d1 d2 post :
  let t := pre ++ lab ++ ws1 ++ [58] ++ ws2 ++ d1 :: d2 :: post in
  est_label lab ->
  Forall (fun c => isspace c = true) ws1 ->
  Forall (fun c => isspace c = true) ws2 ->
  isdecimal d1 = true ->
  isdecimal d2 = true ->
  (forall i, (i < length pre)%nat -> Re.score_sans_5 (drop i t) = None) ->
  Re.search Re.score_sur_5 (drop (S (length pre)) t) = None ->
  Re.search Re.score_sur_5 t = None
  /\ Re.search Re.score_sans_5 t = Some d1
  /\ extraire_note t = (Z.min (int d1) 5, NoteExtraiteSans5 (Z.min (int d1) 5)).
Proof.
  intros t Hlab Hws1 Hws2 Hd1 Hd2 Havant Hapres.
  assert (H5 : Re.search Re.score_sur_5 t = None).
  { unfold t in *. rewrite search_skip.
    2:{ intros i Hi. apply score_sur_5_sans_5. now apply Havant. }
    destruct (est_label_cons _ Hlab) as (c & lab' & ->).
    change ((c :: lab') ++ ?x) with (c :: lab' ++ x) in *.
    rewrite drop_S_length_app in Hapres.
    cbn [Re.search]. rewrite Hapres.
    change (c :: lab' ++ ?x) with ((c :: lab') ++ x).
    unfold Re.score_sur_5.
    rewrite label_colon_score_line; try assumption.
    - unfold Re.one. rewrite Hd1, lit_slash5. simpl.
      now rewrite (decimal_not_slash _ Hd2).
    - intros c0 r Hc0. unfold Re.one.
      now rewrite (isspace_not_decimal _ Hc0). }
  assert (H1 : Re.search Re.score_sans_5 t = Some d1).
  { unfold t in *. rewrite search_skip by assumption.
    assert (E : Re.score_sans_5
                  (lab ++ ws1 ++ [58] ++ ws2 ++ d1 :: d2 :: post) = Some d1).
    { unfold Re.score_sans_5.
      rewrite label_colon_score_line; try assumption.
      - unfold Re.one. now rewrite Hd1.
      - intros c0 r Hc0. unfold Re.one.
        now rewrite (isspace_not_decimal _ Hc0). }
    destruct (lab ++ ws1 ++ [58] ++ ws2 ++ d1 :: d2 :: post);
      cbn [Re.search]; now rewrite E. }
  repeat split; try assumption.
  unfold extraire_note. now rewrite H5, H1.
Qed.

Lemma note_a_plusieurs_chiffres_witness :
  let t := lit "Bien. Note : 10/5" in
  Re.search Re.score_sur_5 t = None
  /\ Re.search Re.score_sans_5 t = Some 49
  /\ extraire_note t = (1%Z, NoteExtraiteSans5 1).
Proof.
  apply (note_a_plusieurs_chiffres (lit "Bien. ") (lit "Note") [32] [32]
           49 48 (lit "/5")).
  - left. vm_compute. repeat constructor.
  - repeat constructor.
  - repeat constructor.
  - reflexivity.
  - reflexivity.
  - intros i Hi. vm_compute in Hi.
    do 6 (destruct i as [|i]; [vm_compute; reflexivity|]). lia.
  - vm_compute. reflexivity.
Defined.

(** When the pattern with [/5] matches, the score is the digit it read, as
    it stands: between 0 and 9. *)
Lemma extraire_note_sur_5 t d :
  Re.search Re.score_sur_5 t = Some d ->
  extraire_note t = (int d, NoteExtraite (int d)).
Proof. intros H. unfold extraire_note. now rewrite H. Qed.

(** X2. A score line in the format [Label: d/5], read by the first pattern
    (when that pattern matches nowhere before the line): the score is the
    digit [d] itself, whatever its value. *)
Lemma note_sur_5_telle_quelle pre lab ws1 ws2 d post :
  let t := pre ++ lab ++ ws1 ++ [58] ++ ws2 ++ d :: 47 :: 53 :: post in
  est_label lab ->
  Forall (fun c => isspace c = true) ws1 ->
  Forall (fun c => isspace c = true) ws2 ->
  isdecimal d = true ->
  (forall i, (i < length pre)%nat -> Re.score_sur_5 (drop i t) = None) ->
  extraire_note t = (int d, NoteExtraite (int d)).
Proof.
  intros t Hlab Hws1 Hws2 Hd Havant. apply extraire_note_sur_5.
  unfold t in *. rewrite search_skip by assumption.
  assert (E : Re.score_sur_5
                (lab ++ ws1 ++ [58] ++ ws2 ++ d :: 47 :: 53 :: post) = Some d).
  { unfold Re.score_sur_5.
    rewrite label_colon_score_line; try assumption.
    - unfold Re.one. rewrite Hd, lit_slash5. reflexivity.
    - intros c0 r Hc0. unfold Re.one.
      now rewrite (isspace_not_decimal _ Hc0). }
  destruct (lab ++ ws1 ++ [58] ++ ws2 ++ d :: 47 :: 53 :: post);
    cbn [Re.search]; now rewrite E.
Qed.

(** The score lies between 0 and 9; the fallback pattern alone caps it
    at 5. *)
Lemma etoiles_de_range t : (0 <= etoiles_de t <= 9)%Z.
Proof.
  unfold etoiles_de, extraire_note.
  destruct (Re.search Re.score_sur_5 t) as [d|]; cbn [fst].
  - apply int_range.
  - destruct (Re.search Re.score_sans_5 t) as [d|]; cbn [fst]; [|lia].
    pose proof (int_range d). lia.
Qed.

Example note_4_sur_5 :
  etoiles_de (lit "Analyse : bon raisonnement. Note : 4/5") = 4%Z
  /\ etoiles_de (lit "Analysis: good reasoning. SCORE:4/5 Correction: ...") = 4%Z.
Proof. split; vm_compute; reflexivity. Qed.

Example note_sans_barre : etoiles_de (lit "note : 9") = 5%Z.
Proof. vm_compute. reflexivity. Qed.

(** C3. The score line [Score: 7/5] is read by the pattern with [/5], whose
    branch does not cap the digit: the score is 7, not 5.  The cap is applied
    in the fallback branch alone. *)
Theorem note_sur_5_non_plafonnee :
  Re.search Re.score_sur_5 (lit "Score: 7/5") = Some 55
  /\ extraire_note (lit "Score: 7/5") = (7%Z, NoteExtraite 7)
  /\ extraire_note (lit "Score: 7") = (5%Z, NoteExtraiteSans5 5).
Proof. conjonctions; vm_compute; reflexivity. Qed.

(** C7, as stated, fails: a completion without any score line and one
    graded [Note : 0/5] leave the same value in [etoiles], which is all the
    extraction hands on; nothing computed from it tells them apart. *)
Lemma note_absente_confondue_avec_zero :
  Re.search Re.score_sans_5 (lit "Bon travail.") = None
  /\ Re.search Re.score_sur_5 (lit "Note : 0/5") = Some 48
  /\ etoiles_de (lit "Bon travail.") = 0%Z
  /\ etoiles_de (lit "Note : 0/5") = 0%Z
  /\ ~ (exists unparsed : Z -> bool,
          unparsed (etoiles_de (lit "Bon travail.")) = true
          /\ unparsed (etoiles_de (lit "Note : 0/5")) = false).
Proof.
  conjonctions; try (vm_compute; reflexivity).
  intros (unparsed & H1 & H2).
  change (etoiles_de (lit "Bon travail.")) with 0%Z in H1.
  change (etoiles_de (lit "Note : 0/5")) with 0%Z in H2.
  congruence.
Qed.

(** C7, amended. Without a match of the score patterns the extraction
    leaves 0 in [etoiles] and prints the warning line; the warning is
    printed, not returned. *)
Theorem note_absente t :
  Re.search Re.score_sans_5 t = None ->
  extraire_note t = (0%Z, NoteImpossible).
Proof.
  intros H. unfold extraire_note.
  now rewrite (search_mono _ _ score_sur_5_sans_5 _ H), H.
Qed.

Lemma note_absente_witness :
  extraire_note (lit "Bon travail.") = (0%Z, NoteImpossible).
Proof. apply (note_absente (lit "Bon travail.")). vm_compute. reflexivity. Defined.

(** ** Grading and remediation *)

Lemma ajouter_lookup {A} (row : A) (tbl : gmap N A) :
  ajouter row tbl !! nouvelle_cle tbl = Some row.
Proof. unfold ajouter. apply lookup_insert_eq. Qed.

(** A row already in the table is still there, unchanged, after a new row
    is added. *)
Lemma ajouter_lookup_ancien {A} (row x : A) (tbl : gmap N A) k :
  tbl !! k = Some x -> ajouter row tbl !! k = Some x.
Proof.
  intros H. unfold ajouter. rewrite lookup_insert_ne; [exact H|].
  intros <-. apply (is_fresh (dom tbl)). apply elem_of_dom. eauto.
Qed.

Ltac note_extraite :=
  match goal with
  | H : extraire_note _ = _ |- _ => rewrite H
  end.

(** C1, as stated, fails.  Bob's answer in the sequence of a lesson is
    graded 2/5 while the database is locked.  [soumettre_sequentiel] commits
    the answer before it looks at the score: the commit raises, the request
    answers 500, and its only completion call is the grading call, so that
    no remediation is generated for a score below 3.  [soumettre_reponse]
    generates the remediation before it commits: the same failure there
    comes after the remediation call. *)
Lemma remediation_sans_sauvegarde :
  resp Verrou.sequentiel
  = Body 500 (lit "Erreur base de données: database is locked")
  /\ In (NoteExtraite 2) (journal Verrou.sequentiel)
  /\ appels Verrou.sequentiel
     = [PromptCorrectionSequentiel EN (lit "Compute 1/2 + 1/3.") (lit "5/6")]
  /\ nb_remediations (appels Verrou.sequentiel) = 0%nat
  /\ reponses (db_apres Verrou.sequentiel) = reponses Exemple.db
  /\ suggestions (db_apres Verrou.sequentiel) = suggestions Exemple.db
  /\ nb_remediations (appels Verrou.simple) = 1%nat.
Proof.
  conjonctions; try (vm_compute; reflexivity).
  vm_compute. tauto.
Qed.

(** C1, amended. A submission the route grades: the student, the exercise
    (and for the sequence the lesson) are found and the answer is not
    blank.  The score is the one extracted from the analysis of the
    grading call.  [soumettre_reponse] makes exactly one remediation call
    when the score is below 3 and none otherwise, whether its commit then
    succeeds or not, and with the commit it returns the grading page for
    the record of that score.  [soumettre_sequentiel] does so once the
    commit of the answer has succeeded (the page then needs the commit of
    the suggestion too); when the commit of the answer raises, it answers
    500, makes no remediation call whatever the score, and stores
    nothing. *)
Theorem remediation_selon_note :
  (forall env f db session student_id exercice_id eleve exercice c q,
     SoumettreReponse.student_id f = Some student_id ->
     SoumettreReponse.exercice_id f = Some exercice_id ->
     strip (default [] (SoumettreReponse.reponse_eleve f)) = c :: q ->
     users db !! student_id = Some eleve ->
     exercices db !! exercice_id = Some exercice ->
     let g := gabarit_de (User.langue eleve) in
     let analyse :=
       analyse_de
         (complete env (PromptCorrection g (question_de g exercice) (c :: q)))
     in
     let n := etoiles_de analyse in
     nb_remediations (appels (soumettre_reponse env f db session))
     = (if (n <? 3)%Z then 1%nat else 0%nat)
     /\ (commit_leve env 0 = None ->
         exists r,
           resp (soumettre_reponse env f db session)
           = ExerciceDetail r (n <? 3)%Z
           /\ StudentResponse.analyse_ia r = analyse
           /\ StudentResponse.etoiles r = n))
  /\ (forall env f db session trouve lecon exercice_id exercice c q,
        (SoumettreSequentiel.username f ≫= fun u =>
           premier (fun x => Text.eqb (User.username x) u) (users db))
        = Some trouve ->
        SoumettreSequentiel.lecon_id f ≫= (lecons db !!.) = Some lecon ->
        SoumettreSequentiel.exercice_id f = Some exercice_id ->
        exercices db !! exercice_id = Some exercice ->
        default (lit "submit") (SoumettreSequentiel.action f) = lit "submit" ->
        strip (default [] (SoumettreSequentiel.reponse_eleve f)) = c :: q ->
        let g := gabarit_de (default (lit "fr") (SoumettreSequentiel.lang f)) in
        let analyse :=
          analyse_de
            (complete env
               (PromptCorrectionSequentiel g (question_de g exercice)
                  (c :: q))) in
        let n := etoiles_de analyse in
        (commit_leve env 0 = None ->
         nb_remediations (appels (soumettre_sequentiel env f db session))
         = (if (n <? 3)%Z then 1%nat else 0%nat)
         /\ ((3 <= n)%Z \/ commit_leve env 1 = None ->
             exists r has_next next_index,
               resp (soumettre_sequentiel env f db session)
               = ExerciceSequentiel (Some r) true has_next next_index
               /\ StudentResponse.analyse_ia r = analyse
               /\ StudentResponse.etoiles r = n))
        /\ (forall e,
              commit_leve env 0 = Some e ->
              resp (soumettre_sequentiel env f db session)
              = Body 500 (lit "Erreur base de données: " ++ e)
              /\ nb_remediations
                   (appels (soumettre_sequentiel env f db session)) = 0%nat
              /\ db_apres (soumettre_sequentiel env f db session) = db)).
Proof.
  split.
  - intros env f db session student_id exercice_id eleve exercice c q
      Hsid Heid Hrep Hu Hex. cbv zeta.
    unfold soumettre_reponse, analyse_de, question_de, etoiles_de.
    rewrite Hsid, Heid, Hrep, Hu, Hex.
    destruct (complete env (PromptCorrection _ _ _)) as [a|e];
      (match goal with |- context [extraire_note ?t] =>
         destruct (extraire_note t) as [n j_note] eqn:En
       end);
      cbn [fst]; destruct (n <? 3)%Z eqn:Hn;
      try (destruct (complete env (PromptRemediation _ _ _ _)) as [a'|e']);
      destruct (commit_leve env 0) as [e0|];
      cbn [appels resp nb_remediations List.filter est_remediation length];
      (split; [reflexivity|]); intros Hc; try discriminate Hc;
      eexists; conjonctions; reflexivity.
  - intros env f db session trouve lecon exercice_id exercice c q
      Hu Hl Heid Hex Haction Hrep. cbv zeta.
    unfold soumettre_sequentiel, analyse_de, question_de, etoiles_de.
    rewrite Hu, Hl, Heid, Hex, Hrep, Haction.
    destruct trouve as [eleve_id eleve].
    assert (Hs : Text.eqb (lit "submit") (lit "submit") = true)
      by now apply bool_decide_eq_true_2.
    rewrite Hs. cbn [andb].
    destruct (complete env (PromptCorrectionSequentiel _ _ _)) as [a|e];
      (match goal with |- context [extraire_note ?t] =>
         destruct (extraire_note t) as [n j_note] eqn:En
       end);
      cbn [fst]; destruct (Z.ltb_spec n 3) as [Hn|Hn];
      try (destruct (complete env (PromptRemediation _ _ _ _)) as [a'|e']);
      destruct (commit_leve env 0) as [e0|];
      try destruct (commit_leve env 1) as [e1|];
      cbn [appels resp db_apres nb_remediations List.filter est_remediation
             length reponses];
      rewrite ?ajouter_lookup;
      (split; [intros Hc; try discriminate Hc; (split; [reflexivity|]);
               intros [Hge|Hc1]; try lia; try discriminate Hc1;
               do 3 eexists; conjonctions; reflexivity
              |intros e2 He2; try discriminate He2; injection He2 as <-;
               conjonctions; reflexivity]).
Qed.

Lemma remediation_selon_note_witness :
  (nb_remediations
     (appels (soumettre_reponse
                (Exemple.env Exemple.note_2 Exemple.exercice_genere)
                Exemple.reponse_ana Exemple.db Exemple.session_ana)) = 1%nat
   /\ exists r,
        resp (soumettre_reponse
                (Exemple.env Exemple.note_2 Exemple.exercice_genere)
                Exemple.reponse_ana Exemple.db Exemple.session_ana)
        = ExerciceDetail r true
        /\ StudentResponse.etoiles r = 2%Z)
  /\ nb_remediations
       (appels (soumettre_sequentiel
                  (Exemple.env Exemple.note_2 Exemple.exercice_genere)
                  Exemple.reponse_bob Exemple.db Exemple.session_ana)) = 1%nat
  /\ exists r has_next next_index,
       resp (soumettre_sequentiel
               (Exemple.env Exemple.note_2 Exemple.exercice_genere)
               Exemple.reponse_bob Exemple.db Exemple.session_ana)
       = ExerciceSequentiel (Some r) true has_next next_index
       /\ StudentResponse.etoiles r = 2%Z.
Proof.
  split.
  - destruct (proj1 remediation_selon_note
                (Exemple.env Exemple.note_2 Exemple.exercice_genere)
                Exemple.reponse_ana Exemple.db Exemple.session_ana 1 7
                Exemple.ana Exemple.exercice7 50 (lit "/5")
                eq_refl eq_refl ltac:(vm_compute; reflexivity)
                ltac:(vm_compute; reflexivity) ltac:(vm_compute; reflexivity))
      as [Hn Hp].
    split.
    + rewrite Hn. vm_compute. reflexivity.
    + destruct (Hp eq_refl) as (r & Hr & _ & He). exists r. split.
      * rewrite Hr. f_equal.
      * rewrite He. vm_compute. reflexivity.
  - destruct (proj2 remediation_selon_note
                (Exemple.env Exemple.note_2 Exemple.exercice_genere)
                Exemple.reponse_bob Exemple.db Exemple.session_ana
                (2, Exemple.bob) Exemple.fractions 7 Exemple.exercice7 53
                (lit "/6")
                ltac:(vm_compute; reflexivity) ltac:(vm_compute; reflexivity)
                eq_refl ltac:(vm_compute; reflexivity) eq_refl
                ltac:(vm_compute; reflexivity))
      as [Hok _].
    destruct (Hok eq_refl) as [Hn Hp]. split.
    + rewrite Hn. vm_compute. reflexivity.
    + destruct (Hp (or_intror eq_refl)) as (r & has_next & next_index & Hr
                                            & _ & He).
      exists r, has_next, next_index. split; [exact Hr|].
      rewrite He. vm_compute. reflexivity.
Defined.

(** Equations between pairs and between outcomes of the same completion
    call, split without unfolding the literals inside them. *)
Ltac paires :=
  repeat match goal with
         | H : (_, _) = (_, _) |- _ =>
             apply pair_equal_spec in H; destruct H
         end;
  subst.

Ltac meme_appel :=
  repeat match goal with
         | H1 : complete ?env ?p = Leve ?a, H2 : complete ?env ?p = Leve ?b
           |- _ =>
             assert (a = b) by congruence; subst; clear H2
         end.

(** C2, as stated, fails: with the completion service down during grading,
    [soumettre_reponse] answers with the ordinary feedback page and a
    [StudentResponse] is stored whose analysis is the error text and whose
    score is the default 0. *)
Lemma echec_correction_enregistre :
  exists r,
    resp Panne.correction = ExerciceDetail r true
    /\ StudentResponse.analyse_ia r = lit "Erreur IA : Request timed out."
    /\ StudentResponse.etoiles r = 0%Z
    /\ reponses (db_apres Panne.correction)
         !! nouvelle_cle (reponses Exemple.db) = Some r.
Proof.
  eexists. conjonctions; vm_compute; reflexivity.
Qed.

(** C2, amended. When the grading call (the first completion call of the
    request) raises [e]: the two exercise submissions catch it, take
    [Erreur IA : e] as the analysis and the score extracted from that text,
    store the [StudentResponse] once the commit succeeds and answer with the
    feedback page; the two remediation attempts answer 500 with that text
    and leave the store as it was. *)
Theorem echec_correction :
  (forall env f db session p rest e,
     appels (soumettre_reponse env f db session) = p :: rest ->
     complete env p = Leve e ->
     commit_leve env 0 = None ->
     exists r b,
       resp (soumettre_reponse env f db session) = ExerciceDetail r b
       /\ StudentResponse.analyse_ia r = lit "Erreur IA : " ++ e
       /\ StudentResponse.etoiles r = etoiles_de (lit "Erreur IA : " ++ e)
       /\ reponses (db_apres (soumettre_reponse env f db session))
            !! nouvelle_cle (reponses db) = Some r)
  /\ (forall env f db session p rest e,
        appels (soumettre_sequentiel env f db session) = p :: rest ->
        complete env p = Leve e ->
        commit_leve env 0 = None ->
        exists r,
          StudentResponse.analyse_ia r = lit "Erreur IA : " ++ e
          /\ StudentResponse.etoiles r = etoiles_de (lit "Erreur IA : " ++ e)
          /\ reponses (db_apres (soumettre_sequentiel env f db session))
               !! nouvelle_cle (reponses db) = Some r
          /\ (commit_leve env 1 = None ->
              exists has_next next_index,
                resp (soumettre_sequentiel env f db session)
                = ExerciceSequentiel (Some r) true has_next next_index))
  /\ (forall env id m f db session p rest e,
        appels (faire_remediation env id m f db session) = p :: rest ->
        complete env p = Leve e ->
        resp (faire_remediation env id m f db session)
        = Body 500 (lit "Erreur IA : " ++ e)
        /\ db_apres (faire_remediation env id m f db session) = db)
  /\ (forall env id f db session p rest e,
        appels (soumettre_remediation env id f db session) = p :: rest ->
        complete env p = Leve e ->
        resp (soumettre_remediation env id f db session)
        = Body 500 (lit "Erreur IA : " ++ e)
        /\ db_apres (soumettre_remediation env id f db session) = db).
Proof.
  repeat split.
  - intros env f db session p rest e.
    unfold soumettre_reponse, etoiles_de.
    repeat case_match; cbn [appels]; try discriminate.
    all: intros [= <- <-] Hp Hc; try congruence; paires; meme_appel.
    all: do 2 eexists; cbn [resp db_apres reponses]; rewrite ajouter_lookup.
    all: split; [reflexivity|].
    all: cbn [StudentResponse.etoiles StudentResponse.analyse_ia].
    all: note_extraite; repeat split; reflexivity.
  - intros env f db session p rest e.
    unfold soumettre_sequentiel, etoiles_de.
    repeat case_match; cbn [appels]; try discriminate.
    all: intros [= <- <-] Hp Hc; try congruence; paires; meme_appel.
    all: eexists (StudentResponse.mk _ _ _ _ _ _).
    all: cbn [resp db_apres reponses]; rewrite ?ajouter_lookup.
    all: cbn [StudentResponse.etoiles StudentResponse.analyse_ia].
    all: split; [reflexivity|]; note_extraite.
    all: repeat split; try reflexivity.
    all: intros; try congruence; do 2 eexists; reflexivity.
  - unfold faire_remediation in *.
    repeat case_match; cbn [appels] in *; try discriminate; simplify_eq.
    all: cbn [resp]; congruence.
  - unfold faire_remediation in *.
    repeat case_match; cbn [appels] in *; try discriminate; simplify_eq.
    all: cbn [db_apres]; congruence.
  - unfold soumettre_remediation in *.
    repeat case_match; cbn [appels] in *; try discriminate; simplify_eq.
    all: cbn [resp]; congruence.
  - unfold soumettre_remediation in *.
    repeat case_match; cbn [appels] in *; try discriminate; simplify_eq.
    all: cbn [db_apres]; congruence.
Qed.

Lemma echec_correction_witness :
  exists r b,
    resp Panne.correction = ExerciceDetail r b
    /\ StudentResponse.analyse_ia r
       = lit "Erreur IA : " ++ lit "Request timed out."
    /\ StudentResponse.etoiles r
       = etoiles_de (lit "Erreur IA : " ++ lit "Request timed out.")
    /\ reponses (db_apres Panne.correction)
         !! nouvelle_cle (reponses Exemple.db) = Some r.
Proof.
  apply (proj1 echec_correction
           (Exemple.env Panne.timeout Exemple.exercice_genere)
           Exemple.reponse_ana Exemple.db Exemple.session_ana
           (PromptCorrection FR (lit "Calcule 1/2 + 1/3.") (lit "2/5"))
           [PromptRemediation FR (lit "Calcule 1/2 + 1/3.") (lit "2/5") 0]
           (lit "Request timed out.")).
  - vm_compute. reflexivity.
  - vm_compute. reflexivity.
  - reflexivity.
Defined.

(** C6, as stated, fails: in [soumettre_sequentiel] a failing remediation
    call still creates a [RemediationSuggestion], whose exercise text is the
    error message. *)
Lemma echec_remediation_sequentiel_enregistre :
  exists r has_next next_index s,
    resp Panne.remediation_sequentiel
    = ExerciceSequentiel (Some r) true has_next next_index
    /\ StudentResponse.etoiles r = 2%Z
    /\ suggestions Exemple.db !! nouvelle_cle (suggestions Exemple.db) = None
    /\ suggestions (db_apres Panne.remediation_sequentiel)
         !! nouvelle_cle (suggestions Exemple.db) = Some s
    /\ RemediationSuggestion.statut s = en_attente
    /\ RemediationSuggestion.exercice_suggere s
       = lit "Erreur IA lors de la génération de la remédiation : Request timed out.".
Proof.
  do 4 eexists. conjonctions; vm_compute; reflexivity.
Qed.

(** C6, amended. When the remediation call (the second completion call of
    the request) raises [e], the exception stops there and the grading page
    is returned once the store accepts the commits.  [soumettre_reponse]
    prints the failure and leaves the suggestions as they were;
    [soumettre_sequentiel] prints it and adds a suggestion [en_attente]
    whose exercise text is the error message. *)
Theorem echec_remediation :
  (forall env f db session p1 p2 rest e,
     appels (soumettre_reponse env f db session) = p1 :: p2 :: rest ->
     complete env p2 = Leve e ->
     suggestions (db_apres (soumettre_reponse env f db session))
     = suggestions db
     /\ In (ErreurGenerationRemediation e)
          (journal (soumettre_reponse env f db session))
     /\ (commit_leve env 0 = None ->
         exists r,
           resp (soumettre_reponse env f db session) = ExerciceDetail r true))
  /\ (forall env f db session p1 p2 rest e,
        appels (soumettre_sequentiel env f db session) = p1 :: p2 :: rest ->
        complete env p2 = Leve e ->
        In (ErreurGenerationRemediation e)
          (journal (soumettre_sequentiel env f db session))
        /\ (commit_leve env 1 = None ->
            exists r has_next next_index s,
              resp (soumettre_sequentiel env f db session)
              = ExerciceSequentiel (Some r) true has_next next_index
              /\ suggestions (db_apres (soumettre_sequentiel env f db session))
                 = ajouter s (suggestions db)
              /\ RemediationSuggestion.statut s = en_attente
              /\ RemediationSuggestion.exercice_suggere s
                 = lit "Erreur IA lors de la génération de la remédiation : "
                     ++ e)).
Proof.
  split.
  - intros env f db session p1 p2 rest e.
    unfold soumettre_reponse.
    repeat case_match; cbn [appels]; try discriminate.
    all: paires; try discriminate.
    all: intros [= <- <- <-] Hp; try congruence; meme_appel.
    all: cbn [db_apres suggestions journal resp].
    all: repeat split; try congruence.
    all: try (rewrite !in_app_iff; simpl; tauto).
    all: eexists; f_equal.
  - intros env f db session p1 p2 rest e.
    unfold soumettre_sequentiel.
    repeat case_match; cbn [appels]; try discriminate.
    all: paires.
    all: intros [= <- <- <-] Hp; try congruence; meme_appel.
    all: cbn [db_apres suggestions journal resp reponses].
    all: rewrite ?ajouter_lookup.
    all: split; [rewrite !in_app_iff; simpl; tauto|].
    all: intros; try congruence.
    all: do 3 eexists; eexists (nouvelle_suggestion _ _ _ _ _ _).
    all: repeat split; reflexivity.
Qed.

Lemma echec_remediation_witness :
  In (ErreurGenerationRemediation (lit "Request timed out."))
    (journal Panne.remediation_sequentiel)
  /\ (commit_leve Panne.env_remediation 1 = None ->
      exists r has_next next_index s,
        resp Panne.remediation_sequentiel
        = ExerciceSequentiel (Some r) true has_next next_index
        /\ suggestions (db_apres Panne.remediation_sequentiel)
           = ajouter s (suggestions Exemple.db)
        /\ RemediationSuggestion.statut s = en_attente
        /\ RemediationSuggestion.exercice_suggere s
           = lit "Erreur IA lors de la génération de la remédiation : "
               ++ lit "Request timed out.").
Proof.
  apply (proj2 echec_remediation Panne.env_remediation
           Exemple.reponse_bob Exemple.db Exemple.session_ana
           (PromptCorrectionSequentiel EN (lit "Compute 1/2 + 1/3.")
              (lit "5/6"))
           (PromptRemediation EN (lit "Compute 1/2 + 1/3.") (lit "5/6") 2)
           [] (lit "Request timed out.")).
  - vm_compute. reflexivity.
  - vm_compute. reflexivity.
Defined.

(** ** The life of a remediation *)


(** The route [/soumettre-remediation] has no guard on the status: a low
    score there sets a suggestion that was [reussie] back to [en_attente]. *)
Lemma tentative_sur_reussie :
  RemediationSuggestion.statut
    <$> suggestions (db_apres Approbation.nouvelle_tentative) !! 3
  = Some en_attente.
Proof. vm_compute. reflexivity. Qed.



(** ** The listing of a student's remediations *)

Lemma marquer_vue r :
  RemediationSuggestion.vue_par_eleve (marquer r) = Some true
  /\ memes_autres_champs r (marquer r).
Proof.
  unfold marquer, pas_vue, memes_autres_champs.
  destruct r as [? ? ? ? ? ? ? [[|]|] ? ? ? ?]; simpl; repeat split.
Qed.

Lemma marquer_idem r : marquer (marquer r) = marquer r.
Proof.
  unfold marquer, pas_vue.
  destruct r as [? ? ? ? ? ? ? [[|]|] ? ? ? ?]; reflexivity.
Qed.

Lemma marquer_vues_lookup cles (tbl : gmap N RemediationSuggestion.t) k :
  marquer_vues cles tbl !! k
  = (if bool_decide (k ∈ cles) then marquer else id) <$> tbl !! k.
Proof.
  revert tbl. induction cles as [|c cles IH]; intros tbl.
  - simpl. now destruct (tbl !! k).
  - unfold marquer_vues in *. cbn [foldl]. rewrite IH.
    fold marquer. rewrite lookup_alter.
    destruct (decide (c = k)) as [->|Hne].
    + rewrite (bool_decide_eq_true_2 (k ∈ k :: cles)) by apply list_elem_of_here.
      destruct (tbl !! k) as [r|]; [|reflexivity].
      cbn [fmap option_fmap option_map].
      case_bool_decide; cbn [id]; [now rewrite marquer_idem | reflexivity].
    + destruct (tbl !! k) as [r|]; [|reflexivity].
      cbn [fmap option_fmap option_map]. f_equal.
      repeat case_bool_decide; try reflexivity.
      * exfalso. apply H0. now apply list_elem_of_further.
      * exfalso. apply elem_of_cons in H0 as [?|?]; [congruence|contradiction].
Qed.

(** The keys the query of [eleve_remediations] selects. *)
Lemma cles_selectionnees eleve_id (tbl : gmap N RemediationSuggestion.t) k :
  k ∈ List.map fst
        (merge_sort plus_recent_dabord
           (List.filter (fun kr => validee_de eleve_id (snd kr))
              (map_to_list tbl)))
  <-> exists r, tbl !! k = Some r /\ validee_de eleve_id r = true.
Proof.
  rewrite list_elem_of_In, in_map_iff. split.
  - intros ([k' r] & <- & Hin).
    apply (Permutation_in _ (merge_sort_Permutation _ _)) in Hin.
    apply filter_In in Hin as [Hin Hp].
    apply list_elem_of_In, elem_of_map_to_list in Hin. eauto.
  - intros (r & Hk & Hp). exists (k, r). split; [reflexivity|].
    apply (Permutation_in _ (Permutation_sym (merge_sort_Permutation _ _))).
    apply filter_In. split; [|exact Hp].
    now apply list_elem_of_In, elem_of_map_to_list.
Qed.

(** C10. When the listing of a student's remediations is rendered, the
    student was found by the user name, and every suggestion of the store was
    either selected (it belongs to that student and is [valide]): its flag
    [vue_par_eleve] is now true and its other fields are as before; or not
    selected: it is as before.  No suggestion appears or disappears, and
    the other tables and the session are as before. *)
Theorem remediations_marquees_vues env username db session l :
  resp (eleve_remediations env username db session) = RemediationsEleve l ->
  exists eleve_id eleve,
    (username ≫= fun u =>
       premier (fun x => Text.eqb (User.username x) u) (users db))
    = Some (eleve_id, eleve)
    /\ (forall k r,
          suggestions db !! k = Some r ->
          exists r',
            suggestions (db_apres (eleve_remediations env username db session))
              !! k = Some r'
            /\ (validee_de eleve_id r = true ->
                RemediationSuggestion.vue_par_eleve r' = Some true
                /\ memes_autres_champs r r')
            /\ (validee_de eleve_id r = false -> r' = r))
    /\ (forall k,
          suggestions db !! k = None ->
          suggestions (db_apres (eleve_remediations env username db session))
            !! k = None)
    /\ users (db_apres (eleve_remediations env username db session)) = users db
    /\ lecons (db_apres (eleve_remediations env username db session))
       = lecons db
    /\ exercices (db_apres (eleve_remediations env username db session))
       = exercices db
    /\ reponses (db_apres (eleve_remediations env username db session))
       = reponses db
    /\ session_apres (eleve_remediations env username db session) = session.
Proof.
  unfold eleve_remediations.
  destruct (username ≫= _) as [[eleve_id eleve]|] eqn:Hu; [|discriminate].
  destruct (commit_leve env 0); [discriminate|].
  intros _. exists eleve_id, eleve. split; [reflexivity|].
  cbn [db_apres session_apres inchange avec_suggestions suggestions users
         lecons exercices reponses].
  repeat split.
  - intros k r Hk. rewrite marquer_vues_lookup, Hk.
    cbn [fmap option_fmap option_map]. eexists. split; [reflexivity|].
    fold (validee_de eleve_id r).
    pose proof (cles_selectionnees eleve_id (suggestions db) k) as Hsel.
    unfold validee_de in Hsel at 1.
    split; intros Hv; case_bool_decide as Hin.
    + apply marquer_vue.
    + exfalso. apply Hin, Hsel. eauto.
    + apply Hsel in Hin as (r0 & Hk0 & Hv0). congruence.
    + reflexivity.
  - intros k Hk. now rewrite marquer_vues_lookup, Hk.
Qed.

Lemma remediations_marquees_vues_witness :
  exists r',
    suggestions
      (db_apres (eleve_remediations
                   (Exemple.env Exemple.note_2 Exemple.exercice_genere)
                   (Some (lit "ana")) Exemple.db Exemple.session_ana))
      !! 4 = Some r'
    /\ RemediationSuggestion.vue_par_eleve r' = Some true.
Proof.
  destruct (remediations_marquees_vues
              (Exemple.env Exemple.note_2 Exemple.exercice_genere)
              (Some (lit "ana")) Exemple.db Exemple.session_ana
              [RemediationSuggestion.set_vue_par_eleve (Some true)
                 (Exemple.suggestion 1 valide None)])
    as (eleve_id & eleve & Hu & Hs & _).
  - vm_compute. reflexivity.
  - vm_compute in Hu. injection Hu as <- _.
    destruct (Hs 4 (Exemple.suggestion 1 valide None))
      as (r' & Hr' & Hv & _).
    + vm_compute. reflexivity.
    + exists r'. split; [exact Hr'|]. apply Hv. reflexivity.
Defined.

(** ** The guided dialogue *)

Lemma limiter_length c : (length (limiter c) <= 15)%nat.
Proof.
  unfold limiter. destruct (15 <? length c)%nat eqn:E.
  - apply Nat.ltb_lt in E. rewrite length_drop. lia.
  - apply Nat.ltb_ge in E. exact E.
Qed.

(** On the path where the generator returns, the transcript a turn stores
    holds at most 15 entries. *)
Lemma tour_borne env eleve lang question matiere session0 :
  client_leve env = None ->
  (length (transcript (tour env eleve lang question matiere session0).1.1)
   <= 15)%nat.
Proof.
  intros Hc. unfold tour, generer_suite_conversation,
    generer_debut_conversation. rewrite Hc.
  destruct (Session.derniere_q_ia session0) as [[|c q]|];
    cbn [fst snd]; destruct (extraire_question _ lang) as [[|c' q']|];
    cbn [transcript Session.conversation Session.flash
           Session.set_conversation Session.set_derniere_q_ia default];
    apply limiter_length.
Qed.

(** On the path where the generator raises, the turn stores two entries
    more than the transcript held, three when it was empty, without any
    cap. *)
Lemma tour_erreur env eleve lang question matiere session0 e :
  client_leve env = Some e ->
  length (transcript (tour env eleve lang question matiere session0).1.1)
  = match transcript session0 with
    | [] => 3%nat
    | c => (length c + 2)%nat
    end.
Proof.
  intros Hc. unfold transcript, tour, generer_suite_conversation,
    generer_debut_conversation. rewrite Hc.
  destruct (Session.derniere_q_ia session0) as [[|c q]|];
    cbn [fst snd Session.conversation Session.flash
           Session.set_conversation Session.set_derniere_q_ia];
    destruct (default [] (Session.conversation session0));
    cbn [default]; unfold id; rewrite !length_app; cbn [length];
    try reflexivity; rewrite <- Nat.add_assoc; reflexivity.
Qed.

(** C8. The turn taken when the generator raises appends the student's
    message and the apology and stores the transcript as it is: from 15
    entries it goes to 17.  The cap is applied on the other path alone, where
    the same turn leaves 15 entries, the two oldest dropped. *)
Theorem transcript_non_borne_en_cas_d_erreur :
  length Tour.quinze = 15%nat
  /\ resp Tour.en_panne
     = EnseignantVirtuel
         (Tour.quinze
          ++ [lit "👤 Student: It is 6, I think.";
              lit "🤖 Teacher: I'm sorry, I encountered an error. Could you rephrase your question?"])
  /\ length (transcript (session_apres Tour.en_panne)) = 17%nat
  /\ transcript (session_apres Tour.reussi)
     = drop 2 Tour.quinze
       ++ [lit "👤 Student: It is 6, I think.";
           lit "🤖 Teacher: Yes! Can you add the fractions now?"]
  /\ length (transcript (session_apres Tour.reussi)) = 15%nat.
Proof. conjonctions; vm_compute; reflexivity. Qed.

(** C5, as stated, fails.  Ana's answer is graded 2/5 (the hook lets the
    submission through): a suggestion [en_attente] is created for her and
    the request writes [remediation_access] in her session.  Her trial has
    expired and she has not paid: the dialogue still answers with the
    redirection to the login page, from the hook and from the view alike,
    and her session is cleared, the grant with it. *)
Lemma acces_remediation_sans_effet :
  acces_refuse Exemple.ana = true
  /\ before_request (Some (lit "soumettre_reponse")) Exemple.db
       Exemple.session_ana = None
  /\ (exists s,
        suggestions (db_apres Acces.soumission)
          !! nouvelle_cle (suggestions Exemple.db) = Some s
        /\ suggestions Exemple.db !! nouvelle_cle (suggestions Exemple.db)
           = None
        /\ RemediationSuggestion.user_id s = 1
        /\ RemediationSuggestion.statut s = en_attente)
  /\ Session.remediation_access (session_apres Acces.soumission)
     = Some (RemediationAccess.mk 7 2 0 1000)
  /\ In (AccesEnseignantAutorise 2) (journal Acces.soumission)
  /\ resp Acces.dialogue = RedirectTo (lit "login_eleve")
  /\ resp Acces.vue = RedirectTo (lit "login_eleve")
  /\ Session.remediation_access (session_apres Acces.dialogue) = None
  /\ Session.eleve_id (session_apres Acces.dialogue) = None.
Proof.
  conjonctions; try (vm_compute; reflexivity).
  - eexists. conjonctions; vm_compute; reflexivity.
  - vm_compute. tauto.
Qed.

(** Whatever [remediation_access] holds in the session, a student whose
    trial has expired and who has not paid is sent to the login page. *)
Lemma porte_fermee env m f db session eleve_id eleve :
  Session.eleve_id session = Some eleve_id ->
  users db !! eleve_id = Some eleve ->
  acces_refuse eleve = true ->
  resp (enseignant_virtuel env m f db session) = RedirectTo (lit "login_eleve").
Proof.
  intros H1 H2 H3. unfold enseignant_virtuel. rewrite H1, H2, H3.
  destruct (negb _); reflexivity.
Qed.

(** When the hook answers, it answers with the redirection to the login
    page. *)
Lemma before_request_redirige endpoint db session r :
  before_request endpoint db session = Some r ->
  resp r = RedirectTo (lit "login_eleve").
Proof.
  unfold before_request. repeat case_match; try discriminate.
  intros [= <-]. reflexivity.
Qed.

(** C5, amended. A submission to [soumettre_reponse] that scores below 3
    and whose remediation prompt is answered creates a suggestion
    [en_attente] for the student and writes [remediation_access], with the
    score, in the session.  The access to the dialogue does not read it: a
    student whose trial has expired and who has not paid is redirected to the
    login page, by the request as a whole and by the view alone. *)
Theorem remediation_sans_acces :
  (forall env f db session r b,
     resp (soumettre_reponse env f db session) = ExerciceDetail r b ->
     (StudentResponse.etoiles r < 3)%Z ->
     (forall p, est_remediation p = true ->
                exists c, complete env p = Contenu c) ->
     exists s a,
       suggestions (db_apres (soumettre_reponse env f db session))
       = ajouter s (suggestions db)
       /\ RemediationSuggestion.statut s = en_attente
       /\ RemediationSuggestion.user_id s = StudentResponse.user_id r
       /\ Session.remediation_access
            (session_apres (soumettre_reponse env f db session)) = Some a
       /\ RemediationAccess.note a = StudentResponse.etoiles r)
  /\ (forall env m f db session eleve_id eleve,
        Session.eleve_id session = Some eleve_id ->
        users db !! eleve_id = Some eleve ->
        acces_refuse eleve = true ->
        resp (requete_enseignant_virtuel env m f db session)
        = RedirectTo (lit "login_eleve")
        /\ resp (enseignant_virtuel env m f db session)
           = RedirectTo (lit "login_eleve")).
Proof.
  split.
  - intros env f db session r b.
    unfold soumettre_reponse.
    repeat case_match; try discriminate.
    all: cbn [resp db_apres session_apres suggestions]; intros [= <- <-].
    all: cbn [StudentResponse.etoiles StudentResponse.user_id]; intros Hn Hp.
    all: paires.
    all: repeat match goal with
           | H : Some _ = Some _ |- _ => apply (inj Some) in H
           end; subst.
    all: try (match goal with H : (_ <? 3)%Z = false |- _ =>
                apply Z.ltb_ge in H end; lia).
    all: try (match goal with H : complete _ ?p = Leve _ |- _ =>
                destruct (Hp p eq_refl); congruence end).
    all: do 2 eexists; conjonctions; reflexivity.
  - intros env m f db session eleve_id eleve H1 H2 H3.
    split; [|now apply (porte_fermee _ _ _ _ _ eleve_id eleve)].
    unfold requete_enseignant_virtuel.
    destruct (before_request _ db session) eqn:E.
    + now apply before_request_redirige in E.
    + now apply (porte_fermee _ _ _ _ _ eleve_id eleve).
Qed.

Lemma remediation_sans_acces_witness :
  resp Acces.dialogue = RedirectTo (lit "login_eleve")
  /\ resp Acces.vue = RedirectTo (lit "login_eleve").
Proof.
  apply (proj2 remediation_sans_acces
           (Exemple.env Exemple.note_2 Exemple.exercice_genere) GET
           (Dialogue.mkForm None None) (db_apres Acces.soumission)
           (session_apres Acces.soumission) 1 Exemple.ana).
  - vm_compute. reflexivity.
  - vm_compute. reflexivity.
  - vm_compute. reflexivity.
Defined.

(** * Further properties *)

(** ** Score extraction, continued *)

(** X1. The score the extraction block leaves lies between 0 and 9, and
    between 0 and 5 whenever the pattern with [/5] matches nowhere. *)
Theorem note_bornee t :
  (0 <= etoiles_de t <= 9)%Z
  /\ (Re.search Re.score_sur_5 t = None -> (etoiles_de t <= 5)%Z).
Proof.
  split; [apply etoiles_de_range|].
  intros H. unfold etoiles_de, extraire_note. rewrite H.
  destruct (Re.search Re.score_sans_5 t); cbn [fst]; lia.
Qed.

Lemma note_bornee_witness : (etoiles_de (lit "note : 9") <= 5)%Z.
Proof. apply (proj2 (note_bornee (lit "note : 9"))). vm_compute. reflexivity. Defined.

Lemma note_sur_5_telle_quelle_witness :
  extraire_note (lit "Analyse : juste. Note : 4/5 Correction : ...")
  = (4%Z, NoteExtraite 4).
Proof.
  apply (note_sur_5_telle_quelle (lit "Analyse : juste. ") (lit "Note") [32]
           [32] 52 (lit " Correction : ...")).
  - left. vm_compute. repeat constructor.
  - repeat constructor.
  - repeat constructor.
  - reflexivity.
  - intros i Hi. vm_compute in Hi.
    do 17 (destruct i as [|i]; [vm_compute; reflexivity|]). lia.
Defined.

(** ** [/soumettre-reponse], continued *)

(** X3. A request [soumettre_reponse] refuses: with a field missing (or an
    answer empty once stripped) it answers 400; whenever it answers with a
    body and a status other than 500 (400 or 404) it has called no
    completion and left store and session as they were. *)
Theorem soumettre_reponse_refus env f db session :
  (SoumettreReponse.student_id f = None
   \/ SoumettreReponse.exercice_id f = None
   \/ strip (default [] (SoumettreReponse.reponse_eleve f)) = [] ->
   exists body, resp (soumettre_reponse env f db session) = Body 400 body)
  /\ (forall status body,
        resp (soumettre_reponse env f db session) = Body status body ->
        status <> 500%nat ->
        appels (soumettre_reponse env f db session) = []
        /\ db_apres (soumettre_reponse env f db session) = db
        /\ session_apres (soumettre_reponse env f db session) = session).
Proof.
  split.
  - unfold soumettre_reponse.
    destruct (SoumettreReponse.student_id f) as [sid|],
             (SoumettreReponse.exercice_id f) as [eid|],
             (strip (default [] (SoumettreReponse.reponse_eleve f)))
               as [|c r];
      intros [H|[H|H]]; try discriminate; eexists; reflexivity.
  - intros status body. unfold soumettre_reponse.
    repeat case_match; cbn [resp]; intros E Hs; try discriminate E;
      try (injection E as <- _; congruence); repeat split.
Qed.

Lemma soumettre_reponse_refus_witness :
  exists body,
    resp (soumettre_reponse (Exemple.env Exemple.note_2 Exemple.exercice_genere)
            (SoumettreReponse.mkForm (Some 1) (Some 7) (Some (lit "  ")))
            Exemple.db Exemple.session_ana) = Body 400 body.
Proof.
  apply (proj1 (soumettre_reponse_refus
                  (Exemple.env Exemple.note_2 Exemple.exercice_genere)
                  (SoumettreReponse.mkForm (Some 1) (Some 7) (Some (lit "  ")))
                  Exemple.db Exemple.session_ana)).
  right. right. vm_compute. reflexivity.
Defined.

(** X4. When the commit of [soumettre_reponse] raises, nothing reaches the
    store, neither the answer nor the suggestion, and no feedback page is
    returned, although the completion calls were made. *)
Theorem soumettre_reponse_commit_echoue env f db session e :
  commit_leve env 0 = Some e ->
  db_apres (soumettre_reponse env f db session) = db
  /\ forall r b, resp (soumettre_reponse env f db session) <> ExerciceDetail r b.
Proof.
  intros Hc. unfold soumettre_reponse. rewrite Hc.
  repeat case_match; cbn [resp db_apres inchange]; split;
    try reflexivity; intros; discriminate.
Qed.

Lemma soumettre_reponse_commit_echoue_witness :
  db_apres (soumettre_reponse
              (mkEnv (fun _ => Exemple.note_2)
                 (fun _ => Some (lit "database is locked")) 1000 None)
              Exemple.reponse_ana Exemple.db Exemple.session_ana)
  = Exemple.db.
Proof.
  apply (soumettre_reponse_commit_echoue
           (mkEnv (fun _ => Exemple.note_2)
              (fun _ => Some (lit "database is locked")) 1000 None)
           Exemple.reponse_ana Exemple.db Exemple.session_ana
           (lit "database is locked")).
  reflexivity.
Defined.

(** X5. When [soumettre_reponse] returns the feedback page, the record
    shown is the record stored, under a key the table did not use: it holds
    the student and exercise of the form and the stripped answer, and the
    button to the virtual teacher is shown exactly when the score is below
    3.  In every case the users, lessons and exercises are as before and no
    stored answer or suggestion is changed or removed. *)
Theorem soumettre_reponse_enregistre env f db session :
  (forall r b,
     resp (soumettre_reponse env f db session) = ExerciceDetail r b ->
     reponses (db_apres (soumettre_reponse env f db session))
     = ajouter r (reponses db)
     /\ Some (StudentResponse.user_id r) = SoumettreReponse.student_id f
     /\ StudentResponse.exercice_id r = SoumettreReponse.exercice_id f
     /\ StudentResponse.reponse_eleve r
        = strip (default [] (SoumettreReponse.reponse_eleve f))
     /\ StudentResponse.timestamp r = utcnow env
     /\ b = (StudentResponse.etoiles r <? 3)%Z)
  /\ users (db_apres (soumettre_reponse env f db session)) = users db
  /\ lecons (db_apres (soumettre_reponse env f db session)) = lecons db
  /\ exercices (db_apres (soumettre_reponse env f db session)) = exercices db
  /\ (forall k x,
        reponses db !! k = Some x ->
        reponses (db_apres (soumettre_reponse env f db session)) !! k = Some x)
  /\ (forall k x,
        suggestions db !! k = Some x ->
        suggestions (db_apres (soumettre_reponse env f db session)) !! k
        = Some x).
Proof.
  conjonctions.
  - intros r b. unfold soumettre_reponse.
    repeat case_match; cbn [resp db_apres reponses]; try discriminate.
    all: intros [= <- <-]; paires.
    all: cbn [StudentResponse.user_id StudentResponse.exercice_id
                StudentResponse.reponse_eleve StudentResponse.timestamp
                StudentResponse.etoiles].
    all: conjonctions; congruence.
  - unfold soumettre_reponse. repeat case_match; reflexivity.
  - unfold soumettre_reponse. repeat case_match; reflexivity.
  - unfold soumettre_reponse. repeat case_match; reflexivity.
  - intros k x Hk. unfold soumettre_reponse.
    repeat case_match; cbn [db_apres reponses inchange]; try assumption.
    all: now apply ajouter_lookup_ancien.
  - intros k x Hk. unfold soumettre_reponse.
    repeat case_match; cbn [db_apres suggestions inchange]; try assumption.
    all: now apply ajouter_lookup_ancien.
Qed.

Lemma soumettre_reponse_enregistre_witness :
  reponses (db_apres Acces.soumission)
  = ajouter (StudentResponse.mk 1 (Some 7) (lit "2/5")
               (lit "Analyse : incomplet. Note : 2/5") 2 1000)
      (reponses Exemple.db).
Proof.
  apply (proj1 (soumettre_reponse_enregistre
                  (Exemple.env Exemple.note_2 Exemple.exercice_genere)
                  Exemple.reponse_ana Exemple.db Exemple.session_ana)
           (StudentResponse.mk 1 (Some 7) (lit "2/5")
              (lit "Analyse : incomplet. Note : 2/5") 2 1000) true).
  vm_compute. reflexivity.
Defined.

(** ** [/soumettre-sequentiel], continued *)

Lemma plus_recente_spec l :
  match plus_recente l with
  | None => l = []
  | Some r =>
      (exists k, In (k, r) l)
      /\ forall k x, In (k, x) l ->
                     StudentResponse.timestamp x <= StudentResponse.timestamp r
  end.
Proof.
  induction l as [|[k0 x0] l IH]; [reflexivity|].
  cbn [plus_recente foldr] in *. fold (plus_recente l).
  destruct (plus_recente l) as [r|].
  - destruct IH as [[k Hk] Hmax]. cbn [snd].
    destruct (N.ltb_spec (StudentResponse.timestamp r)
                (StudentResponse.timestamp x0)) as [Hlt|Hge].
    + split; [exists k0; now left|].
      intros k' x [[= <- <-]|Hin]; [lia|].
      specialize (Hmax _ _ Hin). lia.
    + split; [exists k; now right|].
      intros k' x [[= <- <-]|Hin]; [lia|]. now apply (Hmax k').
  - subst l. cbn [snd]. split; [exists k0; now left|].
    intros k' x [[= <- <-]|[]]. lia.
Qed.

(** X6. A request to [soumettre_sequentiel] that submits nothing (another
    action than [submit], or an answer empty once stripped) calls no
    completion and changes nothing.  The page it renders shows no new
    feedback but the most recent stored answer of that student to that
    exercise: a stored record, of that exercise, which no stored answer of
    the same student to the same exercise is later than; it shows none only
    when the student has no stored answer to the exercise. *)
Theorem sequentiel_sans_soumission env f db session :
  default (lit "submit") (SoumettreSequentiel.action f) <> lit "submit"
  \/ strip (default [] (SoumettreSequentiel.reponse_eleve f)) = [] ->
  appels (soumettre_sequentiel env f db session) = []
  /\ db_apres (soumettre_sequentiel env f db session) = db
  /\ session_apres (soumettre_sequentiel env f db session) = session
  /\ forall o show_feedback has_next next_index,
       resp (soumettre_sequentiel env f db session)
       = ExerciceSequentiel o show_feedback has_next next_index ->
       show_feedback = false
       /\ exists eleve_id eleve,
            (SoumettreSequentiel.username f ≫= fun u =>
               premier (fun x => Text.eqb (User.username x) u) (users db))
            = Some (eleve_id, eleve)
            /\ match o with
               | Some r =>
                   (exists k, reponses db !! k = Some r)
                   /\ StudentResponse.user_id r = eleve_id
                   /\ StudentResponse.exercice_id r
                      = SoumettreSequentiel.exercice_id f
                   /\ forall k x,
                        reponses db !! k = Some x ->
                        StudentResponse.user_id x = eleve_id ->
                        StudentResponse.exercice_id x
                        = SoumettreSequentiel.exercice_id f ->
                        StudentResponse.timestamp x
                        <= StudentResponse.timestamp r
               | None =>
                   forall k x,
                     reponses db !! k = Some x ->
                     StudentResponse.user_id x = eleve_id ->
                     StudentResponse.exercice_id x
                     <> SoumettreSequentiel.exercice_id f
               end.
Proof.
  intros H.
  assert (Hif :
    Text.eqb (default (lit "submit") (SoumettreSequentiel.action f))
      (lit "submit")
    && match strip (default [] (SoumettreSequentiel.reponse_eleve f)) with
       | [] => false
       | _ => true
       end = false).
  { destruct H as [H|H].
    - unfold Text.eqb. now rewrite bool_decide_eq_false_2.
    - rewrite H. apply andb_false_r. }
  unfold soumettre_sequentiel. rewrite Hif.
  destruct (SoumettreSequentiel.username f ≫= _) as [[eleve_id eleve]|] eqn:Hu;
    [|conjonctions; try reflexivity; intros; discriminate].
  destruct (SoumettreSequentiel.lecon_id f ≫= _) as [lecon|];
    [|conjonctions; try reflexivity; intros; discriminate].
  destruct (SoumettreSequentiel.exercice_id f) as [exercice_id|];
    [|conjonctions; try reflexivity; intros; discriminate].
  destruct (exercices db !! exercice_id) as [exercice|];
    [|conjonctions; try reflexivity; intros; discriminate].
  cbn [appels db_apres session_apres resp]. conjonctions; try reflexivity.
  intros o sf hn ni [= <- <- _ _]. split; [reflexivity|].
  exists eleve_id, eleve. split; [reflexivity|].
  match goal with |- context [plus_recente ?l] =>
    pose proof (plus_recente_spec l) as Hp; destruct (plus_recente l) as [r|]
  end.
  - destruct Hp as [[k Hk] Hmax].
    apply filter_In in Hk as [Hk Hf]. cbn [snd] in Hf.
    apply andb_true_iff in Hf as [Hf1 Hf2].
    apply N.eqb_eq in Hf1. apply bool_decide_eq_true in Hf2.
    apply list_elem_of_In, elem_of_map_to_list in Hk.
    conjonctions; eauto.
    intros k' x Hx Hxu Hxe. apply (Hmax k').
    apply filter_In. split.
    + now apply list_elem_of_In, elem_of_map_to_list.
    + cbn [snd]. apply andb_true_iff. split.
      * now apply N.eqb_eq.
      * now apply bool_decide_eq_true.
  - intros k x Hx Hxu Hxe.
    assert (Hin : In (k, x)
              (List.filter
                 (fun kr =>
                    (StudentResponse.user_id (snd kr) =? eleve_id)
                    && bool_decide (StudentResponse.exercice_id (snd kr)
                                    = Some exercice_id))
                 (map_to_list (reponses db)))).
    { apply filter_In. split.
      - now apply list_elem_of_In, elem_of_map_to_list.
      - cbn [snd]. apply andb_true_iff. split.
        + now apply N.eqb_eq.
        + now apply bool_decide_eq_true. }
    rewrite Hp in Hin. destruct Hin.
Qed.

Lemma sequentiel_sans_soumission_witness :
  appels (soumettre_sequentiel
            (Exemple.env Exemple.note_2 Exemple.exercice_genere)
            (SoumettreSequentiel.mkForm (Some (lit "bob")) (Some (lit "en"))
               (Some 1) (Some 7) (Some (lit "5/6")) 0 (Some (lit "next")))
            Exemple.db Exemple.session_ana) = [].
Proof.
  apply (sequentiel_sans_soumission
           (Exemple.env Exemple.note_2 Exemple.exercice_genere)
           (SoumettreSequentiel.mkForm (Some (lit "bob")) (Some (lit "en"))
              (Some 1) (Some 7) (Some (lit "5/6")) 0 (Some (lit "next")))
           Exemple.db Exemple.session_ana).
  left. vm_compute. discriminate.
Defined.

(** ** The remediation routes, continued *)

(** X7. [faire_remediation] grades only a posted answer to a suggestion
    that belongs to the student of the session and is [valide]: whenever it
    calls the completion service these hold, and whenever it calls none the
    store and the session are as before. *)
Theorem faire_remediation_garde env id m f db session :
  (appels (faire_remediation env id m f db session) <> [] ->
   m = POST
   /\ exists remediation,
        suggestions db !! id = Some remediation
        /\ Session.eleve_id session
           = Some (RemediationSuggestion.user_id remediation)
        /\ RemediationSuggestion.statut remediation = valide)
  /\ (appels (faire_remediation env id m f db session) = [] ->
      db_apres (faire_remediation env id m f db session) = db
      /\ session_apres (faire_remediation env id m f db session) = session).
Proof.
  unfold faire_remediation. split.
  - repeat case_match; cbn [appels inchange]; intros Happels; try congruence.
    all: split; [reflexivity|]; eexists; split; [reflexivity|].
    all: repeat match goal with
           | H : negb _ = false |- _ => apply negb_false_iff in H
           | H : (_ =? _) = true |- _ => apply N.eqb_eq in H
           | H : bool_decide _ = true |- _ => apply bool_decide_eq_true in H
           end.
    all: split; congruence.
  - repeat case_match; cbn [appels inchange db_apres session_apres];
      intros Happels; try discriminate; split; reflexivity.
Qed.

Lemma faire_remediation_garde_witness :
  db_apres (faire_remediation
              (Exemple.env Exemple.note_4 Exemple.exercice_genere) 5 POST
              Approbation.tentative Exemple.db Exemple.session_ana)
  = Exemple.db.
Proof.
  apply (proj2 (faire_remediation_garde
                  (Exemple.env Exemple.note_4 Exemple.exercice_genere) 5 POST
                  Approbation.tentative Exemple.db Exemple.session_ana)).
  vm_compute. reflexivity.
Defined.

(** X8. When [faire_remediation] returns the feedback of a graded attempt,
    the score is the one extracted from the analysis; the suggestion now
    holds the answer, the analysis and the score of the attempt and is
    [reussie] when the score is at least 3, [en_attente] otherwise, its
    other fields being as before; the other suggestions are untouched, and
    one answer without exercise is added to the stored answers. *)
Theorem faire_remediation_tentative env id m f db session rep ana n :
  resp (faire_remediation env id m f db session) = FeedbackExercice rep ana n ->
  n = etoiles_de ana
  /\ (exists remediation remediation',
        suggestions db !! id = Some remediation
        /\ suggestions (db_apres (faire_remediation env id m f db session))
             !! id = Some remediation'
        /\ RemediationSuggestion.statut remediation'
           = (if (3 <=? n)%Z then reussie else en_attente)
        /\ RemediationSuggestion.reponse_eleve remediation' = Some rep
        /\ RemediationSuggestion.analyse_ia remediation' = Some ana
        /\ RemediationSuggestion.etoiles remediation' = Some n
        /\ RemediationSuggestion.user_id remediation'
           = RemediationSuggestion.user_id remediation
        /\ RemediationSuggestion.exercice_suggere remediation'
           = RemediationSuggestion.exercice_suggere remediation
        /\ RemediationSuggestion.message remediation'
           = RemediationSuggestion.message remediation
        /\ RemediationSuggestion.vue_par_eleve remediation'
           = RemediationSuggestion.vue_par_eleve remediation)
  /\ (forall k, k <> id ->
        suggestions (db_apres (faire_remediation env id m f db session)) !! k
        = suggestions db !! k)
  /\ exists r,
       reponses (db_apres (faire_remediation env id m f db session))
       = ajouter r (reponses db)
       /\ StudentResponse.exercice_id r = None
       /\ Some (StudentResponse.user_id r) = Session.eleve_id session
       /\ StudentResponse.reponse_eleve r = rep
       /\ StudentResponse.analyse_ia r = ana
       /\ StudentResponse.etoiles r = n.
Proof.
  unfold faire_remediation, etoiles_de, statut_apres_tentative.
  repeat case_match; cbn [resp inchange]; try discriminate.
  all: intros [= <- <- <-]; paires; try congruence.
  all: cbn [db_apres suggestions reponses].
  all: note_extraite.
  all: conjonctions; try reflexivity.
  all: lazymatch goal with
       | |- exists remediation remediation', _ =>
           do 2 eexists; rewrite lookup_insert_eq; conjonctions; reflexivity
       | |- forall k, _ => intros k Hk; now apply lookup_insert_ne
       | |- exists r, _ =>
           eexists (StudentResponse.mk _ _ _ _ _ _);
           cbn [StudentResponse.user_id StudentResponse.exercice_id
                  StudentResponse.reponse_eleve StudentResponse.analyse_ia
                  StudentResponse.etoiles];
           conjonctions; try reflexivity; congruence
       end.
Qed.

Lemma faire_remediation_tentative_witness :
  4%Z = etoiles_de (lit "Analysis: fine. Score: 4/5").
Proof.
  apply (faire_remediation_tentative
           (Exemple.env Exemple.note_4 Exemple.exercice_genere) 4 POST
           Approbation.tentative Exemple.db Exemple.session_ana
           (lit "1/6") (lit "Analysis: fine. Score: 4/5") 4).
  vm_compute. reflexivity.
Defined.

(** X9. [soumettre_remediation] asks for no login, no owner and no status:
    for any session and any suggestion whose student exists, a non-empty
    answer that the completion service grades and the store commits is
    answered with the feedback, and the suggestion keeps all its fields but
    the status, set to [reussie] when the score is at least 3 and to
    [en_attente] otherwise. *)
Theorem soumettre_remediation_sans_garde
    env id f db session remediation user c :
  suggestions db !! id = Some remediation ->
  users db !! RemediationSuggestion.user_id remediation = Some user ->
  let reponse_eleve :=
    ou (Tentative.reponse_eleve f) (strip (default [] (Tentative.reponse f))) in
  reponse_eleve <> [] ->
  complete env
    (PromptCorrectionRemediation (gabarit_de (User.langue user))
       (RemediationSuggestion.exercice_suggere remediation) reponse_eleve)
  = Contenu c ->
  commit_leve env 0 = None ->
  resp (soumettre_remediation env id f db session)
  = FeedbackExercice reponse_eleve (strip c) (etoiles_de (strip c))
  /\ suggestions (db_apres (soumettre_remediation env id f db session))
     = <[id := RemediationSuggestion.set_statut
                 (if (3 <=? etoiles_de (strip c))%Z then reussie
                  else en_attente) remediation]> (suggestions db)
  /\ session_apres (soumettre_remediation env id f db session) = session.
Proof.
  intros Hs Hu reponse_eleve Hr Hc Hcommit.
  unfold soumettre_remediation, etoiles_de, statut_apres_tentative.
  fold reponse_eleve. rewrite Hs, Hu.
  destruct reponse_eleve as [|c0 r0] eqn:E; [congruence|].
  rewrite Hc. destruct (extraire_note (strip c)) as [n j] eqn:En.
  rewrite Hcommit. cbn [resp db_apres session_apres suggestions fst].
  conjonctions; reflexivity.
Qed.

Lemma soumettre_remediation_sans_garde_witness :
  resp Approbation.nouvelle_tentative
  = FeedbackExercice (lit "1/6") (lit "Analyse : incomplet. Note : 2/5") 2.
Proof.
  apply (soumettre_remediation_sans_garde
           (Exemple.env Exemple.note_2 Exemple.exercice_genere) 3
           Approbation.tentative Exemple.db Exemple.session_ana
           (Exemple.suggestion 1 reussie (Some true)) Exemple.ana
           (lit "Analyse : incomplet. Note : 2/5")).
  - vm_compute. reflexivity.
  - vm_compute. reflexivity.
  - vm_compute. discriminate.
  - vm_compute. reflexivity.
  - reflexivity.
Defined.

(** ** Teacher validation, continued *)

Lemma lstrip_length s : (length (lstrip s) <= length s)%nat.
Proof.
  induction s as [|c s IH]; simpl; [lia|].
  destruct (isspace c); simpl; lia.
Qed.

Lemma strip_length s : (length (strip s) <= length (lstrip s))%nat.
Proof.
  unfold strip. rewrite length_rev.
  etransitivity; [apply lstrip_length|]. now rewrite length_rev.
Qed.

(** A stripped, non-empty string starts with a character that is not white
    space. *)
Lemma strip_fixe_tete c s : strip (c :: s) = c :: s -> isspace c = false.
Proof.
  intros H. destruct (isspace c) eqn:E; [|reflexivity].
  pose proof (strip_length (c :: s)) as H1.
  rewrite H in H1. simpl in H1. rewrite E in H1.
  pose proof (lstrip_length s). lia.
Qed.

Lemma lstrip_tete c s : isspace c = false -> lstrip (c :: s) = c :: s.
Proof. intros H. simpl. now rewrite H. Qed.

(** A greedy [\s*] in front of something that accepts every input takes all
    the white space there is. *)
Lemma many_isspace_total {A} (k : text -> option A) s :
  (forall r, k r <> None) -> Re.many isspace k s = k (lstrip s).
Proof.
  intros Hk. induction s as [|c s IH]; simpl; [reflexivity|].
  destruct (isspace c); [|reflexivity].
  rewrite IH. destruct (k (lstrip s)) eqn:E; [reflexivity|].
  now apply Hk in E.
Qed.

Lemma ligne_app q r :
  Forall (fun c => c <> 10) q -> ligne (q ++ 10 :: r) = q.
Proof.
  induction 1 as [|c q Hc _ IH]; simpl; [reflexivity|].
  destruct (N.eqb_spec c 10); [contradiction|]. now rewrite IH.
Qed.

(** The pattern of a pre-filled field, at the place where its label
    stands, followed by optional white space, a colon, a space and a
    stripped one-line value. *)
Lemma champ_ici label ws c q r :
  Forall (fun c => isspace c = true) ws ->
  strip (c :: q) = c :: q ->
  Forall (fun c => c <> 10) (c :: q) ->
  Re.exact label
    (Re.many isspace
       (Re.one (fun c => (c =? 58) || (c =? 65306))
          (fun _ => Re.many isspace (fun r => Some (ligne r)))))
    (label ++ ws ++ 58 :: 32 :: (c :: q) ++ 10 :: r)
  = Some (c :: q).
Proof.
  intros Hws Hq Hl.
  assert (Hexact : forall (k : text -> option text) s,
             Re.exact label k (label ++ s) = k s).
  { intros k s. induction label as [|p label IH]; simpl; [reflexivity|].
    now rewrite N.eqb_refl. }
  rewrite Hexact. rewrite many_isspace_skip; try assumption.
  - cbn [Re.one N.eqb Pos.eqb orb].
    rewrite many_isspace_total by discriminate.
    change (lstrip (32 :: (c :: q) ++ 10 :: r))
      with (lstrip ((c :: q) ++ 10 :: r)).
    change ((c :: q) ++ 10 :: r) with (c :: (q ++ 10 :: r)).
    rewrite lstrip_tete by now apply strip_fixe_tete in Hq.
    change (c :: (q ++ 10 :: r)) with ((c :: q) ++ 10 :: r).
    now rewrite ligne_app.
  - intros c0 r0 Hc0. unfold Re.one.
    rewrite (isspace_not_colon _ Hc0).
    destruct (N.eqb_spec c0 65306) as [->|]; [|reflexivity].
    vm_compute in Hc0. discriminate.
  - reflexivity.
Qed.

Lemma sans_saut_de_ligne q :
  forallb (fun c => negb (c =? 10)) q = true -> Forall (fun c => c <> 10) q.
Proof.
  induction q as [|c q IH]; simpl; [constructor|].
  intros [Hc Hq]%andb_true_iff. constructor; [|now apply IH].
  now apply negb_true_iff, N.eqb_neq in Hc.
Qed.

Lemma search_ici {A} (m : text -> option A) s g :
  m s = Some g -> Re.search m s = Some g.
Proof. intros H. destruct s; simpl; now rewrite H. Qed.

(** The field found behind a prefix in which the label does not start. *)
Lemma champ_apres label pre ws c q r :
  (forall i (k : text -> option text) s, (i < length pre)%nat ->
     Re.exact label k (drop i (pre ++ label ++ s)) = None) ->
  Forall (fun c => isspace c = true) ws ->
  strip (c :: q) = c :: q ->
  Forall (fun c => c <> 10) (c :: q) ->
  champ label (pre ++ label ++ ws ++ 58 :: 32 :: (c :: q) ++ 10 :: r)
  = c :: q.
Proof.
  intros Hpre Hws Hq Hl. unfold champ.
  rewrite search_skip by (intros i Hi; now apply Hpre).
  now rewrite (search_ici _ _ (c :: q)) by now apply champ_ici.
Qed.

(** X10. Round trip of the question through the validation form: once a
    teacher has validated a suggestion with a question that is one
    non-empty stripped line, the form opened again on that suggestion
    pre-fills the question with the same text, in either language of the
    validation and of the form. *)
Theorem validation_aller_retour
    env env' id lang lang' f f' db session session' suggestion c q :
  Session.enseignant_id session <> None ->
  Session.enseignant_id session' <> None ->
  suggestions db !! id = Some suggestion ->
  commit_leve env 0 = None ->
  Validation.question f = Some (c :: q) ->
  strip (c :: q) = c :: q ->
  Forall (fun c => c <> 10) (c :: q) ->
  exists suggestion' reponse explication,
    resp (valider_remediation env' id GET lang' f'
            (db_apres (valider_remediation env id POST lang f db session))
            session')
    = ValiderRemediation suggestion' (c :: q) reponse explication
    /\ RemediationSuggestion.statut suggestion' = valide
    /\ RemediationSuggestion.message suggestion' = Validation.message f.
Proof.
  intros Hs Hs' Hid Hcommit Hq Hstrip Hl.
  unfold valider_remediation.
  destruct (Session.enseignant_id session); [|congruence].
  destruct (Session.enseignant_id session'); [|congruence].
  rewrite Hid, Hcommit, Hq.
  cbn [db_apres inchange avec_suggestions suggestions fmt default].
  rewrite lookup_insert_eq.
  pose proof (champ_apres (lit "Question")
                (lit "Remediation:" ++ [10] ++ lit "- ") [] c q
                (lit "- Expected answer: " ++ fmt (Validation.reponse f)
                   ++ [10] ++ lit "- Explanation: "
                   ++ fmt (Validation.explication f))) as Hen.
  pose proof (champ_apres (lit "Question")
                (lit "Remédiation :" ++ [10] ++ lit "- ") [32] c q
                (lit "- Réponse attendue : " ++ fmt (Validation.reponse f)
                   ++ [10] ++ lit "- Explication : "
                   ++ fmt (Validation.explication f))) as Hfr.
  destruct (gabarit_de (default (lit "fr") lang)),
           (gabarit_de (default (lit "fr") lang'));
    cbn [resp inchange RemediationSuggestion.exercice_suggere
           RemediationSuggestion.set_statut RemediationSuggestion.set_contenu];
    eexists (RemediationSuggestion.set_statut valide
               (RemediationSuggestion.set_contenu (Validation.message f) _
                  suggestion)), _, _;
    (split; [|split; reflexivity]); f_equal.
  all: lazymatch goal with
       | |- champ _ (lit "Remediation:" ++ _) = _ =>
           etransitivity; [|apply Hen; try assumption]
       | |- _ => etransitivity; [|apply Hfr; try assumption]
       end.
  all: lazymatch goal with
       | |- champ _ _ = champ _ _ =>
           apply (f_equal (champ _)); vm_compute; reflexivity
       | |- Forall _ [] => apply Forall_nil_2
       | |- Forall _ [_] => apply Forall_cons_2; [reflexivity|apply Forall_nil_2]
       | |- forall i, _ =>
           intros i k s Hi; vm_compute in Hi;
           do 15 (destruct i as [|i]; [vm_compute; reflexivity|]);
           try (destruct i as [|i]; [vm_compute; reflexivity|]); lia
       end.
Qed.

Lemma validation_aller_retour_witness :
  exists suggestion' reponse explication,
    resp (valider_remediation
            (Exemple.env Exemple.note_2 Exemple.exercice_genere) 6 GET
            (Some (lit "en")) Approbation.formulaire
            (db_apres
               (valider_remediation
                  (Exemple.env Exemple.note_2 Exemple.exercice_genere) 6 POST
                  None Approbation.formulaire Exemple.db
                  Exemple.session_enseignant))
            Exemple.session_enseignant)
    = ValiderRemediation suggestion' (67 :: lit "alcule 1/4 + 1/2.") reponse
        explication
    /\ RemediationSuggestion.statut suggestion' = valide
    /\ RemediationSuggestion.message suggestion'
       = Validation.message Approbation.formulaire.
Proof.
  apply (validation_aller_retour
           (Exemple.env Exemple.note_2 Exemple.exercice_genere)
           (Exemple.env Exemple.note_2 Exemple.exercice_genere) 6 None
           (Some (lit "en")) Approbation.formulaire Approbation.formulaire
           Exemple.db Exemple.session_enseignant Exemple.session_enseignant
           (Exemple.suggestion 1 en_attente None) 67
           (lit "alcule 1/4 + 1/2.")).
  - discriminate.
  - discriminate.
  - vm_compute; reflexivity.
  - reflexivity.
  - vm_compute; reflexivity.
  - vm_compute; reflexivity.
  - apply sans_saut_de_ligne; vm_compute; reflexivity.
Defined.

(** What the view of the validation may change, on the session the hooks
    hand to it. *)
Lemma vue_validation_cadre env id m lang f db session :
  let apres := valider_remediation env id m lang f db session in
  (Session.enseignant_id session = None ->
   resp apres = RedirectTo (lit "login_enseignant") /\ db_apres apres = db)
  /\ (Session.enseignant_id session <> None ->
      suggestions db !! id = None ->
      resp apres = NotFound /\ db_apres apres = db)
  /\ session_apres apres = session
  /\ appels apres = []
  /\ users (db_apres apres) = users db
  /\ lecons (db_apres apres) = lecons db
  /\ exercices (db_apres apres) = exercices db
  /\ reponses (db_apres apres) = reponses db
  /\ (forall k, k <> id ->
        suggestions (db_apres apres) !! k = suggestions db !! k)
  /\ (forall r, suggestions db !! id = Some r ->
      exists r',
        suggestions (db_apres apres) !! id = Some r'
        /\ RemediationSuggestion.user_id r' = RemediationSuggestion.user_id r
        /\ RemediationSuggestion.theme r' = RemediationSuggestion.theme r
        /\ RemediationSuggestion.lecon r' = RemediationSuggestion.lecon r
        /\ RemediationSuggestion.timestamp r'
           = RemediationSuggestion.timestamp r
        /\ RemediationSuggestion.vue_par_eleve r'
           = RemediationSuggestion.vue_par_eleve r
        /\ RemediationSuggestion.notif_envoyee r'
           = RemediationSuggestion.notif_envoyee r
        /\ RemediationSuggestion.reponse_eleve r'
           = RemediationSuggestion.reponse_eleve r
        /\ RemediationSuggestion.analyse_ia r'
           = RemediationSuggestion.analyse_ia r
        /\ RemediationSuggestion.etoiles r' = RemediationSuggestion.etoiles r
        /\ (resp apres = RedirectTo (lit "remediations_a_valider") ->
            RemediationSuggestion.statut r' = valide
            /\ RemediationSuggestion.message r' = Validation.message f)).
Proof.
  cbv zeta. unfold valider_remediation.
  repeat case_match;
    cbn [resp db_apres session_apres appels inchange avec_suggestions users
           lecons exercices reponses suggestions];
    conjonctions; try reflexivity.
  all: lazymatch goal with
       | |- forall k, k <> _ -> _ => intros k Hk; now apply lookup_insert_ne
       | |- forall r, _ = Some r -> _ =>
           intros r Hr; simplify_eq; eexists;
           try rewrite lookup_insert_eq;
           conjonctions; try reflexivity; try eassumption;
           first [ intros _; split; reflexivity | intros [=] ]
       | |- _ => intros; first [congruence | split; reflexivity]
       end.
Qed.

(** The hook [before_request] lets every request to the validation
    through: no route it watches is part of the endpoint's name. *)
Lemma avant_requete_valider lang db session :
  avant_requete (lit "valider_remediation") lang db session
  = inr (set_language lang session).
Proof.
  unfold avant_requete, before_request.
  destruct (Session.eleve_id (set_language lang session)); [|reflexivity].
  let e := eval vm_compute in (lit "valider_remediation") in
  change (lit "valider_remediation") with e.
  cbv beta iota.
  match goal with |- context [existsb ?p ?l] =>
    let b := eval vm_compute in (existsb p l) in change (existsb p l) with b
  end.
  reflexivity.
Qed.

Lemma set_language_enseignant lang session :
  Session.enseignant_id (set_language lang session)
  = Session.enseignant_id session.
Proof. now destruct lang as [[|c l]|]. Qed.

(** X11. What a validation request may change, hooks and view.  Without a
    teacher in the session it redirects to the teachers' login and leaves
    the store as it is; on an unknown suggestion it answers 404 and leaves
    the store as it is; in every case the session is the one the language
    hook leaves (as before, but for the language a [?lang=] that is not
    empty writes), no completion call is made, the users, the lessons, the
    exercises, the stored answers and every other suggestion are as
    before, and the suggestion itself keeps its student, theme, lesson,
    date, flags and last attempt: only its message, its exercise text and
    its status can differ, and once the request redirects to the list of
    suggestions its status is [valide]. *)
Theorem validation_cadre env id m lang f db session :
  let apres := requete_valider_remediation env id m lang f db session in
  (Session.enseignant_id session = None ->
   resp apres = RedirectTo (lit "login_enseignant") /\ db_apres apres = db)
  /\ (Session.enseignant_id session <> None ->
      suggestions db !! id = None ->
      resp apres = NotFound /\ db_apres apres = db)
  /\ session_apres apres = set_language lang session
  /\ appels apres = []
  /\ users (db_apres apres) = users db
  /\ lecons (db_apres apres) = lecons db
  /\ exercices (db_apres apres) = exercices db
  /\ reponses (db_apres apres) = reponses db
  /\ (forall k, k <> id ->
        suggestions (db_apres apres) !! k = suggestions db !! k)
  /\ (forall r, suggestions db !! id = Some r ->
      exists r',
        suggestions (db_apres apres) !! id = Some r'
        /\ RemediationSuggestion.user_id r' = RemediationSuggestion.user_id r
        /\ RemediationSuggestion.theme r' = RemediationSuggestion.theme r
        /\ RemediationSuggestion.lecon r' = RemediationSuggestion.lecon r
        /\ RemediationSuggestion.timestamp r'
           = RemediationSuggestion.timestamp r
        /\ RemediationSuggestion.vue_par_eleve r'
           = RemediationSuggestion.vue_par_eleve r
        /\ RemediationSuggestion.notif_envoyee r'
           = RemediationSuggestion.notif_envoyee r
        /\ RemediationSuggestion.reponse_eleve r'
           = RemediationSuggestion.reponse_eleve r
        /\ RemediationSuggestion.analyse_ia r'
           = RemediationSuggestion.analyse_ia r
        /\ RemediationSuggestion.etoiles r' = RemediationSuggestion.etoiles r
        /\ (resp apres = RedirectTo (lit "remediations_a_valider") ->
            RemediationSuggestion.statut r' = valide
            /\ RemediationSuggestion.message r' = Validation.message f)).
Proof.
  cbv zeta. unfold requete_valider_remediation.
  rewrite avant_requete_valider.
  pose proof (vue_validation_cadre env id m lang f db
                (set_language lang session)) as H.
  cbv zeta in H. rewrite set_language_enseignant in H. exact H.
Qed.

Lemma validation_cadre_witness :
  resp (requete_valider_remediation
          (Exemple.env Exemple.note_2 Exemple.exercice_genere) 4 POST
          (Some (lit "en")) Approbation.formulaire Exemple.db
          Exemple.session_ana)
  = RedirectTo (lit "login_enseignant")
  /\ db_apres (requete_valider_remediation
                 (Exemple.env Exemple.note_2 Exemple.exercice_genere) 4 POST
                 (Some (lit "en")) Approbation.formulaire Exemple.db
                 Exemple.session_ana)
     = Exemple.db.
Proof.
  apply (validation_cadre
           (Exemple.env Exemple.note_2 Exemple.exercice_genere) 4 POST
           (Some (lit "en")) Approbation.formulaire Exemple.db
           Exemple.session_ana).
  reflexivity.
Defined.

(** ** The listing of a student's remediations, continued *)

Lemma plus_recent_dabord_total : Total plus_recent_dabord.
Proof. intros a b. unfold plus_recent_dabord. lia. Qed.

Lemma plus_recent_dabord_trans : Transitive plus_recent_dabord.
Proof. intros a b c. unfold plus_recent_dabord. lia. Qed.

Lemma omap_partout {A B} (g : A -> option B) (f : A -> B) (l : list A) :
  (forall x, x ∈ l -> g x = Some (f x)) -> omap g l = f <$> l.
Proof.
  induction l as [|x l IH]; intros H; [reflexivity|].
  cbn [omap list_omap fmap list_fmap].
  rewrite (H x) by apply list_elem_of_here.
  f_equal. apply IH. intros y Hy. apply H. now apply list_elem_of_further.
Qed.

(** The rows the listing renders are the selected rows after the loop. *)
Lemma lignes_rendues eleve_id (tbl : gmap N RemediationSuggestion.t) :
  let remediations :=
    merge_sort plus_recent_dabord
      (List.filter (fun kr => validee_de eleve_id (snd kr))
         (map_to_list tbl)) in
  omap (fun kr => marquer_vues (List.map fst remediations) tbl !! fst kr)
    remediations
  = (fun kr => marquer (snd kr)) <$> remediations.
Proof.
  intros remediations. apply omap_partout.
  intros [k r] Hkr. rewrite marquer_vues_lookup.
  assert (Hk : tbl !! k = Some r).
  { apply list_elem_of_In in Hkr.
    apply (Permutation_in _ (merge_sort_Permutation _ _)) in Hkr.
    apply filter_In in Hkr as [Hkr _].
    now apply list_elem_of_In, elem_of_map_to_list in Hkr. }
  cbn [fst snd]. rewrite Hk.
  rewrite bool_decide_eq_true_2; [reflexivity|].
  apply list_elem_of_In, in_map_iff. exists (k, r).
  split; [reflexivity|]. now apply list_elem_of_In.
Qed.

(** X12. The page of a student's remediations.  When the listing is
    rendered, the rows shown are exactly the suggestions of the store that
    belong to the student found by the user name and are [valide], each
    once and as the loop has left it (seen); they come most recent first,
    and every one of them carries the flag [vue_par_eleve]. *)
Theorem remediations_rendues env username db session l :
  resp (eleve_remediations env username db session) = RemediationsEleve l ->
  exists eleve_id eleve,
    (username ≫= fun u =>
       premier (fun x => Text.eqb (User.username x) u) (users db))
    = Some (eleve_id, eleve)
    /\ l ≡ₚ (fun kr => marquer (snd kr))
             <$> List.filter (fun kr => validee_de eleve_id (snd kr))
                   (map_to_list (suggestions db))
    /\ StronglySorted
         (fun a b => RemediationSuggestion.timestamp b
                     <= RemediationSuggestion.timestamp a) l
    /\ Forall (fun r => RemediationSuggestion.user_id r = eleve_id
                        /\ RemediationSuggestion.statut r = valide
                        /\ RemediationSuggestion.vue_par_eleve r = Some true)
         l.
Proof.
  unfold eleve_remediations.
  destruct (username ≫= _) as [[eleve_id eleve]|] eqn:Hu; [|discriminate].
  destruct (commit_leve env 0); [discriminate|].
  cbn [resp inchange]. intros [= <-]. exists eleve_id, eleve.
  split; [reflexivity|].
  pose proof (lignes_rendues eleve_id (suggestions db)) as Hl.
  cbv zeta in Hl. unfold validee_de in Hl at 1 2 3. rewrite Hl. clear Hl.
  fold (validee_de eleve_id).
  assert (Hperm : merge_sort plus_recent_dabord
                    (List.filter (fun kr => validee_de eleve_id (snd kr))
                       (map_to_list (suggestions db)))
                  ≡ₚ List.filter (fun kr => validee_de eleve_id (snd kr))
                       (map_to_list (suggestions db)))
    by apply merge_sort_Permutation.
  split; [|split].
  - now rewrite Hperm.
  - apply (StronglySorted_fmap _ plus_recent_dabord).
    + intros a b Hab. unfold plus_recent_dabord in Hab.
      destruct (marquer_vue (snd a)) as (_ & _ & _ & _ & _ & _ & _ & -> & _).
      destruct (marquer_vue (snd b)) as (_ & _ & _ & _ & _ & _ & _ & -> & _).
      exact Hab.
    + apply (@StronglySorted_merge_sort _ _ _ plus_recent_dabord_trans
               plus_recent_dabord_total).
  - rewrite Hperm. apply Forall_fmap, Forall_forall.
    intros [k r] Hkr. apply list_elem_of_In, filter_In in Hkr as [_ Hv].
    cbn [snd] in *. unfold validee_de in Hv.
    apply andb_true_iff in Hv as [Hid Hst].
    apply N.eqb_eq in Hid. apply bool_decide_eq_true in Hst.
    destruct (marquer_vue r) as (Hvue & Hu' & _ & _ & _ & _ & Hs' & _).
    unfold compose. cbn beta. cbn [snd]. now rewrite Hu', Hs'.
Qed.

Lemma remediations_rendues_witness :
  exists eleve_id eleve,
    (Some (lit "ana") ≫= fun u =>
       premier (fun x => Text.eqb (User.username x) u) (users Exemple.db))
    = Some (eleve_id, eleve)
    /\ [marquer (Exemple.suggestion 1 valide None)]
       ≡ₚ (fun kr => marquer (snd kr))
            <$> List.filter (fun kr => validee_de eleve_id (snd kr))
                  (map_to_list (suggestions Exemple.db))
    /\ StronglySorted
         (fun a b => RemediationSuggestion.timestamp b
                     <= RemediationSuggestion.timestamp a)
         [marquer (Exemple.suggestion 1 valide None)]
    /\ Forall (fun r => RemediationSuggestion.user_id r = eleve_id
                        /\ RemediationSuggestion.statut r = valide
                        /\ RemediationSuggestion.vue_par_eleve r = Some true)
         [marquer (Exemple.suggestion 1 valide None)].
Proof.
  apply (remediations_rendues
           (Exemple.env Exemple.note_2 Exemple.exercice_genere)
           (Some (lit "ana")) Exemple.db Exemple.session_ana
           [marquer (Exemple.suggestion 1 valide None)]).
  vm_compute. reflexivity.
Defined.

Lemma validee_de_marquer eleve_id r :
  validee_de eleve_id (marquer r) = validee_de eleve_id r.
Proof.
  unfold validee_de.
  destruct (marquer_vue r) as (_ & -> & _ & _ & _ & _ & -> & _).
  reflexivity.
Qed.

(** The store after the loop, row by row. *)
Lemma marquer_vues_selection eleve_id (tbl : gmap N RemediationSuggestion.t) k :
  marquer_vues
    (List.map fst
       (merge_sort plus_recent_dabord
          (List.filter (fun kr => validee_de eleve_id (snd kr))
             (map_to_list tbl))))
    tbl !! k
  = (fun r => if validee_de eleve_id r then marquer r else r) <$> tbl !! k.
Proof.
  rewrite marquer_vues_lookup.
  pose proof (cles_selectionnees eleve_id tbl k) as Hsel.
  destruct (tbl !! k) as [r|] eqn:Hk; [|reflexivity].
  cbn [fmap option_fmap option_map]. f_equal.
  case_bool_decide as Hin.
  - apply Hsel in Hin as (r0 & [= <-] & ->). reflexivity.
  - destruct (validee_de eleve_id r) eqn:Hv; [|reflexivity].
    exfalso. apply Hin, Hsel. eauto.
Qed.

(** X13. Opening the listing a second time changes nothing more: after a
    rendered listing, the same request (whatever the session, the clock and
    the answers of the completion service) leaves the store as the first
    one left it. *)
Theorem remediations_deux_fois env env' username db session session' l :
  resp (eleve_remediations env username db session) = RemediationsEleve l ->
  db_apres
    (eleve_remediations env' username
       (db_apres (eleve_remediations env username db session)) session')
  = db_apres (eleve_remediations env username db session).
Proof.
  unfold eleve_remediations.
  destruct (username ≫= _) as [[eleve_id eleve]|] eqn:Hu; [|discriminate].
  destruct (commit_leve env 0); [discriminate|]. intros _.
  cbn [db_apres inchange avec_suggestions users suggestions].
  rewrite Hu.
  destruct (commit_leve env' 0); [reflexivity|].
  cbn [db_apres inchange avec_suggestions users lecons exercices reponses
         suggestions].
  f_equal. apply map_eq. intros k.
  fold (validee_de eleve_id).
  change (fun kr : N * RemediationSuggestion.t =>
            (RemediationSuggestion.user_id (snd kr) =? eleve_id)
            && bool_decide (RemediationSuggestion.statut (snd kr) = valide))
    with (fun kr : N * RemediationSuggestion.t => validee_de eleve_id (snd kr)).
  rewrite !marquer_vues_selection.
  destruct (suggestions db !! k) as [r|]; [|reflexivity].
  cbn [fmap option_fmap option_map]. f_equal.
  destruct (validee_de eleve_id r) eqn:Hv; [|now rewrite Hv].
  now rewrite validee_de_marquer, Hv, marquer_idem.
Qed.

Lemma remediations_deux_fois_witness :
  db_apres
    (eleve_remediations Panne.env_remediation (Some (lit "ana"))
       (db_apres
          (eleve_remediations
             (Exemple.env Exemple.note_2 Exemple.exercice_genere)
             (Some (lit "ana")) Exemple.db Exemple.session_ana))
       Exemple.session_enseignant)
  = db_apres
      (eleve_remediations
         (Exemple.env Exemple.note_2 Exemple.exercice_genere)
         (Some (lit "ana")) Exemple.db Exemple.session_ana).
Proof.
  apply (remediations_deux_fois
           (Exemple.env Exemple.note_2 Exemple.exercice_genere)
           Panne.env_remediation (Some (lit "ana")) Exemple.db
           Exemple.session_ana Exemple.session_enseignant
           [marquer (Exemple.suggestion 1 valide None)]).
  vm_compute. reflexivity.
Defined.

(** ** The guided dialogue, continued *)

Section Resultats.
Context {A : Type} (P : A -> Prop).

(** What holds of every result of the continuation holds of every result
    of the matcher. *)
Lemma exact_resultat pat (k : text -> option A) :
  (forall s r, k s = Some r -> P r) ->
  forall s r, Re.exact pat k s = Some r -> P r.
Proof.
  intros Hk. induction pat as [|p pat IH]; intros s r; simpl; [apply Hk|].
  destruct s as [|c s]; [discriminate|].
  destruct (c =? p); [apply IH | discriminate].
Qed.

Lemma many_resultat cls (k : text -> option A) :
  (forall s r, k s = Some r -> P r) ->
  forall s r, Re.many cls k s = Some r -> P r.
Proof.
  intros Hk s. induction s as [|c s IH]; intros r; simpl; [apply Hk|].
  destruct (cls c); [|apply Hk].
  destruct (Re.many cls k s) eqn:E; [|apply Hk].
  intros [= <-]. now apply IH.
Qed.

Lemma one_resultat cls (k : char -> text -> option A) :
  (forall c s r, k c s = Some r -> P r) ->
  forall s r, Re.one cls k s = Some r -> P r.
Proof.
  intros Hk [|c s] r; simpl; [discriminate|].
  destruct (cls c); [apply Hk | discriminate].
Qed.

Lemma search_resultat (m : text -> option A) :
  (forall s r, m s = Some r -> P r) ->
  forall s r, Re.search m s = Some r -> P r.
Proof.
  intros Hm s. induction s as [|c s IH]; intros r; simpl.
  - destruct (m []) eqn:E; [|discriminate]. intros [= <-]. eauto.
  - destruct (m (c :: s)) eqn:E; [intros [= <-]; eauto | apply IH].
Qed.
End Resultats.

(** The lazy group in front of a question mark holds neither a newline nor
    a question mark. *)
Lemma lazy_dot_groupe acc s r :
  Re.lazy_dot acc (fun g => Re.exact (lit "?") (fun _ => Some g)) s = Some r ->
  exists g, r = rev acc ++ g /\ Forall (fun c => c <> 10 /\ c <> 63) g.
Proof.
  revert acc. induction s as [|c s IH]; intros acc; cbn [Re.lazy_dot].
  - change (Re.exact (lit "?") (fun _ : text => Some (rev acc)) [])
      with (@None text). discriminate.
  - change (Re.exact (lit "?") (fun _ : text => Some (rev acc)) (c :: s))
      with (if c =? 63 then Some (rev acc) else None).
    destruct (N.eqb_spec c 63) as [->|H63].
    + intros [= <-]. exists []. now rewrite app_nil_r.
    + destruct (N.eqb_spec c 10) as [->|H10]; [discriminate|].
      intros (g & -> & Hg)%IH. exists (c :: g). split.
      * cbn [rev]. now rewrite <- app_assoc.
      * now constructor.
Qed.

Lemma motif_groupe pattern s g :
  motif pattern s = Some g -> Forall (fun c => c <> 10 /\ c <> 63) g.
Proof.
  unfold motif. revert s g.
  apply one_resultat. intros _. apply exact_resultat.
  apply one_resultat. intros _. apply many_resultat.
  intros s r (g & -> & Hg)%lazy_dot_groupe. exact Hg.
Qed.

Lemma lstrip_decoupe s :
  exists ws, s = ws ++ lstrip s /\ Forall (fun c => isspace c = true) ws.
Proof.
  induction s as [|c s (ws & Hs & Hws)]; [now exists []|].
  simpl. destruct (isspace c) eqn:E.
  - exists (c :: ws). split; [now rewrite Hs at 1 | now constructor].
  - now exists [].
Qed.

Lemma lstrip_debut s :
  match lstrip s with c :: _ => isspace c = false | [] => True end.
Proof.
  induction s as [|c s IH]; simpl; [exact I|].
  destruct (isspace c) eqn:E; [exact IH | exact E].
Qed.

Lemma lstrip_fixe s :
  match s with c :: _ => isspace c = false | [] => True end -> lstrip s = s.
Proof. destruct s as [|c s]; simpl; [reflexivity|]. now intros ->. Qed.

(** [strip] leaves a stripped string as it is. *)
Lemma strip_idem s : strip (strip s) = strip s.
Proof.
  unfold strip.
  destruct (lstrip_decoupe (rev (lstrip s))) as (ws & Hrev & _).
  pose proof (lstrip_debut s) as Ht.
  pose proof (lstrip_debut (rev (lstrip s))) as Hu.
  set (u := lstrip (rev (lstrip s))) in *.
  assert (Hfix : lstrip (rev u) = rev u).
  { apply lstrip_fixe. apply (f_equal (@rev _)) in Hrev.
    rewrite rev_involutive, rev_app_distr in Hrev.
    destruct (rev u) as [|c ru]; [exact I|].
    rewrite Hrev in Ht. exact Ht. }
  rewrite Hfix, rev_involutive. now rewrite (lstrip_fixe u).
Qed.

Lemma strip_elements s c : c ∈ strip s -> c ∈ s.
Proof.
  assert (Hl : forall t, c ∈ lstrip t -> c ∈ t).
  { intros t Hc. destruct (lstrip_decoupe t) as (ws & Ht & _).
    rewrite Ht. apply elem_of_app. now right. }
  unfold strip. intros Hc%list_elem_of_In%in_rev%list_elem_of_In%Hl.
  now apply list_elem_of_In, in_rev, list_elem_of_In, Hl in Hc.
Qed.

(** The first question found by a list of patterns. *)
Lemma premiere_question_forme patterns reponse q :
  premiere_question patterns reponse = Some q ->
  (5 < length q)%nat
  /\ strip q = q
  /\ Forall (fun c => c <> 10 /\ c <> 63) q.
Proof.
  induction patterns as [|pattern patterns IH]; cbn [premiere_question];
    [discriminate|].
  destruct (Re.search (motif pattern) reponse) as [g|] eqn:Hg; [|exact IH].
  destruct (5 <? length (strip g))%nat eqn:Hlen; [|exact IH].
  intros [= <-]. split; [now apply Nat.ltb_lt|].
  split; [apply strip_idem|].
  assert (Hgroupe : Forall (fun c => c <> 10 /\ c <> 63) g).
  { revert Hg. apply search_resultat. intros s r. apply motif_groupe. }
  rewrite Forall_forall in Hgroupe |- *.
  intros c Hc. now apply Hgroupe, strip_elements.
Qed.

(** X14. The question [extraire_question] finds in a reply, when it finds
    one, has more than five characters, is stripped, and holds neither a
    line break nor a question mark. *)
Theorem extraire_question_forme reponse lang q :
  extraire_question reponse lang = Some q ->
  (5 < length q)%nat
  /\ strip q = q
  /\ Forall (fun c => c <> 10 /\ c <> 63) q.
Proof. apply premiere_question_forme. Qed.

Lemma extraire_question_forme_witness :
  (5 < length (lit "add the fractions now"))%nat
  /\ strip (lit "add the fractions now") = lit "add the fractions now"
  /\ Forall (fun c => c <> 10 /\ c <> 63) (lit "add the fractions now").
Proof.
  apply (extraire_question_forme
           (lit "Yes! Can you add the fractions now?") (lit "en")).
  vm_compute. reflexivity.
Defined.

Lemma dict_get_absent {V} key (d : list (text * V)) :
  key ∉ List.map fst d -> dict_get key d = None.
Proof.
  unfold dict_get. induction d as [|[k v] d IH]; [reflexivity|].
  cbn [List.map fst List.find]. intros H.
  unfold Text.eqb at 1. rewrite bool_decide_eq_false_2.
  - apply IH. intros Hin. apply H. now apply list_elem_of_further.
  - intros ->. apply H. apply list_elem_of_here.
Qed.

(** X15. The fallbacks of [get_message]: a language that is neither [fr]
    nor [en] gets the French message, and a key that is not in the table
    comes back as the message, in every language. *)
Theorem get_message_replis key lang :
  (lang <> lit "fr" -> lang <> lit "en" ->
   get_message key lang = get_message key (lit "fr"))
  /\ (key ∉ List.map fst messages_fr -> get_message key lang = key).
Proof.
  split.
  - intros Hfr Hen. unfold get_message, dict_get at 2 4.
    cbn [List.find fst snd]. unfold Text.eqb at 1 2 3.
    rewrite (bool_decide_eq_false_2 (lit "fr" = lang)) by congruence.
    rewrite (bool_decide_eq_false_2 (lit "en" = lang)) by congruence.
    reflexivity.
  - intros Hkey. unfold get_message, dict_get at 2.
    cbn [List.find fst snd]. unfold Text.eqb at 1 2.
    assert (Hen : key ∉ List.map fst messages_en).
    { replace (List.map fst messages_en) with (List.map fst messages_fr)
        by (vm_compute; reflexivity). exact Hkey. }
    repeat case_bool_decide;
      cbn [fmap option_fmap option_map default from_option id snd].
    all: lazymatch goal with
         | |- context [dict_get _ messages_en] =>
             rewrite (dict_get_absent _ _ Hen)
         | |- _ => rewrite (dict_get_absent _ _ Hkey)
         end; reflexivity.
Qed.

Lemma get_message_replis_witness :
  get_message (lit "essai_termine") (lit "es")
  = get_message (lit "essai_termine") (lit "fr").
Proof.
  apply (proj1 (get_message_replis (lit "essai_termine") (lit "es")));
    vm_compute; discriminate.
Defined.

(** The hook lets through a student whose access is not refused. *)
Lemma before_request_admis endpoint db session eleve_id eleve :
  Session.eleve_id session = Some eleve_id ->
  users db !! eleve_id = Some eleve ->
  acces_refuse eleve = false ->
  before_request endpoint db session = None.
Proof.
  intros Hs Hu Href. unfold before_request. rewrite Hs, Hu, Href.
  rewrite andb_false_r. now repeat case_match.
Qed.

(** A turn of the dialogue writes the transcript, the pending question
    and the flashed messages, nothing else of the session. *)
Lemma tour_cadre env eleve lang question matiere session0 :
  let s := (tour env eleve lang question matiere session0).1.1 in
  Session.eleve_id s = Session.eleve_id session0
  /\ Session.enseignant_id s = Session.enseignant_id session0
  /\ Session.lang s = Session.lang session0
  /\ Session.mode_examen s = Session.mode_examen session0
  /\ Session.remediation_access s = Session.remediation_access session0.
Proof.
  unfold tour.
  destruct (Session.derniere_q_ia session0) as [[|c q]|];
    [destruct (generer_debut_conversation _ _ _ _ _ _) as [[r|e] a]
    |destruct (generer_suite_conversation _ _ _ _ _ _ _ _) as [[r|e] a]
    |destruct (generer_debut_conversation _ _ _ _ _ _) as [[r|e] a]];
    try destruct (extraire_question r lang) as [[|c' q']|];
    cbn; conjonctions; reflexivity.
Qed.

(** X16. A student whose trial runs on, or who has paid, is let in: the
    request to the dialogue, hook and view, renders the page, leaves the
    store as it is and keeps the student in the session. *)
Theorem eleve_admis env m f db session eleve_id eleve :
  Session.eleve_id session = Some eleve_id ->
  users db !! eleve_id = Some eleve ->
  User.role eleve = lit "élève" ->
  User.essai_expire eleve = false \/ User.statut_paiement eleve = lit "paye" ->
  (exists conversation,
     resp (requete_enseignant_virtuel env m f db session)
     = EnseignantVirtuel conversation)
  /\ db_apres (requete_enseignant_virtuel env m f db session) = db
  /\ Session.eleve_id
       (session_apres (requete_enseignant_virtuel env m f db session))
     = Some eleve_id.
Proof.
  intros Hs Hu Hrole Hacces.
  assert (Href : acces_refuse eleve = false).
  { unfold acces_refuse. destruct Hacces as [-> | ->]; [reflexivity|].
    unfold Text.eqb. rewrite bool_decide_eq_true_2 by reflexivity.
    apply andb_false_r. }
  unfold requete_enseignant_virtuel.
  rewrite (before_request_admis _ db session eleve_id eleve) by assumption.
  unfold enseignant_virtuel. rewrite Hs, Hu, Href, Hrole.
  assert (Hr : Text.eqb (lit "élève") (lit "élève") = true)
    by now apply bool_decide_eq_true_2.
  rewrite Hr. cbn [negb].
  all: destruct m; [|destruct (3 <=? _)%nat;
                      [destruct (tour _ _ _ _ _ _) as [[s a] j] eqn:Ht|]].
  all: cbn [resp db_apres session_apres]; split; [eauto|split; [reflexivity|]].
  all: try (destruct (Session.conversation session); exact Hs).
  all: destruct (tour_cadre env eleve (default (lit "fr") (Session.lang session))
                 (strip (default [] (Dialogue.question f)))
                 match Dialogue.matiere f with
                 | Some (c :: r) => c :: r
                 | _ =>
                     if Text.eqb (default (lit "fr") (Session.lang session))
                          (lit "fr")
                     then lit "mathématiques"
                     else lit "mathematics"
                 end
                 match Session.conversation session with
                 | Some _ => session
                 | None => Session.set_conversation [] session
                 end) as (Hid & _).
  all: rewrite Ht in Hid; cbn [fst] in Hid; rewrite Hid.
  all: destruct (Session.conversation session); exact Hs.
Qed.

Lemma eleve_admis_witness :
  (exists conversation,
     resp (requete_enseignant_virtuel Tour.avec_client POST Tour.question
             Exemple.db Tour.session_bob)
     = EnseignantVirtuel conversation)
  /\ db_apres (requete_enseignant_virtuel Tour.avec_client POST Tour.question
                 Exemple.db Tour.session_bob)
     = Exemple.db
  /\ Session.eleve_id
       (session_apres
          (requete_enseignant_virtuel Tour.avec_client POST Tour.question
             Exemple.db Tour.session_bob))
     = Some 2.
Proof.
  apply (eleve_admis Tour.avec_client POST Tour.question Exemple.db
           Tour.session_bob 2 Exemple.bob).
  - reflexivity.
  - vm_compute. reflexivity.
  - reflexivity.
  - left. reflexivity.
Defined.

(** X17. While the client of the completion service can be built, the cap
    of 15 entries is an invariant of the requests to the dialogue: a
    transcript within the cap before the request, hook and view, is within
    it afterwards, whatever the method, the form and the student. *)
Theorem transcript_borne_sans_erreur env m f db session :
  client_leve env = None ->
  (length (transcript session) <= 15)%nat ->
  (length
     (transcript
        (session_apres (requete_enseignant_virtuel env m f db session)))
   <= 15)%nat.
Proof.
  intros Hc Hl. unfold requete_enseignant_virtuel.
  destruct (before_request _ db session) as [r|] eqn:Hb.
  - unfold before_request in Hb. repeat case_match; try discriminate.
    injection Hb as <-. cbn. lia.
  - clear Hb. unfold enseignant_virtuel.
    assert (H0 : (length
                    (transcript
                       match Session.conversation session with
                       | Some _ => session
                       | None => Session.set_conversation [] session
                       end) <= 15)%nat).
    { destruct (Session.conversation session) eqn:E; [exact Hl | cbn; lia]. }
    destruct (Session.eleve_id session); [|exact Hl].
    destruct (users db !! _) as [eleve|]; [|exact Hl].
    destruct (negb _); [exact Hl|].
    destruct (acces_refuse eleve); [cbn; lia|].
    destruct m; [exact H0|].
    destruct (3 <=? _)%nat; [|exact H0].
    match goal with |- context [tour ?e ?u ?l ?q ?m ?s] =>
      pose proof (tour_borne e u l q m s Hc) as Ht;
      destruct (tour e u l q m s) as [[s' a] j]
    end.
    exact Ht.
Qed.

Lemma transcript_borne_sans_erreur_witness :
  (length
     (transcript
        (session_apres
           (requete_enseignant_virtuel Tour.avec_client POST Tour.question
              Exemple.db Tour.session_bob)))
   <= 15)%nat.
Proof.
  apply (transcript_borne_sans_erreur Tour.avec_client POST Tour.question
           Exemple.db Tour.session_bob).
  - reflexivity.
  - vm_compute. lia.
Defined.

Lemma limiter_last (l : list text) : last (limiter l) = last l.
Proof.
  unfold limiter. destruct (15 <? length l)%nat eqn:E; [|reflexivity].
  apply Nat.ltb_lt in E.
  rewrite !last_lookup, lookup_drop, length_drop. f_equal. lia.
Qed.

(** A request that ends before the page is rendered. *)
Ltac sans_page :=
  cbn [db_apres appels journal resp session_apres inchange length];
  conjonctions;
  [ reflexivity | lia | congruence
  | intros _; conjonctions; [reflexivity | reflexivity | discriminate] ].

(** X18. What the dialogue view never does, and when it calls the
    completion service.  It never writes to the store and makes at most one
    call; it calls only for a posted question of at least three characters
    once stripped; and when it renders the page for a GET or for a shorter
    question, without a call, the page shows the transcript of the session,
    and the pending question and the flashed messages are as before. *)
Theorem dialogue_appels env m f db session :
  let r := enseignant_virtuel env m f db session in
  db_apres r = db
  /\ (length (appels r) <= 1)%nat
  /\ (appels r <> [] ->
      m = POST
      /\ (3 <= length (strip (default [] (Dialogue.question f))))%nat
      /\ client_leve env = None)
  /\ (m = GET
      \/ (length (strip (default [] (Dialogue.question f))) < 3)%nat ->
      appels r = [] /\ journal r = []
      /\ forall conversation,
           resp r = EnseignantVirtuel conversation ->
           conversation = transcript session
           /\ transcript (session_apres r) = transcript session
           /\ Session.derniere_q_ia (session_apres r)
              = Session.derniere_q_ia session
           /\ Session.flashes (session_apres r) = Session.flashes session).
Proof.
  cbv zeta. unfold enseignant_virtuel.
  assert (Htour : forall eleve lang question matiere session0,
            let a := (tour env eleve lang question matiere session0).1.2 in
            (length a <= 1)%nat /\ (a <> [] -> client_leve env = None)).
  { intros eleve lang question matiere session0. unfold tour,
      generer_suite_conversation, generer_debut_conversation.
    destruct (client_leve env);
      destruct (Session.derniere_q_ia session0) as [[|c q]|];
      cbn [fst snd length]; split; (lia || congruence). }
  destruct (Session.eleve_id session);
    [|sans_page].
  destruct (users db !! _) as [eleve|];
    [|sans_page].
  destruct (negb _);
    [sans_page|].
  destruct (acces_refuse eleve);
    [sans_page|].
  assert (Hrendu :
    forall conversation,
      EnseignantVirtuel
        (default []
           (Session.conversation
              match Session.conversation session with
              | Some _ => session
              | None => Session.set_conversation [] session
              end)) = EnseignantVirtuel conversation ->
      conversation = transcript session
      /\ transcript
           match Session.conversation session with
           | Some _ => session
           | None => Session.set_conversation [] session
           end = transcript session
      /\ Session.derniere_q_ia
           match Session.conversation session with
           | Some _ => session
           | None => Session.set_conversation [] session
           end = Session.derniere_q_ia session
      /\ Session.flashes
           match Session.conversation session with
           | Some _ => session
           | None => Session.set_conversation [] session
           end = Session.flashes session).
  { intros conversation [= <-]. unfold transcript.
    destruct (Session.conversation session) eqn:E; cbn; rewrite ?E;
      conjonctions; reflexivity. }
  destruct m.
  - cbn [db_apres appels journal resp session_apres length].
    conjonctions; try reflexivity; [lia|congruence|].
    intros _; conjonctions; [reflexivity|reflexivity|exact Hrendu].
  - destruct (Nat.leb_spec 3
                (length (strip (default [] (Dialogue.question f)))))
      as [Hq|Hq].
    + match goal with |- context [tour ?e ?u ?l ?q ?ma ?s] =>
        destruct (Htour u l q ma s) as [Hlen Hclient];
        destruct (tour e u l q ma s) as [[s' a] j]
      end.
      cbn [fst snd] in Hlen, Hclient.
      cbn [db_apres appels journal resp session_apres].
      conjonctions; [reflexivity|exact Hlen| |].
      * intros Ha. conjonctions; [reflexivity|exact Hq|exact (Hclient Ha)].
      * intros [[=]|Hcourt]. lia.
    + cbn [db_apres appels journal resp session_apres length].
      conjonctions; try reflexivity; [lia|congruence|].
    intros _; conjonctions; [reflexivity|reflexivity|exact Hrendu].
Qed.

Lemma dialogue_appels_witness :
  appels (enseignant_virtuel Tour.avec_client POST
            (Dialogue.mkForm (Some (lit " 6 ")) None) Exemple.db
            Tour.session_bob) = []
  /\ journal (enseignant_virtuel Tour.avec_client POST
                (Dialogue.mkForm (Some (lit " 6 ")) None) Exemple.db
                Tour.session_bob) = []
  /\ forall conversation,
       resp (enseignant_virtuel Tour.avec_client POST
               (Dialogue.mkForm (Some (lit " 6 ")) None) Exemple.db
               Tour.session_bob)
       = EnseignantVirtuel conversation ->
       conversation = transcript Tour.session_bob
       /\ transcript
            (session_apres
               (enseignant_virtuel Tour.avec_client POST
                  (Dialogue.mkForm (Some (lit " 6 ")) None) Exemple.db
                  Tour.session_bob))
          = transcript Tour.session_bob
       /\ Session.derniere_q_ia
            (session_apres
               (enseignant_virtuel Tour.avec_client POST
                  (Dialogue.mkForm (Some (lit " 6 ")) None) Exemple.db
                  Tour.session_bob))
          = Session.derniere_q_ia Tour.session_bob
       /\ Session.flashes
            (session_apres
               (enseignant_virtuel Tour.avec_client POST
                  (Dialogue.mkForm (Some (lit " 6 ")) None) Exemple.db
                  Tour.session_bob))
          = Session.flashes Tour.session_bob.
Proof.
  apply (dialogue_appels Tour.avec_client POST
           (Dialogue.mkForm (Some (lit " 6 ")) None) Exemple.db
           Tour.session_bob).
  right. vm_compute. lia.
Defined.

(** X19. The pending question after a turn that the generator answers.
    The transcript ends with the tutor's reply, the request logs nothing
    and makes one completion call; a question extracted from that reply is
    the pending question; when none is extracted, a turn that answered a
    pending question leaves none, and a turn that opened a question leaves
    what was there. *)
Theorem question_en_attente env eleve lang question matiere session0 :
  client_leve env = None ->
  exists reponse p,
    (tour env eleve lang question matiere session0).1.2 = [p]
    /\ (tour env eleve lang question matiere session0).2 = []
    /\ last (transcript (tour env eleve lang question matiere session0).1.1)
       = Some (enseignant_label lang ++ lit " " ++ reponse)
    /\ Session.derniere_q_ia
         (tour env eleve lang question matiere session0).1.1
       = match extraire_question reponse lang with
         | Some q => Some q
         | None =>
             match Session.derniere_q_ia session0 with
             | Some (_ :: _) => None
             | o => o
             end
         end.
Proof.
  intros Hc. unfold tour, generer_suite_conversation,
    generer_debut_conversation. rewrite Hc.
  destruct (Session.derniere_q_ia session0) as [[|c q]|] eqn:Hd;
    cbn [fst snd];
    match goal with |- context [extraire_question ?r lang] =>
      exists r; pose proof (premiere_question_forme
                              (if Text.eqb lang (lit "fr") then patterns_fr
                               else patterns_en) r) as Hforme;
      fold (extraire_question r lang) in Hforme;
      destruct (extraire_question r lang) as [[|c' q']|]
    end;
    try (destruct (Hforme [] eq_refl) as [Hlen _]; cbn in Hlen; lia);
    eexists; (split; [reflexivity|]); (split; [reflexivity|]);
    cbn [transcript Session.conversation Session.flash
           Session.set_conversation Session.set_derniere_q_ia
           Session.derniere_q_ia default from_option id];
    rewrite limiter_last, last_snoc; split; try reflexivity; exact Hd.
Qed.

Lemma question_en_attente_witness :
  exists reponse p,
    (tour Tour.avec_client Exemple.bob (lit "en") (lit "It is 6, I think.")
       (lit "mathematics") Tour.session_bob).1.2 = [p]
    /\ (tour Tour.avec_client Exemple.bob (lit "en")
          (lit "It is 6, I think.") (lit "mathematics") Tour.session_bob).2
       = []
    /\ last (transcript
               (tour Tour.avec_client Exemple.bob (lit "en")
                  (lit "It is 6, I think.") (lit "mathematics")
                  Tour.session_bob).1.1)
       = Some (enseignant_label (lit "en") ++ lit " " ++ reponse)
    /\ Session.derniere_q_ia
         (tour Tour.avec_client Exemple.bob (lit "en")
            (lit "It is 6, I think.") (lit "mathematics")
            Tour.session_bob).1.1
       = match extraire_question reponse (lit "en") with
         | Some q => Some q
         | None =>
             match Session.derniere_q_ia Tour.session_bob with
             | Some (_ :: _) => None
             | o => o
             end
         end.
Proof.
  apply (question_en_attente Tour.avec_client Exemple.bob (lit "en")
           (lit "It is 6, I think.") (lit "mathematics") Tour.session_bob).
  reflexivity.
Defined.

(** X20. The completion call of a turn.  With a non-empty pending question
    the call is the continuation prompt for the student's message as the
    answer to that question, and the history it carries is the end of the
    transcript, the student's message last, at most ten entries long;
    without one it is the opening prompt for the message. *)
Theorem appel_du_tour env eleve lang question matiere session0 p :
  (tour env eleve lang question matiere session0).1.2 = [p] ->
  (forall c q,
     Session.derniere_q_ia session0 = Some (c :: q) ->
     exists niveau historique debut mode_examen,
       p = PromptSuite lang niveau matiere historique (c :: q) question
             mode_examen
       /\ (length historique <= 10)%nat
       /\ last historique = Some (eleve_label lang ++ lit " " ++ question)
       /\ match transcript session0 with
          | [] =>
              [enseignant_label lang ++ lit " "
                 ++ get_message (lit "bienvenue_enseignant") lang]
          | conversation => conversation
          end ++ [eleve_label lang ++ lit " " ++ question]
          = debut ++ historique)
  /\ (Session.derniere_q_ia session0 = None
      \/ Session.derniere_q_ia session0 = Some [] ->
      exists niveau mode_examen,
        p = PromptDebut lang niveau matiere question mode_examen).
Proof.
  unfold tour, generer_suite_conversation, generer_debut_conversation,
    transcript.
  destruct (client_leve env);
    destruct (Session.derniere_q_ia session0) as [[|c q]|];
    cbn [fst snd]; try discriminate.
  1, 3: intros [= <-]; split; [discriminate|];
    intros _; do 2 eexists; reflexivity.
  match goal with |- context [drop ?n ?l] => set (l0 := l) end.
  intros [= <-]. split; [|now intros [|]].
  intros c' q' [= <- <-].
  eexists _, (drop (length l0 - 10) l0), (take (length l0 - 10) l0), _.
  conjonctions; [reflexivity| | |].
  - rewrite length_drop. unfold text. lia.
  - rewrite last_lookup, lookup_drop, length_drop. unfold text. subst l0.
    match goal with |- (?l ++ [?x]) !! ?i = _ =>
      replace i with (length l + 0)%nat
    end.
    + rewrite lookup_app_r by lia.
      match goal with |- _ !! ?i = _ => replace i with 0%nat by lia end.
      reflexivity.
    + rewrite length_app. cbn [length]. lia.
  - rewrite take_drop. subst l0.
    now destruct (default [] (Session.conversation session0)).
Qed.

Lemma appel_du_tour_witness :
  exists niveau historique debut mode_examen,
    PromptSuite (lit "en") (lit "7th grade") (lit "mathematics")
      (drop 6 (Tour.quinze ++ [lit "👤 Student: It is 6, I think."]))
      (116 :: lit "he common denominator") (lit "It is 6, I think.") false
    = PromptSuite (lit "en") niveau (lit "mathematics") historique
        (116 :: lit "he common denominator") (lit "It is 6, I think.")
        mode_examen
    /\ (length historique <= 10)%nat
    /\ last historique
       = Some (eleve_label (lit "en") ++ lit " " ++ lit "It is 6, I think.")
    /\ match transcript Tour.session_bob with
       | [] =>
           [enseignant_label (lit "en") ++ lit " "
              ++ get_message (lit "bienvenue_enseignant") (lit "en")]
       | conversation => conversation
       end ++ [eleve_label (lit "en") ++ lit " " ++ lit "It is 6, I think."]
       = debut ++ historique.
Proof.
  apply (proj1
           (appel_du_tour Tour.avec_client Exemple.bob (lit "en")
              (lit "It is 6, I think.") (lit "mathematics") Tour.session_bob
              (PromptSuite (lit "en") (lit "7th grade") (lit "mathematics")
                 (drop 6
                    (Tour.quinze ++ [lit "👤 Student: It is 6, I think."]))
                 (116 :: lit "he common denominator")
                 (lit "It is 6, I think.") false)
              ltac:(vm_compute; reflexivity))).
  vm_compute. reflexivity.
Defined.

(** ** Retries *)

Lemma tentatives_fin {A} (none : A) (func : nat -> appel A) max_retries
    restant attempt k :
  Z.of_nat (attempt + restant) = max_retries ->
  (k < restant)%nat ->
  (forall i, (i < k)%nat -> continue (func (attempt + i)%nat) = true) ->
  continue (func (attempt + k)%nat) = false \/ S k = restant ->
  tentatives none func max_retries restant attempt
  = (fin_de (func (attempt + k)%nat), S k, seq (S attempt) k).
Proof.
  revert attempt k. induction restant as [|restant IH]; intros attempt k Hn Hk
    Havant Hfin; [lia|].
  cbn [tentatives]. destruct k as [|k].
  - rewrite Nat.add_0_r in *. destruct (func attempt) as [v|e];
      [reflexivity|]. cbn [fin_de continue] in *.
    destruct Hfin as [-> | Hdernier]; [reflexivity|].
    replace (Z.of_nat attempt <? max_retries - 1)%Z with false
      by (symmetry; apply Z.ltb_ge; lia).
    now rewrite andb_false_r.
  - pose proof (Havant 0%nat ltac:(lia)) as H0. rewrite Nat.add_0_r in H0.
    destruct (func attempt) as [v|e]; [discriminate|].
    cbn [continue] in H0. rewrite H0.
    replace (Z.of_nat attempt <? max_retries - 1)%Z with true
      by (symmetry; apply Z.ltb_lt; lia).
    cbn [andb]. rewrite (IH (S attempt) k).
    + replace (S attempt + k)%nat with (attempt + S k)%nat by lia.
      cbn [seq]. do 3 f_equal. lia.
    + lia.
    + lia.
    + intros i Hi. replace (S attempt + i)%nat with (attempt + S i)%nat by lia.
      apply Havant. lia.
    + replace (S attempt + k)%nat with (attempt + S k)%nat by lia.
      destruct Hfin; [now left | right; lia].
Qed.

(** X21. How [execute_with_retry] ends.  When the attempts before attempt
    [k] all raise an [OperationalError] that mentions a lock, and attempt
    [k] returns, raises something else, or is the last one allowed, the
    function ends with what attempt [k] does (its value, or its exception,
    the locked one of the last attempt included), after [k + 1] calls and
    the pauses of factors 1 to [k]. *)
Theorem execute_with_retry_fin {A} (none : A) (func : nat -> appel A)
    max_retries k :
  (Z.of_nat k < max_retries)%Z ->
  (forall i, (i < k)%nat -> continue (func i) = true) ->
  continue (func k) = false \/ Z.of_nat (S k) = max_retries ->
  execute_with_retry none func max_retries
  = (fin_de (func k), S k, seq 1 k).
Proof.
  intros Hk Havant Hfin. unfold execute_with_retry.
  apply (tentatives_fin none func max_retries (Z.to_nat max_retries) 0 k).
  - cbn [Nat.add]. lia.
  - lia.
  - exact Havant.
  - destruct Hfin; [now left | right; lia].
Qed.

Lemma execute_with_retry_fin_witness :
  execute_with_retry None
    (fun i => if (i <? 2)%nat
              then Echoue (OperationalError (lit "database is locked"))
              else Retourne (Some 7))
    3
  = (Rend (Some 7), 3%nat, [1%nat; 2%nat]).
Proof.
  apply (execute_with_retry_fin None
           (fun i => if (i <? 2)%nat
                     then Echoue (OperationalError (lit "database is locked"))
                     else Retourne (Some 7))
           3 2).
  - lia.
  - intros i Hi. destruct i as [|[|i]]; [vm_compute; reflexivity..|lia].
  - left. reflexivity.
Defined.

Lemma tentatives_borne {A} (none : A) (func : nat -> appel A) max_retries
    restant attempt :
  restant = 0%nat \/ Z.of_nat (attempt + restant) = max_retries ->
  let '(f, n, pauses) := tentatives none func max_retries restant attempt in
  (n <= restant)%nat
  /\ pauses = seq (S attempt) (n - 1)
  /\ (n = 0%nat <-> restant = 0%nat).
Proof.
  revert attempt.
  induction restant as [|restant IH]; intros attempt Hinv; cbn [tentatives].
  - repeat split; reflexivity || lia.
  - destruct Hinv as [|Hinv]; [discriminate|].
    destruct (func attempt) as [v|e].
    + repeat split; try discriminate; try reflexivity; lia.
    + destruct (verrouillee e); cbn [andb];
        [|repeat split; try discriminate; try reflexivity; lia].
      destruct (Z.ltb_spec (Z.of_nat attempt) (max_retries - 1)) as [Hlt|Hge];
        [|repeat split; try discriminate; try reflexivity; lia].
      specialize (IH (S attempt) ltac:(right; lia)).
      destruct (tentatives none func max_retries restant (S attempt))
        as [[f n] pauses].
      destruct IH as (Hn & -> & H0).
      assert (Hn0 : n <> 0%nat) by (rewrite H0; lia).
      repeat split; try lia; try discriminate.
      destruct n as [|n]; [lia|]. cbn [Nat.sub seq].
      rewrite Nat.sub_0_r, Nat.add_1_r. reflexivity.
Qed.

(** X22. [execute_with_retry] never calls [func] more than [max_retries]
    times and pauses once between two calls, for 1, 2, ... times the unit;
    it makes no call exactly when [max_retries] is not positive, and it
    then returns [None]. *)
Theorem execute_with_retry_borne {A} (none : A) (func : nat -> appel A)
    max_retries :
  ((execute_with_retry none func max_retries).1.2 <= Z.to_nat max_retries)%nat
  /\ (execute_with_retry none func max_retries).2
     = seq 1 ((execute_with_retry none func max_retries).1.2 - 1)
  /\ ((execute_with_retry none func max_retries).1.2 = 0%nat
      <-> (max_retries <= 0)%Z)
  /\ ((max_retries <= 0)%Z ->
      execute_with_retry none func max_retries = (Rend none, 0%nat, [])).
Proof.
  unfold execute_with_retry.
  assert (Hinv : Z.to_nat max_retries = 0%nat
                 \/ Z.of_nat (0 + Z.to_nat max_retries) = max_retries) by lia.
  pose proof (tentatives_borne none func max_retries (Z.to_nat max_retries) 0
                Hinv) as H.
  destruct (tentatives none func max_retries (Z.to_nat max_retries) 0)
    as [[f n] pauses] eqn:E.
  destruct H as (Hn & Hp & H0).
  cbn [fst snd]. rewrite H0. repeat split; try assumption; try lia.
  intros Hneg. rewrite <- E.
  replace (Z.to_nat max_retries) with 0%nat by lia. reflexivity.
Qed.

Lemma execute_with_retry_borne_witness :
  execute_with_retry None (fun _ => Retourne (Some 7)) 0
  = (Rend None, 0%nat, []).
Proof.
  apply (execute_with_retry_borne None (fun _ => Retourne (Some 7)) 0).
  lia.
Defined.

(** ** Resetting and deleting *)

(** X23. A new exercise starts a new dialogue.  After [/nouvel-exercice],
    the question an admitted student posts (three characters or more once
    stripped, the client of the completion service at hand) is sent with
    the opening prompt, outside the examination mode, whatever the session
    held before; the page shows three entries: the welcome, the student's
    message and the reply. *)
Theorem nouvel_exercice_puis_question env f db session eleve_id eleve :
  Session.eleve_id session = Some eleve_id ->
  users db !! eleve_id = Some eleve ->
  User.role eleve = lit "élève" ->
  acces_refuse eleve = false ->
  client_leve env = None ->
  (3 <= length (strip (default [] (Dialogue.question f))))%nat ->
  let suite :=
    enseignant_virtuel env POST f db
      (session_apres (nouvel_exercice db session)) in
  exists niveau matiere bienvenue reponse,
    appels suite
    = [PromptDebut (default (lit "fr") (Session.lang session)) niveau matiere
         (strip (default [] (Dialogue.question f))) false]
    /\ resp suite
       = EnseignantVirtuel
           [bienvenue;
            eleve_label (default (lit "fr") (Session.lang session))
              ++ lit " " ++ strip (default [] (Dialogue.question f));
            enseignant_label (default (lit "fr") (Session.lang session))
              ++ lit " " ++ reponse].
Proof.
  intros Hs Hu Hrole Href Hc Hq. cbv zeta.
  unfold nouvel_exercice. rewrite Hs.
  cbn [session_apres inchange]. unfold enseignant_virtuel.
  cbn [Session.flash Session.eleve_id Session.lang Session.conversation].
  rewrite Hu, Hrole, Href.
  assert (Hr : Text.eqb (lit "élève") (lit "élève") = true)
    by now apply bool_decide_eq_true_2.
  rewrite Hr. cbn [negb].
  apply Nat.leb_le in Hq. rewrite Hq.
  unfold tour, generer_debut_conversation. rewrite Hc.
  unfold Session.flash, Session.set_conversation.
  cbn [Session.conversation Session.derniere_q_ia Session.mode_examen
         Session.eleve_id Session.enseignant_id Session.lang
         Session.remediation_access Session.flashes
         default from_option id fst snd].
  match goal with |- context [extraire_question ?r ?l] =>
    destruct (extraire_question r l) as [[|c q]|]
  end.
  all: unfold Session.set_derniere_q_ia, Session.set_conversation.
  all: cbn [appels resp Session.conversation default from_option id app].
  all: do 4 eexists; split; [reflexivity|].
  all: unfold limiter; cbn [length app Nat.ltb Nat.leb]; reflexivity.
Qed.

Lemma nouvel_exercice_puis_question_witness :
  exists niveau matiere bienvenue reponse,
    appels (enseignant_virtuel Tour.avec_client POST Tour.question Exemple.db
              (session_apres (nouvel_exercice Exemple.db Tour.session_bob)))
    = [PromptDebut (default (lit "fr") (Session.lang Tour.session_bob)) niveau
         matiere (strip (default [] (Dialogue.question Tour.question))) false]
    /\ resp (enseignant_virtuel Tour.avec_client POST Tour.question Exemple.db
               (session_apres (nouvel_exercice Exemple.db Tour.session_bob)))
       = EnseignantVirtuel
           [bienvenue;
            eleve_label (default (lit "fr") (Session.lang Tour.session_bob))
              ++ lit " " ++ strip (default [] (Dialogue.question Tour.question));
            enseignant_label (default (lit "fr") (Session.lang Tour.session_bob))
              ++ lit " " ++ reponse].
Proof.
  apply (nouvel_exercice_puis_question Tour.avec_client Tour.question
           Exemple.db Tour.session_bob 2 Exemple.bob).
  - reflexivity.
  - vm_compute. reflexivity.
  - reflexivity.
  - reflexivity.
  - reflexivity.
  - vm_compute. lia.
Defined.

(** X24. Closing the remediation access also starts a new dialogue, but
    keeps the examination mode: after [/close-remediation-access], the
    question an admitted student posts is sent with the opening prompt, in
    the examination mode the session held, and the page shows the welcome,
    the student's message and the reply; the [remediation_access] of the
    session is still what it was. *)
Theorem close_remediation_access_puis_question env f db session eleve_id
    eleve :
  Session.eleve_id session = Some eleve_id ->
  users db !! eleve_id = Some eleve ->
  User.role eleve = lit "élève" ->
  acces_refuse eleve = false ->
  client_leve env = None ->
  (3 <= length (strip (default [] (Dialogue.question f))))%nat ->
  let suite :=
    enseignant_virtuel env POST f db
      (session_apres (close_remediation_access db session)) in
  exists niveau matiere bienvenue reponse,
    appels suite
    = [PromptDebut (default (lit "fr") (Session.lang session)) niveau matiere
         (strip (default [] (Dialogue.question f)))
         (default false (Session.mode_examen session))]
    /\ resp suite
       = EnseignantVirtuel
           [bienvenue;
            eleve_label (default (lit "fr") (Session.lang session))
              ++ lit " " ++ strip (default [] (Dialogue.question f));
            enseignant_label (default (lit "fr") (Session.lang session))
              ++ lit " " ++ reponse]
    /\ Session.remediation_access (session_apres suite)
       = Session.remediation_access session.
Proof.
  intros Hs Hu Hrole Href Hc Hq. cbv zeta.
  unfold close_remediation_access. rewrite Hs.
  cbn [session_apres inchange]. unfold enseignant_virtuel.
  cbn [Session.flash Session.eleve_id Session.lang Session.conversation].
  rewrite Hu, Hrole, Href.
  assert (Hr : Text.eqb (lit "élève") (lit "élève") = true)
    by now apply bool_decide_eq_true_2.
  rewrite Hr. cbn [negb].
  apply Nat.leb_le in Hq. rewrite Hq.
  unfold tour, generer_debut_conversation. rewrite Hc.
  unfold Session.flash, Session.set_conversation.
  cbn [Session.conversation Session.derniere_q_ia Session.mode_examen
         Session.eleve_id Session.enseignant_id Session.lang
         Session.remediation_access Session.flashes
         default from_option id fst snd].
  match goal with |- context [extraire_question ?r ?l] =>
    destruct (extraire_question r l) as [[|c q]|]
  end.
  all: unfold Session.set_derniere_q_ia, Session.set_conversation.
  all: cbn [appels resp session_apres Session.conversation
              Session.remediation_access default from_option id app].
  all: do 4 eexists; split; [reflexivity|]; split; [|reflexivity].
  all: unfold limiter; cbn [length app Nat.ltb Nat.leb]; reflexivity.
Qed.

Lemma close_remediation_access_puis_question_witness :
  exists niveau matiere bienvenue reponse,
    appels (enseignant_virtuel Tour.avec_client POST Tour.question Exemple.db
              (session_apres
                 (close_remediation_access Exemple.db Tour.session_bob)))
    = [PromptDebut (default (lit "fr") (Session.lang Tour.session_bob)) niveau
         matiere (strip (default [] (Dialogue.question Tour.question)))
         (default false (Session.mode_examen Tour.session_bob))]
    /\ resp (enseignant_virtuel Tour.avec_client POST Tour.question Exemple.db
               (session_apres
                  (close_remediation_access Exemple.db Tour.session_bob)))
       = EnseignantVirtuel
           [bienvenue;
            eleve_label (default (lit "fr") (Session.lang Tour.session_bob))
              ++ lit " " ++ strip (default [] (Dialogue.question Tour.question));
            enseignant_label (default (lit "fr") (Session.lang Tour.session_bob))
              ++ lit " " ++ reponse]
    /\ Session.remediation_access
         (session_apres
            (enseignant_virtuel Tour.avec_client POST Tour.question Exemple.db
               (session_apres
                  (close_remediation_access Exemple.db Tour.session_bob))))
       = Session.remediation_access Tour.session_bob.
Proof.
  apply (close_remediation_access_puis_question Tour.avec_client Tour.question
           Exemple.db Tour.session_bob 2 Exemple.bob).
  - reflexivity.
  - vm_compute. reflexivity.
  - reflexivity.
  - reflexivity.
  - reflexivity.
  - vm_compute. lia.
Defined.

(** X25. Deleting a suggestion.  When the deletion redirects to the list of
    pending suggestions, a teacher was logged in and the suggestion
    existed; it is gone from the store, every other suggestion and every
    other table is as before; and from then on the validation form and the
    student's remediation page answer 404 for it. *)
Theorem suppression_definitive env id db session :
  resp (supprimer_remediation env id db session)
  = RedirectTo (lit "remediations_en_attente") ->
  Session.enseignant_id session <> None
  /\ suggestions db !! id <> None
  /\ suggestions (db_apres (supprimer_remediation env id db session)) !! id
     = None
  /\ (forall k, k <> id ->
        suggestions (db_apres (supprimer_remediation env id db session)) !! k
        = suggestions db !! k)
  /\ users (db_apres (supprimer_remediation env id db session)) = users db
  /\ lecons (db_apres (supprimer_remediation env id db session)) = lecons db
  /\ exercices (db_apres (supprimer_remediation env id db session))
     = exercices db
  /\ reponses (db_apres (supprimer_remediation env id db session))
     = reponses db
  /\ (forall env' m lang f session',
        Session.enseignant_id session' <> None ->
        resp (valider_remediation env' id m lang f
                (db_apres (supprimer_remediation env id db session)) session')
        = NotFound)
  /\ (forall env' m f session' eleve_id,
        Session.eleve_id session' = Some eleve_id -> eleve_id <> 0 ->
        resp (faire_remediation env' id m f
                (db_apres (supprimer_remediation env id db session)) session')
        = NotFound).
Proof.
  unfold supprimer_remediation.
  destruct (Session.enseignant_id session) as [ens|];
    [|intros H; vm_compute in H; discriminate].
  destruct (suggestions db !! id) as [s|] eqn:Hid; [|discriminate].
  destruct (commit_leve env 0); [discriminate|]. intros _.
  cbn [db_apres inchange avec_suggestions suggestions users lecons exercices
         reponses].
  conjonctions; try reflexivity; try discriminate.
  - apply lookup_delete_eq.
  - intros k Hk. now apply lookup_delete_ne.
  - intros env' m lang f session' Hens. unfold valider_remediation.
    destruct (Session.enseignant_id session'); [|congruence].
    cbn [suggestions avec_suggestions]. now rewrite lookup_delete_eq.
  - intros env' m f session' eleve_id Hs H0. unfold faire_remediation.
    rewrite Hs. destruct eleve_id as [|p]; [congruence|].
    cbn [suggestions avec_suggestions]. now rewrite lookup_delete_eq.
Qed.

Lemma suppression_definitive_witness :
  Session.enseignant_id Exemple.session_enseignant <> None
  /\ suggestions Exemple.db !! 4 <> None
  /\ suggestions
       (db_apres
          (supprimer_remediation
             (Exemple.env Exemple.note_2 Exemple.exercice_genere) 4 Exemple.db
             Exemple.session_enseignant)) !! 4
     = None.
Proof.
  pose proof (suppression_definitive
                (Exemple.env Exemple.note_2 Exemple.exercice_genere) 4
                Exemple.db Exemple.session_enseignant) as H.
  destruct H as (H1 & H2 & H3 & _); [vm_compute; reflexivity|].
  exact (conj H1 (conj H2 H3)).
Defined.

(** ** The pages of an exercise *)

Lemma indice_Some {A} (l : list A) i :
  (- Z.of_nat (length l) <= i < Z.of_nat (length l))%Z ->
  exists x, indice l i = Some x /\ x ∈ l.
Proof.
  intros Hi. unfold indice.
  destruct (Z.leb_spec 0 i).
  - destruct (lookup_lt_is_Some_2 l (Z.to_nat i)) as [x Hx]; [lia|].
    exists x. split; [exact Hx|]. now apply list_elem_of_lookup_2 in Hx.
  - destruct (Z.leb_spec (- Z.of_nat (length l)) i); [|lia].
    destruct (lookup_lt_is_Some_2 l (Z.to_nat (Z.of_nat (length l) + i)))
      as [x Hx]; [lia|].
    exists x. split; [exact Hx|]. now apply list_elem_of_lookup_2 in Hx.
Qed.

(** X26. The page of an exercise in the sequence of a lesson.  When
    [/faire-exercice-sequentiel] shows an exercise, the exercise is one of
    the lesson, the total is the number of exercises of the lesson, no
    feedback is shown, and the index lies between minus the total and the
    total; the page at the next index is an exercise of the same total
    when [has_next] holds, and the end of the sequence otherwise. *)
Theorem sequence_suivant a db exercice index total show_feedback has_next :
  faire_exercice_sequentiel a db
  = SeqExercice exercice index total show_feedback has_next ->
  index = FaireSequentiel.index a
  /\ show_feedback = false
  /\ Exercice.lecon_id exercice = FaireSequentiel.lecon_id a
  /\ (exists k, exercices db !! k = Some exercice)
  /\ total
     = Z.of_nat
         (length
            (List.filter
               (fun kr => bool_decide (Exercice.lecon_id (snd kr)
                                       = FaireSequentiel.lecon_id a))
               (map_to_list (exercices db))))
  /\ (- total <= index < total)%Z
  /\ (has_next = true ->
      exists suivant b,
        faire_exercice_sequentiel
          (FaireSequentiel.mkArgs (FaireSequentiel.username a)
             (FaireSequentiel.lang a) (FaireSequentiel.lecon_id a)
             (index + 1)) db
        = SeqExercice suivant (index + 1) total false b)
  /\ (has_next = false ->
      faire_exercice_sequentiel
        (FaireSequentiel.mkArgs (FaireSequentiel.username a)
           (FaireSequentiel.lang a) (FaireSequentiel.lecon_id a)
           (index + 1)) db
      = SeqComplete).
Proof.
  unfold faire_exercice_sequentiel. cbn [FaireSequentiel.username
    FaireSequentiel.lang FaireSequentiel.lecon_id FaireSequentiel.index].
  destruct (FaireSequentiel.username a ≫= _) as [eleve|]; [|discriminate].
  destruct (FaireSequentiel.lecon_id a ≫= _) as [lecon|]; [|discriminate].
  set (l := List.filter _ _).
  destruct (Z.leb_spec (Z.of_nat (length l)) (FaireSequentiel.index a))
    as [|Hlt]; [discriminate|].
  destruct (indice l (FaireSequentiel.index a)) as [[k ex]|] eqn:Hi;
    [|discriminate].
  intros [= <- <- <- <- <-]. cbn [snd].
  assert (Hin : (k, ex) ∈ l).
  { destruct (Z.ltb_spec (FaireSequentiel.index a) (- Z.of_nat (length l)))
      as [Hneg|Hpos].
    - unfold indice in Hi.
      destruct (Z.leb_spec 0 (FaireSequentiel.index a)); [lia|].
      destruct (Z.leb_spec (- Z.of_nat (length l)) (FaireSequentiel.index a));
        [lia|discriminate].
    - destruct (indice_Some l (FaireSequentiel.index a)) as (x & Hx & Hx');
        [lia|]. congruence. }
  assert (Hbas : (- Z.of_nat (length l) <= FaireSequentiel.index a)%Z).
  { destruct (Z.leb_spec (- Z.of_nat (length l)) (FaireSequentiel.index a));
      [assumption|].
    unfold indice in Hi.
    destruct (Z.leb_spec 0 (FaireSequentiel.index a)); [lia|].
    destruct (Z.leb_spec (- Z.of_nat (length l)) (FaireSequentiel.index a));
      [lia|discriminate]. }
  apply list_elem_of_In, filter_In in Hin as [Hin Hlecon].
  apply bool_decide_eq_true in Hlecon. cbn [snd] in Hlecon.
  apply list_elem_of_In, elem_of_map_to_list in Hin.
  conjonctions; try reflexivity; try lia; eauto.
  - intros Hn%Z.ltb_lt.
    destruct (Z.leb_spec (Z.of_nat (length l)) (FaireSequentiel.index a + 1));
      [lia|].
    destruct (indice_Some l (FaireSequentiel.index a + 1)) as (x & -> & _);
      [lia|]. eauto.
  - intros Hn%Z.ltb_ge.
    destruct (Z.leb_spec (Z.of_nat (length l)) (FaireSequentiel.index a + 1));
      [reflexivity|lia].
Qed.

Lemma sequence_suivant_witness :
  exists suivant b,
    faire_exercice_sequentiel
      (FaireSequentiel.mkArgs (Some (lit "bob")) (Some (lit "en")) (Some 1) 0)
      Exemple.db
    = SeqExercice suivant 0 1 false b.
Proof.
  destruct (sequence_suivant
              (FaireSequentiel.mkArgs (Some (lit "bob")) (Some (lit "en"))
                 (Some 1) (-1))
              Exemple.db Exemple.exercice7 (-1) 1 false true)
    as (_ & _ & _ & _ & _ & _ & H & _).
  - vm_compute. reflexivity.
  - exact (H eq_refl).
Defined.

(** The views of the two routes of the sequence agree on what comes
    next. *)
Lemma vue_sequence_accord env f db session r show_feedback has_next next_index :
  resp (soumettre_sequentiel env f db session)
  = ExerciceSequentiel r show_feedback has_next next_index ->
  (- Z.of_nat
       (length
          (List.filter
             (fun kr => bool_decide (Exercice.lecon_id (snd kr)
                                     = SoumettreSequentiel.lecon_id f))
             (map_to_list (exercices db))))
   <= next_index)%Z ->
  next_index = (SoumettreSequentiel.index f + 1)%Z
  /\ exercices (db_apres (soumettre_sequentiel env f db session))
     = exercices db
  /\ (if has_next
      then exists suivant total b,
             faire_exercice_sequentiel
               (FaireSequentiel.mkArgs (SoumettreSequentiel.username f)
                  (SoumettreSequentiel.lang f)
                  (SoumettreSequentiel.lecon_id f) next_index)
               (db_apres (soumettre_sequentiel env f db session))
             = SeqExercice suivant next_index total false b
      else faire_exercice_sequentiel
             (FaireSequentiel.mkArgs (SoumettreSequentiel.username f)
                (SoumettreSequentiel.lang f)
                (SoumettreSequentiel.lecon_id f) next_index)
             (db_apres (soumettre_sequentiel env f db session))
           = SeqComplete).
Proof.
  intros Hresp Hbas.
  assert (Hsuite :
    exists eleve lecon,
      (SoumettreSequentiel.username f ≫= fun u =>
         premier (fun x => Text.eqb (User.username x) u) (users db))
      = Some eleve
      /\ SoumettreSequentiel.lecon_id f ≫= (lecons db !!.) = Some lecon
      /\ next_index = (SoumettreSequentiel.index f + 1)%Z
      /\ has_next
         = (next_index
            <? Z.of_nat
                 (length
                    (List.filter
                       (fun kr => bool_decide (Exercice.lecon_id (snd kr)
                                     = SoumettreSequentiel.lecon_id f))
                       (map_to_list (exercices db)))))%Z
      /\ users (db_apres (soumettre_sequentiel env f db session)) = users db
      /\ lecons (db_apres (soumettre_sequentiel env f db session))
         = lecons db
      /\ exercices (db_apres (soumettre_sequentiel env f db session))
         = exercices db).
  { revert Hresp. unfold soumettre_sequentiel.
    repeat case_match; try discriminate.
    all: cbn [resp db_apres users lecons exercices]; intros [= <- <- <- <-].
    all: do 2 eexists; conjonctions; reflexivity. }
  destruct Hsuite as (eleve & lecon & Hu & Hl & -> & -> & Husers & Hlecons
                      & Hex).
  split; [reflexivity|]. split; [exact Hex|].
  unfold faire_exercice_sequentiel.
  cbn [FaireSequentiel.username FaireSequentiel.lang FaireSequentiel.lecon_id
         FaireSequentiel.index].
  rewrite Husers, Hlecons, Hex, Hu, Hl.
  set (l := List.filter _ _) in *.
  destruct (Z.ltb_spec (SoumettreSequentiel.index f + 1) (Z.of_nat (length l)))
    as [Hlt|Hge].
  - destruct (Z.leb_spec (Z.of_nat (length l))
                (SoumettreSequentiel.index f + 1)); [lia|].
    destruct (indice_Some l (SoumettreSequentiel.index f + 1))
      as (x & -> & _); [lia|]. eauto.
  - destruct (Z.leb_spec (Z.of_nat (length l))
                (SoumettreSequentiel.index f + 1)); [reflexivity|lia].
Qed.

(** What the hooks do of a request: they hand the session the language
    hook leaves to the view, or [before_request] answers with the
    redirection to the login page. *)
Lemma avant_requete_cas endpoint lang db session :
  (forall session1,
     avant_requete endpoint lang db session = inr session1 ->
     session1 = set_language lang session)
  /\ (forall r,
        avant_requete endpoint lang db session = inl r ->
        resp r = RedirectTo (lit "login_eleve")).
Proof.
  unfold avant_requete.
  destruct (before_request _ db (set_language lang session)) as [r'|] eqn:Hb;
    split; intros x [= <-]; [|reflexivity].
  now apply before_request_redirige in Hb.
Qed.

(** X27. The two routes of the sequence agree on what comes next.  When
    [/soumettre-sequentiel] renders its page for a lesson and an index, the
    index it proposes is the next one and the exercises of the store are as
    before.  For a following request to [/faire-exercice-sequentiel] at
    that index (not below minus the number of exercises of the lesson),
    for the same student and lesson and with any session: when the hooks
    let it through, it shows an exercise if the page announced a next one
    and the end of the sequence if it did not, with the session the
    language hook leaves; otherwise the hook [before_request] answers it
    with the redirection to the login page. *)
Theorem sequence_accord env f db session r show_feedback has_next next_index
    session' :
  resp (soumettre_sequentiel env f db session)
  = ExerciceSequentiel r show_feedback has_next next_index ->
  (- Z.of_nat
       (length
          (List.filter
             (fun kr => bool_decide (Exercice.lecon_id (snd kr)
                                     = SoumettreSequentiel.lecon_id f))
             (map_to_list (exercices db))))
   <= next_index)%Z ->
  let suivante :=
    requete_faire_exercice_sequentiel
      (FaireSequentiel.mkArgs (SoumettreSequentiel.username f)
         (SoumettreSequentiel.lang f) (SoumettreSequentiel.lecon_id f)
         next_index)
      (db_apres (soumettre_sequentiel env f db session)) session' in
  next_index = (SoumettreSequentiel.index f + 1)%Z
  /\ exercices (db_apres (soumettre_sequentiel env f db session))
     = exercices db
  /\ (forall session1,
        avant_requete (lit "faire_exercice_sequentiel")
          (SoumettreSequentiel.lang f)
          (db_apres (soumettre_sequentiel env f db session)) session'
        = inr session1 ->
        session1 = set_language (SoumettreSequentiel.lang f) session'
        /\ if has_next
           then exists suivant total b,
                  suivante
                  = inr (SeqExercice suivant next_index total false b,
                         session1)
           else suivante = inr (SeqComplete, session1))
  /\ (forall r',
        avant_requete (lit "faire_exercice_sequentiel")
          (SoumettreSequentiel.lang f)
          (db_apres (soumettre_sequentiel env f db session)) session'
        = inl r' ->
        suivante = inl r' /\ resp r' = RedirectTo (lit "login_eleve")).
Proof.
  intros Hresp Hbas. cbv zeta.
  destruct (vue_sequence_accord env f db session r show_feedback has_next
              next_index Hresp Hbas) as (Hn & Hex & Hvue).
  split; [exact Hn|]. split; [exact Hex|].
  unfold requete_faire_exercice_sequentiel.
  cbn [FaireSequentiel.lang].
  destruct (avant_requete_cas (lit "faire_exercice_sequentiel")
              (SoumettreSequentiel.lang f)
              (db_apres (soumettre_sequentiel env f db session)) session')
    as [Hinr Hinl].
  split.
  - intros session1 Ha. split; [now apply Hinr|]. rewrite Ha.
    destruct has_next.
    + destruct Hvue as (suivant & total & b & ->). eauto.
    + now rewrite Hvue.
  - intros r' Ha. rewrite Ha. split; [reflexivity|now apply Hinl].
Qed.

Lemma sequence_accord_witness :
  requete_faire_exercice_sequentiel
    (FaireSequentiel.mkArgs
       (SoumettreSequentiel.username Exemple.reponse_bob)
       (SoumettreSequentiel.lang Exemple.reponse_bob)
       (SoumettreSequentiel.lecon_id Exemple.reponse_bob) 1)
    (db_apres
       (soumettre_sequentiel
          (Exemple.env Exemple.note_4 Exemple.exercice_genere)
          Exemple.reponse_bob Exemple.db Exemple.session_ana))
    Tour.session_bob
  = inr (SeqComplete, set_language (Some (lit "en")) Tour.session_bob).
Proof.
  destruct (sequence_accord
              (Exemple.env Exemple.note_4 Exemple.exercice_genere)
              Exemple.reponse_bob Exemple.db Exemple.session_ana
              (Some (StudentResponse.mk 2 (Some 7) (lit "5/6")
                       (lit "Analysis: fine. Score: 4/5") 4 1000))
              true false 1%Z Tour.session_bob
              ltac:(vm_compute; reflexivity) ltac:(vm_compute; discriminate))
    as (_ & _ & H & _).
  apply (H (set_language (Some (lit "en")) Tour.session_bob)).
  vm_compute. reflexivity.
Defined.

Lemma premier_Some {A} (p : A -> bool) (tbl : gmap N A) k x :
  tbl !! k = Some x -> p x = true ->
  exists k' x', premier p tbl = Some (k', x')
                /\ tbl !! k' = Some x' /\ p x' = true.
Proof.
  intros Hk Hp. unfold premier.
  destruct (List.find _ (map_to_list tbl)) as [[k' x']|] eqn:Hf.
  - apply find_some in Hf as [Hin Hp'].
    apply list_elem_of_In, elem_of_map_to_list in Hin. eauto.
  - assert (Hin : In (k, x) (map_to_list tbl))
      by now apply list_elem_of_In, elem_of_map_to_list.
    apply (find_none _ _ Hf) in Hin. cbn [snd] in Hin. congruence.
Qed.

Lemma premier_None {A} (p : A -> bool) (tbl : gmap N A) :
  (forall k x, tbl !! k = Some x -> p x = false) -> premier p tbl = None.
Proof.
  intros H. unfold premier.
  destruct (List.find _ (map_to_list tbl)) as [[k' x']|] eqn:Hf;
    [|reflexivity].
  apply find_some in Hf as [Hin Hp'].
  apply list_elem_of_In, elem_of_map_to_list in Hin.
  apply H in Hin. cbn [snd] in Hp'. congruence.
Qed.

(** The view of the page of an exercise, on the session the hooks hand to
    it. *)
Lemma vue_exercice_une_fois ex_id m username lang reponse_eleve db session
    eleve_id eleve exercice :
  (username ≫= fun u =>
     premier (fun x => Text.eqb (User.username x) u) (users db))
  = Some (eleve_id, eleve) ->
  exercices db !! ex_id = Some exercice ->
  ((exists k r,
      reponses db !! k = Some r
      /\ StudentResponse.user_id r = eleve_id
      /\ StudentResponse.exercice_id r = Some ex_id) ->
   exists k r,
     faire_exercice ex_id m username lang reponse_eleve db session
     = (ExDetail exercice (Some r) true true, session)
     /\ reponses db !! k = Some r
     /\ StudentResponse.user_id r = eleve_id
     /\ StudentResponse.exercice_id r = Some ex_id)
  /\ ((forall k r,
         reponses db !! k = Some r ->
         StudentResponse.user_id r = eleve_id ->
         StudentResponse.exercice_id r <> Some ex_id) ->
      strip (default [] reponse_eleve) <> [] ->
      faire_exercice ex_id POST username lang reponse_eleve db session
      = (VersSoumettreReponse eleve_id ex_id
           (strip (default [] reponse_eleve)), session)).
Proof.
  intros Hu Hex. unfold faire_exercice. rewrite Hu, Hex. split.
  - intros (k & r & Hk & Hr & He).
    destruct (premier_Some
                (fun r => (StudentResponse.user_id r =? eleve_id)
                          && bool_decide (StudentResponse.exercice_id r
                                          = Some ex_id))
                (reponses db) k r Hk) as (k' & r' & -> & Hk' & Hp).
    { rewrite Hr, He, N.eqb_refl. now apply bool_decide_eq_true_2. }
    apply andb_true_iff in Hp as [Hp1%N.eqb_eq Hp2%bool_decide_eq_true].
    exists k', r'. destruct m; cbn [fmap option_fmap option_map snd];
      rewrite bool_decide_eq_true_2 by discriminate; auto.
  - intros Hnone Hrep. rewrite premier_None.
    + destruct (strip (default [] reponse_eleve)) as [|c q] eqn:Hs;
        [congruence|reflexivity].
    + intros k r Hk. destruct (N.eqb_spec (StudentResponse.user_id r) eleve_id)
        as [Hr|]; [|reflexivity].
      cbn [andb]. apply bool_decide_eq_false_2. now apply (Hnone k).
Qed.

(** X28. An exercise is submitted once through its page.  A request to
    [/exercice/<id>] for a student found by the user name and an existing
    exercise.  When the hooks let it through, the view is called with the
    session the language hook leaves, and: if an answer of the student to
    the exercise is stored, the page shows one of these answers as already
    completed, for a GET and for a POST alike, and never redirects to the
    submission; if none is stored, a POST with an answer that is not blank
    redirects to the submission with the student, the exercise and the
    stripped answer; the session stays the one the view was called with.
    Otherwise the hook [before_request] answers the request with the
    redirection to the login page. *)
Theorem exercice_une_fois ex_id m username lang reponse_eleve db session
    eleve_id eleve exercice :
  (username ≫= fun u =>
     premier (fun x => Text.eqb (User.username x) u) (users db))
  = Some (eleve_id, eleve) ->
  exercices db !! ex_id = Some exercice ->
  (forall session1,
     avant_requete (lit "faire_exercice") lang db session = inr session1 ->
     session1 = set_language lang session
     /\ ((exists k r,
            reponses db !! k = Some r
            /\ StudentResponse.user_id r = eleve_id
            /\ StudentResponse.exercice_id r = Some ex_id) ->
         exists k r,
           requete_faire_exercice ex_id m username lang reponse_eleve db
             session
           = inr (ExDetail exercice (Some r) true true, session1)
           /\ reponses db !! k = Some r
           /\ StudentResponse.user_id r = eleve_id
           /\ StudentResponse.exercice_id r = Some ex_id)
     /\ ((forall k r,
            reponses db !! k = Some r ->
            StudentResponse.user_id r = eleve_id ->
            StudentResponse.exercice_id r <> Some ex_id) ->
         strip (default [] reponse_eleve) <> [] ->
         requete_faire_exercice ex_id POST username lang reponse_eleve db
           session
         = inr (VersSoumettreReponse eleve_id ex_id
                  (strip (default [] reponse_eleve)), session1)))
  /\ (forall r',
        avant_requete (lit "faire_exercice") lang db session = inl r' ->
        requete_faire_exercice ex_id m username lang reponse_eleve db session
        = inl r'
        /\ resp r' = RedirectTo (lit "login_eleve")).
Proof.
  intros Hu Hex.
  destruct (avant_requete_cas (lit "faire_exercice") lang db session)
    as [Hinr Hinl].
  unfold requete_faire_exercice. split.
  - intros session1 Ha. rewrite Ha. split; [now apply Hinr|].
    split.
    + intros Hdeja.
      destruct (proj1 (vue_exercice_une_fois ex_id m username lang
                         reponse_eleve db session1 eleve_id eleve exercice
                         Hu Hex) Hdeja) as (k & r & -> & H).
      eauto.
    + intros Hnone Hrep.
      now rewrite (proj2 (vue_exercice_une_fois ex_id m username lang
                            reponse_eleve db session1 eleve_id eleve exercice
                            Hu Hex) Hnone Hrep).
  - intros r' Ha. rewrite Ha. split; [reflexivity|now apply Hinl].
Qed.

Lemma exercice_une_fois_witness :
  requete_faire_exercice 7 POST (Some (lit "bob")) (Some (lit "en"))
    (Some (lit " 5/6 ")) Exemple.db Tour.session_bob
  = inr (VersSoumettreReponse 2 7 (strip (default [] (Some (lit " 5/6 ")))),
         set_language (Some (lit "en")) Tour.session_bob).
Proof.
  destruct (proj1 (exercice_une_fois 7 POST (Some (lit "bob"))
                     (Some (lit "en")) (Some (lit " 5/6 ")) Exemple.db
                     Tour.session_bob 2 Exemple.bob Exemple.exercice7
                     ltac:(vm_compute; reflexivity)
                     ltac:(vm_compute; reflexivity))
              (set_language (Some (lit "en")) Tour.session_bob)
              ltac:(vm_compute; reflexivity))
    as (_ & _ & H).
  apply H.
  - intros k r Hk.
    change (reponses Exemple.db) with (∅ : gmap N StudentResponse.t) in Hk.
    rewrite lookup_empty in Hk. discriminate.
  - vm_compute. discriminate.
Defined.
